(** * TauPy velocity models

    A shallow embedding of [taupy/VelocityModel.py]: the layered velocity
    model, its depth lookups, discontinuity bookkeeping, the [.tvel] and
    [.nd] readers, [validate] and the earth-flattening transform.

    Numbers.  The Python code computes with floats.  Depths and velocities
    are embedded as exact rationals ([Q]) wherever the code only compares,
    subtracts and takes absolute values, so that every definition runs;
    [==] and the boolean tests below are the numeric comparisons of the
    source.  The earth-flattening transform needs the logarithm and is
    embedded over the real numbers ([R]).  NaN and infinities are outside
    the model.

    Effects.  A call returns a value, raises an exception or (for the
    token-skipping loops of the readers at end of input) never returns;
    this is the [outcome] type. *)

From Stdlib Require Import String List Sorted Bool Arith Lia.
From Stdlib Require Import Reals.
From Stdlib Require Import QArith Qabs Psatz.
Import ListNotations.

Local Close Scope R_scope.
Local Open Scope Q_scope.

Set Implicit Arguments.

(** ** Exceptions and outcomes *)

(** The two messages [VelocityModelException] is raised with by the
    readers; the numbers the source prints into the message are kept as
    arguments. *)
Inductive modelFileError (num : Type) : Type :=
| SGreaterThanP (sVel depth pVel : num)
| ExpectedEOL (layer : nat).

Inductive exn (num : Type) : Type :=
| TauPException (msg : string)
| VelocityModelException (why : modelFileError num)
| IndexError
| ValueError
| ZeroDivisionError.

Arguments TauPException {num} msg.
Arguments IndexError {num}.
Arguments ValueError {num}.
Arguments ZeroDivisionError {num}.
Arguments ExpectedEOL {num} layer.

Inductive outcome (num A : Type) : Type :=
| Returns (a : A)
| Raises (e : exn num)
| Diverges.

Arguments Returns {num A} a.
Arguments Raises {num A} e.
Arguments Diverges {num A}.

Definition bind {num A B : Type} (c : outcome num A) (k : A -> outcome num B)
  : outcome num B :=
  match c with
  | Returns a => k a
  | Raises e => Raises e
  | Diverges => Diverges
  end.

Declare Scope outcome_scope.
Notation "x <- c ;; k" := (bind c (fun x => k))
  (at level 61, c at next level, right associativity) : outcome_scope.

(** ** Data model *)

(** Modelled from the spec: the class [VelocityLayer] is not part of the
    source tree; its fields are those of section 3 of the specification, in
    the order in which the readers pass them to the constructor. *)
Record VelocityLayer (num : Type) : Type := mkVelocityLayer {
  layerNumber : nat;
  topDepth : num;
  botDepth : num;
  topPVelocity : num;
  botPVelocity : num;
  topSVelocity : num;
  botSVelocity : num;
  topDensity : num;
  botDensity : num;
  topQp : num;
  botQp : num;
  topQs : num;
  botQs : num
}.

(** The attributes set by [VelocityModel.__init__]. *)
Record VelocityModel (num : Type) : Type := mkVelocityModel {
  modelName : string;
  radiusOfEarth : num;
  mohoDepth : num;
  cmbDepth : num;
  iocbDepth : num;
  minRadius : num;
  maxRadius : num;
  isSpherical : bool;
  layers : list (VelocityLayer num)
}.

(** [self.getNumLayers()], [len(self)]. *)
Definition getNumLayers {num} (m : VelocityModel num) : nat :=
  length (layers m).

(** Modelled from the spec: [getVelocityLayer] is called by the source but
    not defined in it; it is the lookup of a layer by its index, which
    fails with the "no such layer" error when the index is out of range
    (sections 4.2 and 7). *)
Definition getVelocityLayer {num} (m : VelocityModel num) (i : nat)
  : outcome num (VelocityLayer num) :=
  match nth_error (layers m) i with
  | Some l => Returns l
  | None => Raises (TauPException "No such layer.")
  end.

(** ** Numeric comparisons on [Q] *)

Definition Qlt_bool (x y : Q) : bool := negb (Qle_bool y x).
Definition Qneq_bool (x y : Q) : bool := negb (Qeq_bool x y).

(** ** Depth lookup *)

Definition noSuchLayer : exn Q := TauPException "No such layer.".

(** [for i, layer in enumerate(self.layers): if cond: return i], then
    [raise TauPException("No such layer.")]; [i] is the index of the head
    of [ls]. *)
Fixpoint firstLayer (cond : VelocityLayer Q -> bool)
  (ls : list (VelocityLayer Q)) (i : nat) : outcome Q nat :=
  match ls with
  | [] => Raises noSuchLayer
  | layer :: rest => if cond layer then Returns i else firstLayer cond rest (S i)
  end.

(** [layer.topDepth < depth <= layer.botDepth] *)
Definition containsAbove (depth : Q) (layer : VelocityLayer Q) : bool :=
  Qlt_bool (topDepth layer) depth && Qle_bool depth (botDepth layer).

(** [layer.topDepth <= depth < layer.botDepth] *)
Definition containsBelow (depth : Q) (layer : VelocityLayer Q) : bool :=
  Qle_bool (topDepth layer) depth && Qlt_bool depth (botDepth layer).

Definition layerNumberAbove (m : VelocityModel Q) (depth : Q) : outcome Q nat :=
  firstLayer (containsAbove depth) (layers m) 0.

Definition layerNumberBelow (m : VelocityModel Q) (depth : Q) : outcome Q nat :=
  firstLayer (containsBelow depth) (layers m) 0.

(** The layers [ls] split the depth interval from [from] to [to] into
    consecutive pieces of positive thickness: the data-model invariant of a
    model whose layers cover [[from, to]]. *)
Fixpoint partitions (from : Q) (ls : list (VelocityLayer Q)) (to : Q) : bool :=
  match ls with
  | [] => false
  | layer :: rest =>
      Qeq_bool (topDepth layer) from
      && Qlt_bool (topDepth layer) (botDepth layer)
      && match rest with
         | [] => Qeq_bool (botDepth layer) to
         | _ :: _ => partitions (botDepth layer) rest to
         end
  end.

(** The layers of [m] cover [[0, maxDepth]]. *)
Definition coversDepths (m : VelocityModel Q) (maxDepth : Q) : bool :=
  partitions 0 (layers m) maxDepth.

(** [depth] is an internal boundary of [m]: the bottom of a layer that is
    not the last one. *)
Definition internalBoundary (m : VelocityModel Q) (depth : Q) : Prop :=
  exists i layer,
    nth_error (layers m) i = Some layer /\
    (S i < length (layers m))%nat /\
    botDepth layer == depth.

(** ** Discontinuities *)

(** [above.botPVelocity != below.topPVelocity or
     above.botSVelocity != below.topSVelocity] *)
Definition isDiscontinuity (above below : VelocityLayer Q) : bool :=
  Qneq_bool (botPVelocity above) (topPVelocity below)
  || Qneq_bool (botSVelocity above) (topSVelocity below).

(** [izip(self.layers[:-1], self.layers[1:])]: every layer paired with the
    next one. *)
Definition adjacentLayers (ls : list (VelocityLayer Q))
  : list (VelocityLayer Q * VelocityLayer Q) :=
  combine (removelast ls) (tl ls).

Definition getDisconDepths (m : VelocityModel Q) : outcome Q (list Q) :=
  match layers m with
  | [] => Raises IndexError
  | first :: _ =>
      let discontinuities := [topDepth first] in
      let discontinuities :=
        fold_left
          (fun acc (pair : VelocityLayer Q * VelocityLayer Q) =>
             let (above_layer, below_layer) := pair in
             if isDiscontinuity above_layer below_layer
             then acc ++ [botDepth above_layer]
             else acc)
          (adjacentLayers (layers m)) discontinuities in
      Returns (discontinuities ++ [botDepth (last (layers m) first)])
  end.

(** The depths [getDisconDepths] is to report between the surface and the
    base, said by index: the bottom depth of every layer [i] but the last
    whose bottom P or S velocity differs from the top P or S velocity of
    layer [i + 1], in the order of the layers. *)
Definition disconBelow (ls : list (VelocityLayer Q)) (i : nat) : list Q :=
  match nth_error ls i, nth_error ls (S i) with
  | Some above, Some below =>
      if isDiscontinuity above below then [botDepth above] else []
  | _, _ => []
  end.

Definition internalDisconDepths (ls : list (VelocityLayer Q)) : list Q :=
  flat_map (disconBelow ls) (seq 0 (length ls - 1)).

(** What the loop of [getDisconDepths] appends to its list at a pair of
    adjacent layers. *)
Definition appended (pair : VelocityLayer Q * VelocityLayer Q) : list Q :=
  if isDiscontinuity (fst pair) (snd pair) then [botDepth (fst pair)] else [].

(** The local variables of [fixDisconDepths] that its loop updates. *)
Record disconScan : Type := mkDisconScan {
  mohoMin : Q;
  cmbMin : Q;
  iocbMin : Q;
  tempMohoDepth : Q;
  tempCmbDepth : Q;
  tempIocbDepth : Q
}.

(** The values the locals have when the loop starts. *)
Definition scanInit (m : VelocityModel Q) : disconScan :=
  {| mohoMin := 65;
     cmbMin := radiusOfEarth m;
     iocbMin := radiusOfEarth m - 100;
     tempMohoDepth := 0;
     tempCmbDepth := radiusOfEarth m;
     tempIocbDepth := radiusOfEarth m |}.

(** The three nearest-candidate updates, made at a discontinuity. *)
Definition nearerMoho (m : VelocityModel Q) (aboveLayer : VelocityLayer Q)
  (st : disconScan) : disconScan :=
  if Qlt_bool (Qabs (mohoDepth m - botDepth aboveLayer)) (mohoMin st)
  then {| mohoMin := Qabs (mohoDepth m - botDepth aboveLayer);
          cmbMin := cmbMin st;
          iocbMin := iocbMin st;
          tempMohoDepth := botDepth aboveLayer;
          tempCmbDepth := tempCmbDepth st;
          tempIocbDepth := tempIocbDepth st |}
  else st.

Definition nearerCmb (m : VelocityModel Q) (aboveLayer : VelocityLayer Q)
  (st : disconScan) : disconScan :=
  if Qlt_bool (Qabs (cmbDepth m - botDepth aboveLayer)) (cmbMin st)
  then {| mohoMin := mohoMin st;
          cmbMin := Qabs (cmbDepth m - botDepth aboveLayer);
          iocbMin := iocbMin st;
          tempMohoDepth := tempMohoDepth st;
          tempCmbDepth := botDepth aboveLayer;
          tempIocbDepth := tempIocbDepth st |}
  else st.

(** [aboveLayer.getBotSVelocity() == 0.0 and belowLayer.getTopSVelocity() > 0.0]:
    liquid above, solid below. *)
Definition liquidToSolid (aboveLayer belowLayer : VelocityLayer Q) : bool :=
  Qeq_bool (botSVelocity aboveLayer) 0 && Qlt_bool 0 (topSVelocity belowLayer).

Definition nearerIocb (m : VelocityModel Q) (aboveLayer belowLayer : VelocityLayer Q)
  (st : disconScan) : disconScan :=
  if liquidToSolid aboveLayer belowLayer
     && Qlt_bool (Qabs (iocbDepth m - botDepth aboveLayer)) (iocbMin st)
  then {| mohoMin := mohoMin st;
          cmbMin := cmbMin st;
          iocbMin := Qabs (iocbDepth m - botDepth aboveLayer);
          tempMohoDepth := tempMohoDepth st;
          tempCmbDepth := tempCmbDepth st;
          tempIocbDepth := botDepth aboveLayer |}
  else st.

(** One pass through the body of the [while] loop, for the layers
    [layerNum] and [layerNum + 1]. *)
Definition scanStep (m : VelocityModel Q) (st : disconScan)
  (pair : VelocityLayer Q * VelocityLayer Q) : disconScan :=
  let (aboveLayer, belowLayer) := pair in
  if isDiscontinuity aboveLayer belowLayer
  then nearerIocb m aboveLayer belowLayer (nearerCmb m aboveLayer (nearerMoho m aboveLayer st))
  else st.

(** The loop [while layerNum < self.getNumLayers() - 1]: it visits the
    layers [layerNum], [layerNum + 1] for every [layerNum] in turn, which
    are the pairs of [adjacentLayers]. *)
Definition scanDiscontinuities (m : VelocityModel Q) : disconScan :=
  fold_left (scanStep m) (adjacentLayers (layers m)) (scanInit m).

(** [fixDisconDepths]: the returned [changeMade] and the model with its
    three depths reassigned. *)
Definition fixDisconDepths (m : VelocityModel Q) : bool * VelocityModel Q :=
  let st := scanDiscontinuities m in
  let changeMade :=
    Qneq_bool (mohoDepth m) (tempMohoDepth st)
    || Qneq_bool (cmbDepth m) (tempCmbDepth st)
    || Qneq_bool (iocbDepth m) (tempIocbDepth st) in
  (changeMade,
   {| modelName := modelName m;
      radiusOfEarth := radiusOfEarth m;
      mohoDepth := tempMohoDepth st;
      cmbDepth := tempCmbDepth st;
      iocbDepth := if Qneq_bool (tempCmbDepth st) (tempIocbDepth st)
                   then tempIocbDepth st
                   else radiusOfEarth m;
      minRadius := minRadius m;
      maxRadius := maxRadius m;
      isSpherical := isSpherical m;
      layers := layers m |}).

(** [d] is the depth of an internal velocity discontinuity of [m], between
    the layers [i] and [i + 1]. *)
Definition disconAt (m : VelocityModel Q) (i : nat)
  (above below : VelocityLayer Q) : Prop :=
  nth_error (layers m) i = Some above /\
  nth_error (layers m) (S i) = Some below /\
  isDiscontinuity above below = true.

(** ** Validation *)

(** Modelled from the spec: the nine-argument constructor
    [VelocityLayer(number, topDepth, botDepth, topPVelocity, botPVelocity,
    topSVelocity, botSVelocity, topDensity, botDensity)] of the absent
    class; the attenuation factors default to 1000 (Qp) and 2000 (Qs). *)
Definition VelocityLayer9 (number : nat)
  (top bot topP botP topS botS topRho botRho : Q) : VelocityLayer Q :=
  {| layerNumber := number;
     topDepth := top; botDepth := bot;
     topPVelocity := topP; botPVelocity := botP;
     topSVelocity := topS; botSVelocity := botS;
     topDensity := topRho; botDensity := botRho;
     topQp := 1000; botQp := 1000;
     topQs := 2000; botQs := 2000 |}.

(** The four velocity tests [validate] makes on a layer, in the order of
    the source; each is [true] when the layer is rejected. *)
Definition nonPositiveP (l : VelocityLayer Q) : bool :=
  Qle_bool (topPVelocity l) 0 || Qle_bool (botPVelocity l) 0.

Definition negativeS (l : VelocityLayer Q) : bool :=
  Qlt_bool (topSVelocity l) 0 || Qlt_bool (botSVelocity l) 0.

Definition goesToZeroP (l : VelocityLayer Q) : bool :=
  (Qneq_bool (topPVelocity l) 0 && Qeq_bool (botPVelocity l) 0)
  || (Qeq_bool (topPVelocity l) 0 && Qneq_bool (botPVelocity l) 0).

Definition goesToZeroS (l : VelocityLayer Q) : bool :=
  (Qneq_bool (topSVelocity l) 0 && Qeq_bool (botSVelocity l) 0)
  || (Qeq_bool (topSVelocity l) 0 && Qneq_bool (botSVelocity l) 0).

(** The layer fails one of the velocity tests. *)
Definition velocityRejected (l : VelocityLayer Q) : bool :=
  nonPositiveP l || negativeS l || goesToZeroP l || goesToZeroS l.

(** The [while layerNum < self.getNumLayers()] loop of [validate] over the
    layers not yet visited. *)
Fixpoint validateLayers (prevVelocityLayer : VelocityLayer Q)
  (ls : list (VelocityLayer Q)) : bool :=
  match ls with
  | [] => true
  | currVelocityLayer :: rest =>
      if Qneq_bool (botDepth prevVelocityLayer) (topDepth currVelocityLayer)
      then false
      else if Qeq_bool (botDepth currVelocityLayer) (topDepth currVelocityLayer)
      then false
      else if nonPositiveP currVelocityLayer then false
      else if negativeS currVelocityLayer then false
      else if goesToZeroP currVelocityLayer then false
      else if goesToZeroS currVelocityLayer then false
      else validateLayers currVelocityLayer rest
  end.

Definition validate (m : VelocityModel Q) : outcome Q bool :=
  if Qle_bool (radiusOfEarth m) 0 then Returns false
  else if Qlt_bool (mohoDepth m) 0 then Returns false
  else if Qlt_bool (cmbDepth m) (mohoDepth m) then Returns false
  else if Qle_bool (cmbDepth m) 0 then Returns false
  else if Qlt_bool (iocbDepth m) (cmbDepth m) then Returns false
  else if Qle_bool (iocbDepth m) 0 then Returns false
  else if Qlt_bool (minRadius m) 0 then Returns false
  else if Qle_bool (maxRadius m) 0 then Returns false
  else if Qle_bool (maxRadius m) (minRadius m) then Returns false
  else
    match getVelocityLayer m 0 with
    | Returns currVelocityLayer =>
        let prevVelocityLayer :=
          VelocityLayer9 0
            (topDepth currVelocityLayer) (topDepth currVelocityLayer)
            (topPVelocity currVelocityLayer) (topPVelocity currVelocityLayer)
            (topSVelocity currVelocityLayer) (topSVelocity currVelocityLayer)
            (topDensity currVelocityLayer) (topDensity currVelocityLayer) in
        Returns (validateLayers prevVelocityLayer (layers m))
    | Raises e => Raises e
    | Diverges => Diverges
    end.

(** The metadata of [m] passes the nine tests [validate] makes before it
    looks at the layers. *)
Definition metadataAccepted (m : VelocityModel Q) : bool :=
  negb (Qle_bool (radiusOfEarth m) 0)
  && negb (Qlt_bool (mohoDepth m) 0)
  && negb (Qlt_bool (cmbDepth m) (mohoDepth m))
  && negb (Qle_bool (cmbDepth m) 0)
  && negb (Qlt_bool (iocbDepth m) (cmbDepth m))
  && negb (Qle_bool (iocbDepth m) 0)
  && negb (Qlt_bool (minRadius m) 0)
  && negb (Qle_bool (maxRadius m) 0)
  && negb (Qle_bool (maxRadius m) (minRadius m)).

(** ** The token stream of the readers *)

(** The readers take their input through [java.io]-style [StreamTokenizer]
    calls ([nextToken], [ttype], [nval], [sval]) with numbers parsed, ends
    of line significant and comments dropped.  The text is embedded after
    that lexing, as the sequence of tokens the tokenizer hands out; the end
    of the sequence is the end of the file. *)
Inductive token : Type :=
| TK_NUMBER (n : Q)
| TK_WORD (s : string)
| TK_EOL.

Inductive tokenType : Type :=
| TT_NOTHING
| TT_EOF
| TT_EOL
| TT_NUMBER
| TT_WORD.

Record StreamTokenizer : Type := mkStreamTokenizer {
  ttype : tokenType;
  nval : Q;
  sval : option string;
  input : list token
}.

(** [StreamTokenizer(in_)] *)
Definition newStreamTokenizer (in_ : list token) : StreamTokenizer :=
  {| ttype := TT_NOTHING; nval := 0; sval := None; input := in_ |}.

(** [tokenIn.nextToken()]: [nval] changes only when a number is read, and
    at the end of the input every call answers [TT_EOF]. *)
Definition nextToken (tk : StreamTokenizer) : StreamTokenizer :=
  match input tk with
  | [] => {| ttype := TT_EOF; nval := nval tk; sval := None; input := [] |}
  | TK_NUMBER n :: rest =>
      {| ttype := TT_NUMBER; nval := n; sval := None; input := rest |}
  | TK_WORD s :: rest =>
      {| ttype := TT_WORD; nval := nval tk; sval := Some s; input := rest |}
  | TK_EOL :: rest =>
      {| ttype := TT_EOL; nval := nval tk; sval := None; input := rest |}
  end.

Definition isEOL (t : tokenType) : bool :=
  match t with TT_EOL => true | _ => false end.

Definition isEOF (t : tokenType) : bool :=
  match t with TT_EOF => true | _ => false end.

Definition isWORD (t : tokenType) : bool :=
  match t with TT_WORD => true | _ => false end.

(** [while tokenIn.ttype != TT_EOL: tokenIn.nextToken()].  Once the input
    is used up the token type stays [TT_EOF] and the loop never ends, which
    is what running out of [fuel] stands for when [fuel] is at least the
    number of tokens left (lemma [whileNotEOL_more_fuel]). *)
Fixpoint whileNotEOL (fuel : nat) (tk : StreamTokenizer)
  : outcome Q StreamTokenizer :=
  if isEOL (ttype tk) then Returns tk
  else match fuel with
       | O => Diverges
       | S fuel' => whileNotEOL fuel' (nextToken tk)
       end.

(** [while tokenIn.nextToken() != TT_EOL: pass] *)
Definition skipLine (tk : StreamTokenizer) : outcome Q StreamTokenizer :=
  whileNotEOL (S (length (input tk))) (nextToken tk).

(** Class constants the source reads as [cls.DEFAULT_MOHO] and so on but
    does not define; the values are the defaults of [__init__]. *)
Definition DEFAULT_MOHO : Q := 35.
Definition DEFAULT_CMB : Q := 2889.
Definition DEFAULT_IOCB : Q := 51539 # 10.

(** The getters [getTopDepth()] and [getBotDepth()] of a layer. *)
Definition getTopDepth (l : VelocityLayer Q) : Q := topDepth l.
Definition getBotDepth (l : VelocityLayer Q) : Q := botDepth l.

(** ** The [.tvel] reader *)

(** The local variables of [readTVelFile_0] that live across its loop. *)
Record tvelVars : Type := mkTvelVars {
  tv_tokenIn : StreamTokenizer;
  tv_myLayerNumber : nat;
  tv_topDepth : Q;
  tv_topPVel : Q;
  tv_topSVel : Q;
  tv_topDensity : Q;
  tv_layers : list (VelocityLayer Q)
}.

(** The body of [while tokenIn.ttype != StreamTokenizer.TT_EOF]. *)
Definition tvelRow (st : tvelVars) : outcome Q tvelVars :=
  let tokenIn := tv_tokenIn st in
  let botDepth := nval tokenIn in
  let tokenIn := nextToken tokenIn in
  let botPVel := nval tokenIn in
  let tokenIn := nextToken tokenIn in
  let botSVel := nval tokenIn in
  if Qlt_bool botPVel botSVel
  then Raises (VelocityModelException (SGreaterThanP botSVel botDepth botPVel))
  else
    let tokenIn := nextToken tokenIn in
    let botDensity :=
      if isEOL (ttype tokenIn) then tv_topDensity st else nval tokenIn in
    let tokenIn :=
      if isEOL (ttype tokenIn) then tokenIn else nextToken tokenIn in
    let tempLayer :=
      VelocityLayer9 (tv_myLayerNumber st) (tv_topDepth st) botDepth
        (tv_topPVel st) botPVel (tv_topSVel st) botSVel
        (tv_topDensity st) botDensity in
    if isEOL (ttype tokenIn)
    then
      let tokenIn := nextToken tokenIn in
      let added := Qneq_bool (getTopDepth tempLayer) (getBotDepth tempLayer) in
      Returns
        {| tv_tokenIn := tokenIn;
           tv_myLayerNumber :=
             if added then S (tv_myLayerNumber st) else tv_myLayerNumber st;
           tv_topDepth := botDepth;
           tv_topPVel := botPVel;
           tv_topSVel := botSVel;
           tv_topDensity := botDensity;
           tv_layers :=
             if added then tv_layers st ++ [tempLayer] else tv_layers st |}
    else Raises (VelocityModelException (ExpectedEOL (tv_myLayerNumber st))).

(** The loop itself; [None] when [fuel] runs out before the end of the
    input is seen (it never does for the fuel [readTVelFile_0] gives it,
    lemma [tvelLoop_fuel]). *)
Fixpoint tvelLoop (fuel : nat) (st : tvelVars) : option (outcome Q tvelVars) :=
  if isEOF (ttype (tv_tokenIn st)) then Some (Returns st)
  else match fuel with
       | O => None
       | S fuel' =>
           match tvelRow st with
           | Returns st' => tvelLoop fuel' st'
           | Raises e => Some (Raises e)
           | Diverges => Some Diverges
           end
       end.

(** The first data row and what follows it, from the tokenizer as the two
    header lines leave it. *)
Definition readTVelRows (tokenIn : StreamTokenizer) (modelName : string)
  : outcome Q (VelocityModel Q) :=
  let myLayerNumber := O in
  let tokenIn := nextToken tokenIn in
  let topDepth := nval tokenIn in
  let tokenIn := nextToken tokenIn in
  let topPVel := nval tokenIn in
  let tokenIn := nextToken tokenIn in
  let topSVel := nval tokenIn in
  if Qlt_bool topPVel topSVel
  then Raises (VelocityModelException (SGreaterThanP topSVel topDepth topPVel))
  else
    let tokenIn := nextToken tokenIn in
    let topDensity := if isEOL (ttype tokenIn) then 5571 else nval tokenIn in
    let tokenIn :=
      if isEOL (ttype tokenIn) then tokenIn else nextToken tokenIn in
    if isEOL (ttype tokenIn)
    then
      let tokenIn := nextToken tokenIn in
      match tvelLoop (S (length (input tokenIn)))
              {| tv_tokenIn := tokenIn;
                 tv_myLayerNumber := myLayerNumber;
                 tv_topDepth := topDepth;
                 tv_topPVel := topPVel;
                 tv_topSVel := topSVel;
                 tv_topDensity := topDensity;
                 tv_layers := [] |} with
      | Some (Returns st) =>
          let radiusOfEarth := tv_topDepth st in
          let maxRadius := tv_topDepth st in
          Returns
            (mkVelocityModel modelName radiusOfEarth
               DEFAULT_MOHO DEFAULT_CMB DEFAULT_IOCB 0 maxRadius true
               (tv_layers st))
      | Some (Raises e) => Raises e
      | Some Diverges => Diverges
      | None => Diverges
      end
    else Raises (VelocityModelException (ExpectedEOL myLayerNumber)).

Definition readTVelFile_0 (in_ : list token) (modelName : string)
  : outcome Q (VelocityModel Q) :=
  match skipLine (newStreamTokenizer in_) with
  | Returns tokenIn =>
      match skipLine tokenIn with
      | Returns tokenIn => readTVelRows tokenIn modelName
      | Raises e => Raises e
      | Diverges => Diverges
      end
  | Raises e => Raises e
  | Diverges => Diverges
  end.

(** ** The [.nd] reader *)

(** Modelled from the spec: the thirteen-argument constructor of the absent
    class [VelocityLayer], with the attenuation factors given. *)
Definition VelocityLayer13 (number : nat)
  (top bot topP botP topS botS topRho botRho tQp bQp tQs bQs : Q)
  : VelocityLayer Q :=
  {| layerNumber := number;
     topDepth := top; botDepth := bot;
     topPVelocity := topP; botPVelocity := botP;
     topSVelocity := topS; botSVelocity := botS;
     topDensity := topRho; botDensity := botRho;
     topQp := tQp; botQp := bQp;
     topQs := tQs; botQs := bQs |}.

(** [str.lower()] on ASCII letters. *)
Definition lowerAscii (c : Ascii.ascii) : Ascii.ascii :=
  let n := Ascii.nat_of_ascii c in
  if ((65 <=? n) && (n <=? 90))%nat then Ascii.ascii_of_nat (n + 32) else c.

Fixpoint lower (s : string) : string :=
  match s with
  | EmptyString => EmptyString
  | String c rest => String (lowerAscii c) (lower rest)
  end.

(** [tokenIn.sval.lower() == word.lower()] *)
Definition svalIs (tk : StreamTokenizer) (word : string) : bool :=
  match sval tk with
  | Some s => String.eqb (lower s) (lower word)
  | None => false
  end.

(** The local variables of [readNDFile_0] that live across its loop. *)
Record ndVars : Type := mkNdVars {
  nd_tokenIn : StreamTokenizer;
  nd_myLayerNumber : nat;
  nd_topDepth : Q;
  nd_topPVel : Q;
  nd_topSVel : Q;
  nd_topDensity : Q;
  nd_topQp : Q;
  nd_topQs : Q;
  nd_botDensity : Q;
  nd_botQp : Q;
  nd_botQs : Q;
  nd_mohoDepth : Q;
  nd_cmbDepth : Q;
  nd_iocbDepth : Q;
  nd_layers : list (VelocityLayer Q)
}.

(** The branch of the loop body taken at a word token: a named
    discontinuity takes the current top depth, and the rest of the line is
    skipped. *)
Definition ndMarker (st : ndVars) : outcome Q ndVars :=
  let tokenIn := nd_tokenIn st in
  let mohoDepth :=
    if svalIs tokenIn "mantle" || svalIs tokenIn "moho"
    then nd_topDepth st else nd_mohoDepth st in
  let cmbDepth :=
    if svalIs tokenIn "outer-core" || svalIs tokenIn "cmb"
    then nd_topDepth st else nd_cmbDepth st in
  let iocbDepth :=
    if svalIs tokenIn "inner-core" || svalIs tokenIn "icocb"
    then nd_topDepth st else nd_iocbDepth st in
  match whileNotEOL (length (input tokenIn)) tokenIn with
  | Returns tokenIn =>
      let tokenIn := nextToken tokenIn in
      Returns
        {| nd_tokenIn := tokenIn;
           nd_myLayerNumber := nd_myLayerNumber st;
           nd_topDepth := nd_topDepth st;
           nd_topPVel := nd_topPVel st;
           nd_topSVel := nd_topSVel st;
           nd_topDensity := nd_topDensity st;
           nd_topQp := nd_topQp st;
           nd_topQs := nd_topQs st;
           nd_botDensity := nd_botDensity st;
           nd_botQp := nd_botQp st;
           nd_botQs := nd_botQs st;
           nd_mohoDepth := mohoDepth;
           nd_cmbDepth := cmbDepth;
           nd_iocbDepth := iocbDepth;
           nd_layers := nd_layers st |}
  | Raises e => Raises e
  | Diverges => Diverges
  end.

(** The optional fields [density [Qp [Qs]]] of a row: each is read while
    the end of the line has not come; a field left out keeps the value
    given as default. *)
Definition readOptional3 (tokenIn : StreamTokenizer) (density qp qs : Q)
  : StreamTokenizer * (Q * Q * Q) :=
  if isEOL (ttype tokenIn) then (tokenIn, (density, qp, qs))
  else
    let density := nval tokenIn in
    let tokenIn := nextToken tokenIn in
    if isEOL (ttype tokenIn) then (tokenIn, (density, qp, qs))
    else
      let qp := nval tokenIn in
      let tokenIn := nextToken tokenIn in
      if isEOL (ttype tokenIn) then (tokenIn, (density, qp, qs))
      else
        let qs := nval tokenIn in
        let tokenIn := nextToken tokenIn in
        (tokenIn, (density, qp, qs)).

(** The branch of the loop body that reads a data row. *)
Definition ndRow (st : ndVars) : outcome Q ndVars :=
  let tokenIn := nd_tokenIn st in
  let botDepth := nval tokenIn in
  let tokenIn := nextToken tokenIn in
  let botPVel := nval tokenIn in
  let tokenIn := nextToken tokenIn in
  let botSVel := nval tokenIn in
  if Qlt_bool botPVel botSVel
  then Raises (VelocityModelException (SGreaterThanP botSVel botDepth botPVel))
  else
    let tokenIn := nextToken tokenIn in
    let '(tokenIn, (botDensity, botQp, botQs)) :=
      readOptional3 tokenIn (nd_botDensity st) (nd_botQp st) (nd_botQs st) in
    let tempLayer :=
      VelocityLayer13 (nd_myLayerNumber st) (nd_topDepth st) botDepth
        (nd_topPVel st) botPVel (nd_topSVel st) botSVel
        (nd_topDensity st) botDensity
        (nd_topQp st) botQp (nd_topQs st) botQs in
    if isEOL (ttype tokenIn)
    then
      let tokenIn := nextToken tokenIn in
      let added := Qneq_bool (getTopDepth tempLayer) (getBotDepth tempLayer) in
      Returns
        {| nd_tokenIn := tokenIn;
           nd_myLayerNumber :=
             if added then S (nd_myLayerNumber st) else nd_myLayerNumber st;
           nd_topDepth := botDepth;
           nd_topPVel := botPVel;
           nd_topSVel := botSVel;
           nd_topDensity := botDensity;
           nd_topQp := botQp;
           nd_topQs := botQs;
           nd_botDensity := botDensity;
           nd_botQp := botQp;
           nd_botQs := botQs;
           nd_mohoDepth := nd_mohoDepth st;
           nd_cmbDepth := nd_cmbDepth st;
           nd_iocbDepth := nd_iocbDepth st;
           nd_layers :=
             if added then nd_layers st ++ [tempLayer] else nd_layers st |}
    else Raises (VelocityModelException (ExpectedEOL (nd_myLayerNumber st))).

(** The body of [while tokenIn.ttype != StreamTokenizer.TT_EOF]. *)
Definition ndLine (st : ndVars) : outcome Q ndVars :=
  if isWORD (ttype (nd_tokenIn st)) then ndMarker st else ndRow st.

(** The loop; [None] when [fuel] runs out before the end of the input is
    seen (it never does for the fuel [readNDFile_0] gives it, lemma
    [ndLoop_fuel]). *)
Fixpoint ndLoop (fuel : nat) (st : ndVars) : option (outcome Q ndVars) :=
  if isEOF (ttype (nd_tokenIn st)) then Some (Returns st)
  else match fuel with
       | O => None
       | S fuel' =>
           match ndLine st with
           | Returns st' => ndLoop fuel' st'
           | Raises e => Some (Raises e)
           | Diverges => Some Diverges
           end
       end.

Definition readNDFile_0 (in_ : list token) (modelName : string)
  : outcome Q (VelocityModel Q) :=
  let tokenIn := newStreamTokenizer in_ in
  let myLayerNumber := O in
  let topDensity := 26 # 10 in
  let topQp := 1000 in
  let topQs := 2000 in
  let botDensity := topDensity in
  let botQp := topQp in
  let botQs := topQs in
  let tokenIn := nextToken tokenIn in
  let topDepth := nval tokenIn in
  let tokenIn := nextToken tokenIn in
  let topPVel := nval tokenIn in
  let tokenIn := nextToken tokenIn in
  let topSVel := nval tokenIn in
  if Qlt_bool topPVel topSVel
  then Raises (VelocityModelException (SGreaterThanP topSVel topDepth topPVel))
  else
    let tokenIn := nextToken tokenIn in
    let '(tokenIn, (topDensity, topQp, topQs)) :=
      readOptional3 tokenIn topDensity topQp topQs in
    if isEOL (ttype tokenIn)
    then
      let tokenIn := nextToken tokenIn in
      match ndLoop (S (length (input tokenIn)))
              {| nd_tokenIn := tokenIn;
                 nd_myLayerNumber := myLayerNumber;
                 nd_topDepth := topDepth;
                 nd_topPVel := topPVel;
                 nd_topSVel := topSVel;
                 nd_topDensity := topDensity;
                 nd_topQp := topQp;
                 nd_topQs := topQs;
                 nd_botDensity := botDensity;
                 nd_botQp := botQp;
                 nd_botQs := botQs;
                 nd_mohoDepth := DEFAULT_MOHO;
                 nd_cmbDepth := DEFAULT_CMB;
                 nd_iocbDepth := DEFAULT_IOCB;
                 nd_layers := [] |} with
      | Some (Returns st) =>
          let radiusOfEarth := nd_topDepth st in
          let maxRadius := nd_topDepth st in
          Returns
            (mkVelocityModel modelName radiusOfEarth
               (nd_mohoDepth st) (nd_cmbDepth st) (nd_iocbDepth st)
               0 maxRadius true (nd_layers st))
      | Some (Raises e) => Raises e
      | Some Diverges => Diverges
      | None => Diverges
      end
    else Raises (VelocityModelException (ExpectedEOL myLayerNumber)).

(** ** The earth-flattening transform *)

Section EarthFlatten.

Local Open Scope R_scope.

(** Modelled from the spec: the seven-argument constructor
    [VelocityLayer(number, topDepth, botDepth, topPVelocity, botPVelocity,
    topSVelocity, botSVelocity)] of the absent class.  The attenuation
    factors default to 1000 and 2000; the specification does not give
    the density the constructor falls back to, so it is a variable. *)
Variable defaultDensity : R.

Definition VelocityLayer7 (number : nat)
  (top bot topP botP topS botS : R) : VelocityLayer R :=
  {| layerNumber := number;
     topDepth := top; botDepth := bot;
     topPVelocity := topP; botPVelocity := botP;
     topSVelocity := topS; botSVelocity := botS;
     topDensity := defaultDensity; botDensity := defaultDensity;
     topQp := 1000; botQp := 1000;
     topQs := 2000; botQs := 2000 |}.

(** [Math.log(x)] and [x / y], read as Python's [math.log] and float
    division: a non-positive argument of the logarithm and a zero
    divisor raise. *)
Definition log (x : R) : outcome R R :=
  if Rle_dec x 0 then Raises ValueError else Returns (ln x).

Definition div (x y : R) : outcome R R :=
  if Req_dec_T y 0 then Raises ZeroDivisionError else Returns (x / y).

Local Open Scope outcome_scope.

(** The new layer built from [oldLayer] in the loop body; the arguments
    of the constructor are evaluated from left to right. *)
Definition flattenLayer (radiusOfEarth : R) (i : nat)
  (oldLayer : VelocityLayer R) : outcome R (VelocityLayer R) :=
  qTop <- div (topDepth oldLayer) radiusOfEarth ;;
  lnTop <- log qTop ;;
  qBot <- div (botDepth oldLayer) radiusOfEarth ;;
  lnBot <- log qBot ;;
  topP <- div (radiusOfEarth * topPVelocity oldLayer) (topDepth oldLayer) ;;
  botP <- div (radiusOfEarth * botPVelocity oldLayer) (botDepth oldLayer) ;;
  topS <- div (radiusOfEarth * topSVelocity oldLayer) (topDepth oldLayer) ;;
  botS <- div (radiusOfEarth * botSVelocity oldLayer) (botDepth oldLayer) ;;
  Returns
    (VelocityLayer7 i (radiusOfEarth * lnTop) (radiusOfEarth * lnBot)
       topP botP topS botS).

(** [while i < self.getNumLayers()] over the layers from index [i] on. *)
Fixpoint flattenLayers (radiusOfEarth : R) (i : nat)
  (old : list (VelocityLayer R)) (layers : list (VelocityLayer R))
  : outcome R (list (VelocityLayer R)) :=
  match old with
  | [] => Returns layers
  | oldLayer :: rest =>
      newLayer <- flattenLayer radiusOfEarth i oldLayer ;;
      flattenLayers radiusOfEarth (S i) rest (layers ++ [newLayer])
  end.

Definition earthFlattenTransform (m : VelocityModel R)
  : outcome R (VelocityModel R) :=
  let spherical := false in
  layers <- flattenLayers (radiusOfEarth m) 0 (layers m) [] ;;
  Returns
    (mkVelocityModel (modelName m) (radiusOfEarth m) (mohoDepth m)
       (cmbDepth m) (iocbDepth m) (minRadius m) (maxRadius m)
       spherical layers).

(** The mapping as the specification words it: a depth [d] goes to
    [R * ln (R / (R - d))] and a velocity [v] at depth [d] is scaled by
    [R / (R - d)], with [R] the radius of the earth. *)
Definition specFlatDepth (radius d : R) : R :=
  radius * ln (radius / (radius - d)).

Definition specFlatVelocity (radius d v : R) : R :=
  v * (radius / (radius - d)).

End EarthFlatten.


(** The layers [ls] follow the depth [d] without a gap and none has zero
    thickness: the two depth tests of the loop of [validate]. *)
Fixpoint joined (d : Q) (ls : list (VelocityLayer Q)) : bool :=
  match ls with
  | [] => true
  | l :: rest =>
      Qeq_bool d (topDepth l)
      && Qneq_bool (botDepth l) (topDepth l)
      && joined (botDepth l) rest
  end.

(** A P or S velocity that is zero at one end of the layer and not at the
    other: a linear ramp to zero. *)
Definition rampsToZero (l : VelocityLayer Q) : Prop :=
  (topPVelocity l == 0 /\ ~ botPVelocity l == 0) \/
  (~ topPVelocity l == 0 /\ botPVelocity l == 0) \/
  (topSVelocity l == 0 /\ ~ botSVelocity l == 0) \/
  (~ topSVelocity l == 0 /\ botSVelocity l == 0).

(** ** Well-formed reader input *)

(** A run of tokens within one line. *)
Definition noEOL (ts : list token) : bool :=
  forallb (fun t => match t with TK_EOL => false | _ => true end) ts.

(** A data row [depth Pvel Svel] with its optional trailing fields (the
    density for [.tvel]; density, Qp and Qs for [.nd]). *)
Record dataRow : Type := mkDataRow {
  rowDepth : Q;
  rowPVel : Q;
  rowSVel : Q;
  rowOptional : list Q
}.

(** The tokens of a data row, with the end of its line. *)
Definition rowTokens (r : dataRow) : list token :=
  TK_NUMBER (rowDepth r) :: TK_NUMBER (rowPVel r) :: TK_NUMBER (rowSVel r)
  :: map TK_NUMBER (rowOptional r) ++ [TK_EOL].

(** A line of an [.nd] file after the first: a data row, or a line that
    starts with a word (a named discontinuity such as [mantle]), whatever
    else stands on it. *)
Inductive ndLineOf : Type :=
| NdRow (r : dataRow)
| NdMarker (word : string) (others : list token).

Definition ndLineTokens (l : ndLineOf) : list token :=
  match l with
  | NdRow r => rowTokens r
  | NdMarker word others => TK_WORD word :: others ++ [TK_EOL]
  end.

(** The [.tvel] row has at most the density after its three numbers. *)
Definition tvelShaped (r : dataRow) : bool :=
  (length (rowOptional r) <=? 1)%nat.

(** The [.nd] line is a row with at most density, Qp and Qs after its three
    numbers, or a marker line. *)
Definition ndShaped (l : ndLineOf) : bool :=
  match l with
  | NdRow r => (length (rowOptional r) <=? 3)%nat
  | NdMarker _ others => noEOL others
  end.

(** The S velocity of the row exceeds its P velocity. *)
Definition sExceedsP (r : dataRow) : Prop := rowPVel r < rowSVel r.

Definition ndSExceedsP (l : ndLineOf) : Prop :=
  match l with
  | NdRow r => sExceedsP r
  | NdMarker _ _ => False
  end.

(** ** Depths and values by layer *)

(** [depthAtTop] and [depthAtBottom]: the layer is fetched by its index and
    asked for its depth. *)
Definition depthAtTop (m : VelocityModel Q) (layerNumber : nat) : outcome Q Q :=
  bind (getVelocityLayer m layerNumber)
    (fun tempLayer => Returns (getTopDepth tempLayer)).

Definition depthAtBottom (m : VelocityModel Q) (layerNumber : nat) : outcome Q Q :=
  bind (getVelocityLayer m layerNumber)
    (fun tempLayer => Returns (getBotDepth tempLayer)).

Section Evaluate.

(** [evaluateAbove] and [evaluateBelow] hand the depth to the method
    [evaluateAt] of the layer they find.  The class of the layers is not
    part of the source tree, so the method and the type of its
    material-property selector are variables here. *)
Variable materialProperty : Type.
Variable evaluateAt : VelocityLayer Q -> Q -> materialProperty -> outcome Q Q.

(** [layer = self.layers[self.layerNumberAbove(depth)]] and then
    [layer.evaluateAt(depth, materialProperty)]. *)
Definition evaluateAbove (m : VelocityModel Q) (depth : Q)
  (prop : materialProperty) : outcome Q Q :=
  bind (layerNumberAbove m depth)
    (fun i =>
       match nth_error (layers m) i with
       | Some layer => evaluateAt layer depth prop
       | None => Raises IndexError
       end).

(** [tempLayer = self.getVelocityLayer(self.layerNumberBelow(depth))] and
    then [tempLayer.evaluateAt(depth, materialProperty)]. *)
Definition evaluateBelow (m : VelocityModel Q) (depth : Q)
  (prop : materialProperty) : outcome Q Q :=
  bind (layerNumberBelow m depth)
    (fun i =>
       bind (getVelocityLayer m i)
         (fun tempLayer => evaluateAt tempLayer depth prop)).

End Evaluate.

(** Modelled from the spec: the selector of a material property and the
    method [VelocityLayer.evaluateAt] of the absent class, which
    interpolates linearly between the values stored for the top and the
    bottom of the layer,
    [top + (depth - topDepth) / (botDepth - topDepth) * (bot - top)]
    (section 4.1); the division fails on a layer without thickness. *)
Inductive materialProperty : Type :=
| PVelocity
| SVelocity
| Density
| QpFactor
| QsFactor.

Definition topValue (l : VelocityLayer Q) (prop : materialProperty) : Q :=
  match prop with
  | PVelocity => topPVelocity l
  | SVelocity => topSVelocity l
  | Density => topDensity l
  | QpFactor => topQp l
  | QsFactor => topQs l
  end.

Definition botValue (l : VelocityLayer Q) (prop : materialProperty) : Q :=
  match prop with
  | PVelocity => botPVelocity l
  | SVelocity => botSVelocity l
  | Density => botDensity l
  | QpFactor => botQp l
  | QsFactor => botQs l
  end.

Definition evaluateAt (l : VelocityLayer Q) (depth : Q)
  (prop : materialProperty) : outcome Q Q :=
  if Qeq_bool (botDepth l - topDepth l) 0 then Raises ZeroDivisionError
  else Returns (topValue l prop
                + (depth - topDepth l) / (botDepth l - topDepth l)
                  * (botValue l prop - topValue l prop)).

(** ** The nearest discontinuity *)

(** The search that [fixDisconDepths] makes for each of its three depths,
    said on its own: [best] is the smallest distance from [stored] seen so
    far with the depth it was seen at, and a depth [d] replaces it when it
    is strictly nearer. *)
Definition nearer (stored : Q) (best : Q * Q) (d : Q) : Q * Q :=
  if Qlt_bool (Qabs (stored - d)) (fst best)
  then (Qabs (stored - d), d)
  else best.

Definition nearest (stored : Q) (ds : list Q) (start : Q * Q) : Q * Q :=
  fold_left (nearer stored) ds start.

(** The bottom depths of the layers with zero S velocity at the bottom
    that lie on a layer with positive S velocity at the top, in layer
    order: the boundaries with liquid above and solid below. *)
Definition liquidSolidBelow (pair : VelocityLayer Q * VelocityLayer Q) : list Q :=
  if isDiscontinuity (fst pair) (snd pair) && liquidToSolid (fst pair) (snd pair)
  then [botDepth (fst pair)]
  else [].

Definition liquidSolidDepths (ls : list (VelocityLayer Q)) : list Q :=
  flat_map liquidSolidBelow (adjacentLayers ls).

(** ** What the readers keep true of the layers they build *)

(** The depth the layers [ls] end at when they start at [d]: the bottom of
    the last one, and [d] when there is none. *)
Definition endDepth (d : Q) (ls : list (VelocityLayer Q)) : Q :=
  fold_left (fun _ l => botDepth l) ls d.

(** At neither end of the layer is the S velocity above the P velocity. *)
Definition sWithinP (l : VelocityLayer Q) : Prop :=
  topSVelocity l <= topPVelocity l /\ botSVelocity l <= botPVelocity l.

(** What holds, in both readers, of the values kept for the top of the next
    layer and of the layers built so far, [d0] being the depth of the first
    row: the kept S velocity is not above the kept P velocity, nor is it in
    any layer; the layers follow [d0] and one another without gap, none has
    zero thickness and they end at the kept depth; and they are numbered
    from 0 in order, the next number being kept. *)
Definition rowsInvariant (d0 topD topP topS : Q) (number : nat)
  (ls : list (VelocityLayer Q)) : Prop :=
  topS <= topP /\
  Forall sWithinP ls /\
  joined d0 ls = true /\
  endDepth d0 ls == topD /\
  map (@layerNumber Q) ls = seq 0 (length ls) /\
  number = length ls.

Definition tvelInvariant (d0 : Q) (st : tvelVars) : Prop :=
  rowsInvariant d0 (tv_topDepth st) (tv_topPVel st) (tv_topSVel st)
    (tv_myLayerNumber st) (tv_layers st).

Definition ndInvariant (d0 : Q) (st : ndVars) : Prop :=
  rowsInvariant d0 (nd_topDepth st) (nd_topPVel st) (nd_topSVel st)
    (nd_myLayerNumber st) (nd_layers st).

(** What a model returned by a reader is like: no S velocity above the P
    velocity in any layer; the layers numbered from 0 in order; no gap
    between consecutive layers and no layer of zero thickness; the radius
    of the earth equal to [maxRadius] and, when there are layers, to the
    bottom depth of the last one; [minRadius] 0 and the model spherical. *)
Definition readerModel (m : VelocityModel Q) : Prop :=
  Forall sWithinP (layers m) /\
  map (@layerNumber Q) (layers m) = seq 0 (length (layers m)) /\
  (forall first rest, layers m = first :: rest ->
     joined (topDepth first) (layers m) = true /\
     botDepth (last (layers m) first) == radiusOfEarth m) /\
  maxRadius m = radiusOfEarth m /\
  minRadius m = 0 /\
  isSpherical m = true.

(** ** The [.tvel] reader, row by row *)

(** What the reader keeps from one row for the next, and the layers built
    so far: the local variables of the loop without the tokenizer. *)
Record tvelTop : Type := mkTvelTop {
  tt_number : nat;
  tt_depth : Q;
  tt_pVel : Q;
  tt_sVel : Q;
  tt_density : Q;
  tt_layers : list (VelocityLayer Q)
}.

Definition tvelTopOf (st : tvelVars) : tvelTop :=
  mkTvelTop (tv_myLayerNumber st) (tv_topDepth st) (tv_topPVel st)
    (tv_topSVel st) (tv_topDensity st) (tv_layers st).

(** The density a row gives: its fourth number, and [kept] without one. *)
Definition rowDensity (r : dataRow) (kept : Q) : Q :=
  match rowOptional r with
  | rho :: _ => rho
  | [] => kept
  end.

(** The effect of a row after the first, said on rows: the layer from the
    kept row to this one is added unless the two depths are equal, and
    this row is kept. *)
Definition tvelAddRow (t : tvelTop) (r : dataRow) : tvelTop :=
  let layer :=
    VelocityLayer9 (tt_number t) (tt_depth t) (rowDepth r)
      (tt_pVel t) (rowPVel r) (tt_sVel t) (rowSVel r)
      (tt_density t) (rowDensity r (tt_density t)) in
  let added := Qneq_bool (tt_depth t) (rowDepth r) in
  mkTvelTop
    (if added then S (tt_number t) else tt_number t)
    (rowDepth r) (rowPVel r) (rowSVel r)
    (rowDensity r (tt_density t))
    (if added then tt_layers t ++ [layer] else tt_layers t).

(** The first row is only kept; its density defaults to 5571. *)
Definition tvelFirstRow (first : dataRow) : tvelTop :=
  mkTvelTop 0 (rowDepth first) (rowPVel first) (rowSVel first)
    (rowDensity first 5571) [].

(** The model that the rows of a [.tvel] file stand for. *)
Definition tvelModelOf (modelName : string) (first : dataRow)
  (others : list dataRow) : VelocityModel Q :=
  let t := fold_left tvelAddRow others (tvelFirstRow first) in
  mkVelocityModel modelName (tt_depth t) DEFAULT_MOHO DEFAULT_CMB DEFAULT_IOCB
    0 (tt_depth t) true (tt_layers t).

(** The tokens of a last row that is not ended by an end of line. *)
Definition openRowTokens (r : dataRow) : list token :=
  TK_NUMBER (rowDepth r) :: TK_NUMBER (rowPVel r) :: TK_NUMBER (rowSVel r)
  :: map TK_NUMBER (rowOptional r).

(** The depths of the rows increase strictly, from [d] on. *)
Fixpoint deeper (d : Q) (rows : list dataRow) : bool :=
  match rows with
  | [] => true
  | r :: rest => Qlt_bool d (rowDepth r) && deeper (rowDepth r) rest
  end.

(** The number of ends of line among the tokens. *)
Fixpoint countEOL (ts : list token) : nat :=
  match ts with
  | [] => O
  | TK_EOL :: rest => S (countEOL rest)
  | _ :: rest => countEOL rest
  end.

(** ** What the earth-flattening transform computes *)

Section EarthFlattenResult.

Local Open Scope R_scope.

Variable defaultDensity : R.




End EarthFlattenResult.

(** ** [TauP_Pierce.depthCorrect]: must the model be recalculated? *)

(** [depthCorrect] first decides whether the tau model corrected for the
    source depth can be kept.  The decision reads the source depth the
    corrected model was made for ([self.tModDepth.sourceDepth]), the depth
    asked for, the depths to add ([self.addDepth]) and the branch depths of
    the corrected model ([self.tModDepth.getBranchDepths()], a method of a
    class outside the source tree, taken here by its result).  What the
    method does after the decision is done by code outside the source
    tree. *)

(** [for branchDepth in branchDepths: if addDepth == branchDepth: break;
     mustRecalc = True] *)
Fixpoint scanBranchDepths (addDepth : Q) (branchDepths : list Q)
  (mustRecalc : bool) : bool :=
  match branchDepths with
  | [] => mustRecalc
  | branchDepth :: rest =>
      if Qeq_bool addDepth branchDepth then mustRecalc
      else scanBranchDepths addDepth rest true
  end.

(** [for addDepth in self.addDepth: ...; if mustRecalc: break] *)
Fixpoint scanAddDepths (addDepths branchDepths : list Q) (mustRecalc : bool)
  : bool :=
  match addDepths with
  | [] => mustRecalc
  | addDepth :: rest =>
      let mustRecalc := scanBranchDepths addDepth branchDepths mustRecalc in
      if mustRecalc then mustRecalc
      else scanAddDepths rest branchDepths mustRecalc
  end.

(** The value of [mustRecalc] when the first [if] of [depthCorrect] is
    done. *)
Definition mustRecalc (sourceDepth depth : Q) (addDepth branchDepths : list Q)
  : bool :=
  if Qeq_bool sourceDepth depth
  then match addDepth with
       | [] => false
       | _ :: _ => scanAddDepths addDepth branchDepths false
       end
  else true.

(** ** The [.nd] reader, line by line *)

(** The local variables of the loop of [readNDFile_0] without the
    tokenizer. *)
Record ndTop : Type := mkNdTop {
  nt_number : nat;
  nt_depth : Q;
  nt_pVel : Q;
  nt_sVel : Q;
  nt_density : Q;
  nt_qp : Q;
  nt_qs : Q;
  nt_botDensity : Q;
  nt_botQp : Q;
  nt_botQs : Q;
  nt_moho : Q;
  nt_cmb : Q;
  nt_iocb : Q;
  nt_layers : list (VelocityLayer Q)
}.

Definition ndTopOf (st : ndVars) : ndTop :=
  mkNdTop (nd_myLayerNumber st) (nd_topDepth st) (nd_topPVel st)
    (nd_topSVel st) (nd_topDensity st) (nd_topQp st) (nd_topQs st)
    (nd_botDensity st) (nd_botQp st) (nd_botQs st)
    (nd_mohoDepth st) (nd_cmbDepth st) (nd_iocbDepth st) (nd_layers st).

(** The word names, whatever the case of its letters, one of the two
    names. *)
Definition wordIs (word name1 name2 : string) : bool :=
  String.eqb (lower word) (lower name1) || String.eqb (lower word) (lower name2).

(** The effect of a line after the first, said on lines.  A data row
    closes a layer from the kept row to itself unless the depths are
    equal; a field it leaves out has the value the row before had for the
    bottom of its layer.  A marker line gives the depth of the kept row to
    the discontinuity it names. *)
Definition ndAddLine (t : ndTop) (l : ndLineOf) : ndTop :=
  match l with
  | NdRow r =>
      let botDensity := nth 0 (rowOptional r) (nt_botDensity t) in
      let botQp := nth 1 (rowOptional r) (nt_botQp t) in
      let botQs := nth 2 (rowOptional r) (nt_botQs t) in
      let layer :=
        VelocityLayer13 (nt_number t) (nt_depth t) (rowDepth r)
          (nt_pVel t) (rowPVel r) (nt_sVel t) (rowSVel r)
          (nt_density t) botDensity (nt_qp t) botQp (nt_qs t) botQs in
      let added := Qneq_bool (nt_depth t) (rowDepth r) in
      mkNdTop
        (if added then S (nt_number t) else nt_number t)
        (rowDepth r) (rowPVel r) (rowSVel r)
        botDensity botQp botQs botDensity botQp botQs
        (nt_moho t) (nt_cmb t) (nt_iocb t)
        (if added then nt_layers t ++ [layer] else nt_layers t)
  | NdMarker word _ =>
      mkNdTop (nt_number t) (nt_depth t) (nt_pVel t) (nt_sVel t)
        (nt_density t) (nt_qp t) (nt_qs t)
        (nt_botDensity t) (nt_botQp t) (nt_botQs t)
        (if wordIs word "mantle" "moho" then nt_depth t else nt_moho t)
        (if wordIs word "outer-core" "cmb" then nt_depth t else nt_cmb t)
        (if wordIs word "inner-core" "icocb" then nt_depth t else nt_iocb t)
        (nt_layers t)
  end.

(** The first row is only kept.  The fields it leaves out default to
    density 2.6, Qp 1000 and Qs 2000, and these defaults, not the fields
    of the first row, are what the second row falls back to. *)
Definition ndFirstRow (first : dataRow) : ndTop :=
  mkNdTop 0 (rowDepth first) (rowPVel first) (rowSVel first)
    (nth 0 (rowOptional first) (26 # 10))
    (nth 1 (rowOptional first) 1000)
    (nth 2 (rowOptional first) 2000)
    (26 # 10) 1000 2000
    DEFAULT_MOHO DEFAULT_CMB DEFAULT_IOCB [].

(** The model that the lines of an [.nd] file stand for. *)
Definition ndModelOf (modelName : string) (first : dataRow)
  (lines : list ndLineOf) : VelocityModel Q :=
  let t := fold_left ndAddLine lines (ndFirstRow first) in
  mkVelocityModel modelName (nt_depth t) (nt_moho t) (nt_cmb t) (nt_iocb t)
    0 (nt_depth t) true (nt_layers t).

(** The three discontinuities a marker line can name. *)
Inductive boundary : Type := Moho | Cmb | Iocb.

(** The line is a marker for the boundary, whatever the case of its
    letters. *)
Definition marks (b : boundary) (l : ndLineOf) : bool :=
  match l with
  | NdRow _ => false
  | NdMarker word _ =>
      match b with
      | Moho => wordIs word "mantle" "moho"
      | Cmb => wordIs word "outer-core" "cmb"
      | Iocb => wordIs word "inner-core" "icocb"
      end
  end.

(** The depth a model stores for the boundary, and its default. *)
Definition boundaryDepth (b : boundary) (m : VelocityModel Q) : Q :=
  match b with
  | Moho => mohoDepth m
  | Cmb => cmbDepth m
  | Iocb => iocbDepth m
  end.

Definition boundaryDefault (b : boundary) : Q :=
  match b with
  | Moho => DEFAULT_MOHO
  | Cmb => DEFAULT_CMB
  | Iocb => DEFAULT_IOCB
  end.

(** The depth of the last data row among [first] and [lines]. *)
Definition lastRowDepth (first : dataRow) (lines : list ndLineOf) : Q :=
  fold_left
    (fun d l => match l with NdRow r => rowDepth r | NdMarker _ _ => d end)
    lines (rowDepth first).

(** The depth the loop of the [.nd] reader holds for the boundary. *)
Definition nt_boundary (b : boundary) (t : ndTop) : Q :=
  match b with
  | Moho => nt_moho t
  | Cmb => nt_cmb t
  | Iocb => nt_iocb t
  end.


(** ** Sample models *)

(** A single layer from the surface down to 10 km. *)
Definition slab : VelocityLayer Q := VelocityLayer9 0 0 10 6 6 3 3 2 2.

Definition slabModel : VelocityModel Q :=
  mkVelocityModel "slab" 10 35 2889 (51539 # 10) 0 10 true [slab].

(** Two layers that meet at 20 km. *)
Definition upper : VelocityLayer Q := VelocityLayer9 0 0 20 5 6 3 3 2 2.
Definition lower20 : VelocityLayer Q := VelocityLayer9 1 20 50 8 8 4 4 3 3.

Definition twoLayerModel : VelocityModel Q :=
  mkVelocityModel "two" 50 35 2889 (51539 # 10) 0 50 true [upper; lower20].

(** A liquid layer over a solid one, meeting at 150 km in a model of radius
    300 km whose stored boundaries are moho 0, cmb 150 and iocb 300. *)
Definition liquid : VelocityLayer Q := VelocityLayer9 0 0 150 8 8 0 0 2 2.
Definition solid : VelocityLayer Q := VelocityLayer9 1 150 300 10 10 3 3 3 3.

Definition liquidOverSolid : VelocityModel Q :=
  mkVelocityModel "liquidOverSolid" 300 0 150 300 0 300 true [liquid; solid].

(** The same layers with the stored iocb at 150 km as well. *)
Definition liquidOverSolid150 : VelocityModel Q :=
  mkVelocityModel "liquidOverSolid150" 300 0 150 150 0 300 true [liquid; solid].

(** The same layers with the default boundary depths of [__init__]. *)
Definition liquidOverSolidDefaults : VelocityModel Q :=
  mkVelocityModel "liquidOverSolidDefaults" 300 35 2889 (51539 # 10) 0 300 true
    [liquid; solid].

(** A layer whose P and S velocities are zero at both ends, in a model
    with sound metadata. *)
Definition still : VelocityLayer Q := VelocityLayer9 0 0 10 0 0 0 0 2 2.

Definition stillModel : VelocityModel Q :=
  mkVelocityModel "still" 10 1 5 8 0 10 true [still].

(** A liquid layer, P velocity 8 and S velocity 0 throughout, in the same
    model. *)
Definition ocean : VelocityLayer Q := VelocityLayer9 0 0 10 8 8 0 0 2 2.

Definition oceanModel : VelocityModel Q :=
  mkVelocityModel "ocean" 10 1 5 8 0 10 true [ocean].

(** A layer whose S velocity goes from 3 to 0 linearly. *)
Definition melting : VelocityLayer Q := VelocityLayer9 0 0 10 8 8 3 0 2 2.

Definition meltingModel : VelocityModel Q :=
  mkVelocityModel "melting" 10 1 5 8 0 10 true [melting].

(** [VelocityModel()]: the defaults of [__init__], no layers. *)
Definition emptyModel : VelocityModel Q :=
  mkVelocityModel "unknown" 6371 35 2889 (51539 # 10) 0 6371 true [].

(** The five rows of the [.tvel] sample of the specification. *)
Definition tvelSample : list token :=
  [TK_NUMBER 0; TK_NUMBER (58 # 10); TK_NUMBER (336 # 100); TK_EOL;
   TK_NUMBER 20; TK_NUMBER (65 # 10); TK_NUMBER (375 # 100); TK_EOL;
   TK_NUMBER 20; TK_NUMBER (65 # 10); TK_NUMBER (375 # 100); TK_EOL;
   TK_NUMBER 35; TK_NUMBER (65 # 10); TK_NUMBER (375 # 100); TK_EOL;
   TK_NUMBER 210; TK_NUMBER (81 # 10); TK_NUMBER (45 # 10); TK_EOL].


(** A three-layer model of radius 4 over the reals, from the surface to
    the centre, P velocity 3 and S velocity 1 throughout. *)
Definition shell (i : nat) (top bot : R) : VelocityLayer R :=
  mkVelocityLayer i top bot 3%R 3%R 1%R 1%R 2%R 2%R
    1000%R 1000%R 2000%R 2000%R.

Definition smallEarth : VelocityModel R :=
  mkVelocityModel "smallEarth" 4%R 1%R 2%R 4%R 0%R 4%R true
    [shell 0 0%R 1%R; shell 1 1%R 2%R; shell 2 2%R 4%R].

(** A mantle over a liquid outer core over a solid inner core, with the
    stored cmb and iocb at the two boundaries. *)
Definition mantle : VelocityLayer Q := VelocityLayer9 0 0 100 8 8 4 4 3 3.
Definition outerCore : VelocityLayer Q := VelocityLayer9 1 100 200 10 10 0 0 10 10.
Definition innerCore : VelocityLayer Q := VelocityLayer9 2 200 300 11 11 3 3 13 13.

Definition coreModel : VelocityModel Q :=
  mkVelocityModel "core" 300 0 100 200 0 300 true [mantle; outerCore; innerCore].

(** A [.tvel] input: two empty header lines and the sample rows. *)
Definition tvelInput : list token := TK_EOL :: TK_EOL :: tvelSample.

(** An [.nd] input with the three named discontinuities. *)
Definition ndInput : list token :=
  [TK_NUMBER 0; TK_NUMBER 6; TK_NUMBER 3; TK_NUMBER (26 # 10); TK_EOL;
   TK_NUMBER 100; TK_NUMBER 6; TK_NUMBER 3; TK_EOL;
   TK_WORD "Mantle"; TK_EOL;
   TK_NUMBER 100; TK_NUMBER 8; TK_NUMBER 4; TK_NUMBER 3;
     TK_NUMBER 600; TK_NUMBER 300; TK_EOL;
   TK_NUMBER 200; TK_NUMBER 9; TK_NUMBER 5; TK_EOL;
   TK_WORD "outer-core"; TK_EOL;
   TK_NUMBER 200; TK_NUMBER 10; TK_NUMBER 0; TK_EOL;
   TK_NUMBER 300; TK_NUMBER 11; TK_NUMBER 0; TK_EOL;
   TK_WORD "INNER-CORE"; TK_EOL;
   TK_NUMBER 300; TK_NUMBER 12; TK_NUMBER 3; TK_EOL;
   TK_NUMBER 400; TK_NUMBER 12; TK_NUMBER 3; TK_EOL].

(** The rows of the sample without the repeated one. *)
Definition surfaceRow : dataRow := mkDataRow 0 (58 # 10) (336 # 100) [].

Definition deeperRows : list dataRow :=
  [mkDataRow 20 (65 # 10) (375 # 100) [];
   mkDataRow 35 (65 # 10) (375 # 100) [3];
   mkDataRow 210 (81 # 10) (45 # 10) []].


(** The lines of an [.nd] file with a moho marker between two rows at the
    same depth. *)
Definition ndFirst : dataRow := mkDataRow 0 6 3 [27 # 10].

Definition ndCrust : list ndLineOf := [NdRow (mkDataRow 35 6 3 [])].

Definition ndBelow : list ndLineOf :=
  [NdRow (mkDataRow 35 8 4 [33 # 10; 600; 300]); NdRow (mkDataRow 200 9 5 [])].


(** Two rows of a [.tvel] file whose first row is at 5 km, and the model
    the reader builds from them: one layer from 5 km down to 10 km. *)
Definition deepRows : list dataRow :=
  [mkDataRow 5 6 3 []; mkDataRow 10 6 3 []].

Definition deep : VelocityLayer Q := VelocityLayer9 0 5 10 6 6 3 3 5571 5571.

Definition deepModel : VelocityModel Q :=
  mkVelocityModel "deep" 10 DEFAULT_MOHO DEFAULT_CMB DEFAULT_IOCB 0 10 true
    [deep].

(** Three layers stored deepest first, with a jump in P velocity between
    each two. *)
Definition shuffledModel : VelocityModel Q :=
  mkVelocityModel "shuffled" 40 35 2889 (51539 # 10) 0 40 true
    [VelocityLayer9 0 30 40 8 8 4 4 3 3;
     VelocityLayer9 1 10 20 6 6 3 3 3 3;
     VelocityLayer9 2 0 5 5 5 3 3 2 2].



(** * Properties *)

Unset Implicit Arguments.

(** ** Numeric comparisons *)

Lemma Qlt_bool_iff (x y : Q) : Qlt_bool x y = true <-> x < y.
Proof.
  unfold Qlt_bool. rewrite negb_true_iff.
  split; intro H.
  - apply Qnot_le_lt. intro Hle. apply Qle_bool_iff in Hle. congruence.
  - destruct (Qle_bool y x) eqn:E; [|reflexivity].
    apply Qle_bool_iff in E. lra.
Qed.

Lemma Qlt_bool_false (x y : Q) : Qlt_bool x y = false <-> y <= x.
Proof.
  unfold Qlt_bool. rewrite negb_false_iff. apply Qle_bool_iff.
Qed.

Lemma Qle_bool_false (x y : Q) : Qle_bool x y = false <-> y < x.
Proof.
  rewrite <- Qlt_bool_iff. unfold Qlt_bool.
  destruct (Qle_bool x y); simpl; split; congruence.
Qed.

Lemma Qneq_bool_iff (x y : Q) : Qneq_bool x y = true <-> ~ x == y.
Proof.
  unfold Qneq_bool. rewrite negb_true_iff. split; intro H.
  - now apply Qeq_bool_neq.
  - destruct (Qeq_bool x y) eqn:E; [|reflexivity].
    apply Qeq_bool_iff in E. contradiction.
Qed.

Lemma Qneq_bool_false (x y : Q) : Qneq_bool x y = false <-> x == y.
Proof.
  unfold Qneq_bool. rewrite negb_false_iff. apply Qeq_bool_iff.
Qed.

(** Turns the boolean comparisons in the context into (in)equalities on
    [Q]. *)
Ltac qprops :=
  repeat match goal with
  | H : _ && _ = true |- _ => apply andb_true_iff in H; destruct H
  | H : Qlt_bool _ _ = true |- _ => apply Qlt_bool_iff in H
  | H : Qlt_bool _ _ = false |- _ => apply Qlt_bool_false in H
  | H : Qle_bool _ _ = true |- _ => apply Qle_bool_iff in H
  | H : Qle_bool _ _ = false |- _ => apply Qle_bool_false in H
  | H : Qeq_bool _ _ = true |- _ => apply Qeq_bool_iff in H
  | H : Qeq_bool _ _ = false |- _ => apply Qeq_bool_neq in H
  | H : Qneq_bool _ _ = true |- _ => apply Qneq_bool_iff in H
  | H : Qneq_bool _ _ = false |- _ => apply Qneq_bool_false in H
  end.

(** ** The first layer that satisfies a test *)

Section FirstLayer.

Variable cond : VelocityLayer Q -> bool.

Lemma firstLayer_returns (ls : list (VelocityLayer Q)) :
  forall k j, firstLayer cond ls k = Returns j ->
  exists i l, j = (k + i)%nat /\ nth_error ls i = Some l /\ cond l = true.
Proof.
  induction ls as [|a rest IH]; intros k j H; simpl in H.
  - discriminate.
  - destruct (cond a) eqn:Ea.
    + injection H as <-. exists O, a. rewrite Nat.add_0_r. auto.
    + destruct (IH _ _ H) as (i & l & -> & Hn & Hc).
      exists (S i), l. split; [lia|]. auto.
Qed.

Lemma firstLayer_found (ls : list (VelocityLayer Q)) :
  forall k i l, nth_error ls i = Some l -> cond l = true ->
  exists j, (j <= i)%nat /\ firstLayer cond ls k = Returns (k + j)%nat.
Proof.
  induction ls as [|a rest IH]; intros k i l Hn Hc.
  - destruct i; discriminate.
  - simpl. destruct (cond a) eqn:Ea.
    + exists O. rewrite Nat.add_0_r. split; [lia|reflexivity].
    + destruct i as [|i]; simpl in Hn.
      * injection Hn as ->. congruence.
      * destruct (IH (S k) i l Hn Hc) as (j & Hj & Hf).
        exists (S j). split; [lia|]. rewrite Hf. f_equal. lia.
Qed.

Lemma firstLayer_raises (ls : list (VelocityLayer Q)) :
  forall k e, firstLayer cond ls k = Raises e ->
  e = noSuchLayer /\ forall l, In l ls -> cond l = false.
Proof.
  induction ls as [|a rest IH]; intros k e H; simpl in H.
  - injection H as <-. split; [reflexivity|]. intros l [].
  - destruct (cond a) eqn:Ea; [discriminate|].
    destruct (IH _ _ H) as [-> Hall]. split; [reflexivity|].
    intros l [<-|Hin]; auto.
Qed.

Lemma firstLayer_total (ls : list (VelocityLayer Q)) :
  forall k, (exists j, firstLayer cond ls k = Returns j)
            \/ firstLayer cond ls k = Raises noSuchLayer.
Proof.
  induction ls as [|a rest IH]; intro k; simpl.
  - now right.
  - destruct (cond a); [left; eauto | apply IH].
Qed.

End FirstLayer.

(** ** Layers that partition a depth interval *)

Lemma partitions_cons (from to : Q) (l : VelocityLayer Q)
  (rest : list (VelocityLayer Q)) :
  partitions from (l :: rest) to = true ->
  topDepth l == from /\ topDepth l < botDepth l /\
  ((rest = [] /\ botDepth l == to) \/
   (rest <> [] /\ partitions (botDepth l) rest to = true)).
Proof.
  simpl. intro H. qprops. repeat split; try assumption.
  destruct rest as [|b rest'].
  - left. qprops. auto.
  - right. split; [discriminate|assumption].
Qed.

Lemma partitions_nth (ls : list (VelocityLayer Q)) :
  forall from to i l,
  partitions from ls to = true -> nth_error ls i = Some l ->
  from <= topDepth l /\ topDepth l < botDepth l /\ botDepth l <= to.
Proof.
  induction ls as [|a rest IH]; intros from to i l Hp Hn.
  - discriminate.
  - apply partitions_cons in Hp. destruct Hp as (Ht & Hlt & Hrest).
    destruct i as [|i]; simpl in Hn.
    + injection Hn as <-. repeat split; try lra.
      destruct Hrest as [[_ Hb]|[Hne Hp]]; [lra|].
      destruct rest as [|b rest']; [congruence|].
      destruct (IH _ _ O b Hp eq_refl) as (? & ? & ?). lra.
    + destruct Hrest as [[-> _]|[_ Hp]]; [destruct i; discriminate|].
      destruct (IH _ _ _ _ Hp Hn) as (? & ? & ?). repeat split; lra.
Qed.

Lemma partitions_sorted (ls : list (VelocityLayer Q)) :
  forall from to i j li lj,
  partitions from ls to = true ->
  nth_error ls i = Some li -> nth_error ls j = Some lj -> (i < j)%nat ->
  botDepth li <= topDepth lj.
Proof.
  induction ls as [|a rest IH]; intros from to i j li lj Hp Hi Hj Hlt.
  - destruct i; discriminate.
  - apply partitions_cons in Hp. destruct Hp as (Ht & Hlt' & Hrest).
    destruct j as [|j]; [lia|]. simpl in Hj.
    destruct Hrest as [[-> _]|[_ Hp]]; [destruct j; discriminate|].
    destruct i as [|i]; simpl in Hi.
    + injection Hi as <-.
      destruct (partitions_nth _ _ _ _ _ Hp Hj) as (? & _). assumption.
    + eapply IH; eauto. lia.
Qed.

Lemma partitions_contiguous (ls : list (VelocityLayer Q)) :
  forall from to i a b,
  partitions from ls to = true ->
  nth_error ls i = Some a -> nth_error ls (S i) = Some b ->
  botDepth a == topDepth b.
Proof.
  induction ls as [|x rest IH]; intros from to i a b Hp Ha Hb.
  - destruct i; discriminate.
  - apply partitions_cons in Hp. destruct Hp as (Ht & Hlt & Hrest).
    simpl in Hb.
    destruct Hrest as [[-> _]|[_ Hp]]; [destruct i; discriminate|].
    destruct i as [|i]; simpl in Ha.
    + injection Ha as <-. destruct rest as [|y rest']; [discriminate|].
      simpl in Hb. injection Hb as <-.
      apply partitions_cons in Hp. destruct Hp as (Hy & _). lra.
    + eapply IH; eauto.
Qed.

Lemma partitions_last (ls : list (VelocityLayer Q)) :
  forall from to i l,
  partitions from ls to = true ->
  nth_error ls i = Some l -> length ls = S i -> botDepth l == to.
Proof.
  induction ls as [|x rest IH]; intros from to i l Hp Hn Hlen.
  - discriminate.
  - apply partitions_cons in Hp. destruct Hp as (Ht & Hlt & Hrest).
    simpl in Hlen. destruct i as [|i]; simpl in Hn.
    + injection Hn as <-. destruct rest; [|discriminate].
      destruct Hrest as [[_ H]|[H _]]; [assumption|congruence].
    + destruct Hrest as [[-> _]|[_ Hp]]; [destruct i; discriminate|].
      eapply IH; eauto.
Qed.

Lemma partitions_first (ls : list (VelocityLayer Q)) (from to : Q) (l : VelocityLayer Q) :
  partitions from ls to = true -> nth_error ls 0 = Some l ->
  topDepth l == from.
Proof.
  destruct ls as [|a rest]; [discriminate|]. intros Hp Hn.
  injection Hn as <-. apply partitions_cons in Hp. tauto.
Qed.

(** Every depth of the half-open interval lies in some layer. *)
Lemma partitions_has_above (ls : list (VelocityLayer Q)) :
  forall from to d,
  partitions from ls to = true -> from < d <= to ->
  exists i l, nth_error ls i = Some l /\ containsAbove d l = true.
Proof.
  induction ls as [|a rest IH]; intros from to d Hp [Hlo Hhi].
  - discriminate.
  - apply partitions_cons in Hp. destruct Hp as (Ht & Hlt & Hrest).
    destruct (Qlt_le_dec (botDepth a) d) as [Hbd|Hbd].
    + destruct Hrest as [[_ Hb]|[_ Hp]]; [lra|].
      destruct (IH _ _ d Hp (conj Hbd Hhi)) as (i & l & Hn & Hc).
      exists (S i), l. auto.
    + exists O, a. split; [reflexivity|].
      unfold containsAbove. apply andb_true_iff. split.
      * apply Qlt_bool_iff. lra.
      * apply Qle_bool_iff. lra.
Qed.

Lemma partitions_has_below (ls : list (VelocityLayer Q)) :
  forall from to d,
  partitions from ls to = true -> from <= d < to ->
  exists i l, nth_error ls i = Some l /\ containsBelow d l = true.
Proof.
  induction ls as [|a rest IH]; intros from to d Hp [Hlo Hhi].
  - discriminate.
  - apply partitions_cons in Hp. destruct Hp as (Ht & Hlt & Hrest).
    destruct (Qlt_le_dec d (botDepth a)) as [Hbd|Hbd].
    + exists O, a. split; [reflexivity|].
      unfold containsBelow. apply andb_true_iff. split.
      * apply Qle_bool_iff. lra.
      * apply Qlt_bool_iff. lra.
    + destruct Hrest as [[_ Hb]|[_ Hp]]; [lra|].
      destruct (IH _ _ d Hp (conj Hbd Hhi)) as (i & l & Hn & Hc).
      exists (S i), l. auto.
Qed.

Lemma containsAbove_iff (d : Q) (l : VelocityLayer Q) :
  containsAbove d l = true <-> topDepth l < d <= botDepth l.
Proof.
  unfold containsAbove. rewrite andb_true_iff, Qlt_bool_iff, Qle_bool_iff.
  tauto.
Qed.

Lemma containsBelow_iff (d : Q) (l : VelocityLayer Q) :
  containsBelow d l = true <-> topDepth l <= d < botDepth l.
Proof.
  unfold containsBelow. rewrite andb_true_iff, Qlt_bool_iff, Qle_bool_iff.
  tauto.
Qed.

(** In a partition at most one layer contains a depth, under either
    rule. *)
Lemma above_unique (ls : list (VelocityLayer Q)) (from to d : Q)
  (i j : nat) (li lj : VelocityLayer Q) :
  partitions from ls to = true ->
  nth_error ls i = Some li -> containsAbove d li = true ->
  nth_error ls j = Some lj -> containsAbove d lj = true ->
  i = j.
Proof.
  intros Hp Hi Hci Hj Hcj.
  apply containsAbove_iff in Hci, Hcj.
  destruct (Nat.lt_trichotomy i j) as [H|[H|H]]; [|assumption|].
  - pose proof (partitions_sorted _ _ _ _ _ _ _ Hp Hi Hj H). lra.
  - pose proof (partitions_sorted _ _ _ _ _ _ _ Hp Hj Hi H). lra.
Qed.

Lemma below_unique (ls : list (VelocityLayer Q)) (from to d : Q)
  (i j : nat) (li lj : VelocityLayer Q) :
  partitions from ls to = true ->
  nth_error ls i = Some li -> containsBelow d li = true ->
  nth_error ls j = Some lj -> containsBelow d lj = true ->
  i = j.
Proof.
  intros Hp Hi Hci Hj Hcj.
  apply containsBelow_iff in Hci, Hcj.
  destruct (Nat.lt_trichotomy i j) as [H|[H|H]]; [|assumption|].
  - pose proof (partitions_sorted _ _ _ _ _ _ _ Hp Hi Hj H). lra.
  - pose proof (partitions_sorted _ _ _ _ _ _ _ Hp Hj Hi H). lra.
Qed.

(** ** [layerNumberAbove] and [layerNumberBelow] on a partition *)

Lemma layerNumberAbove_iff (m : VelocityModel Q) (maxDepth depth : Q) (i : nat) :
  coversDepths m maxDepth = true ->
  (layerNumberAbove m depth = Returns i <->
   exists l, nth_error (layers m) i = Some l /\
             topDepth l < depth <= botDepth l).
Proof.
  intro Hp. unfold layerNumberAbove. split.
  - intro H. apply firstLayer_returns in H.
    destruct H as (i' & l & -> & Hn & Hc). exists l.
    split; [assumption|]. now apply containsAbove_iff.
  - intros (l & Hn & Hc). apply containsAbove_iff in Hc.
    destruct (firstLayer_found _ _ O _ _ Hn Hc) as (j & _ & Hf).
    rewrite Hf. f_equal.
    destruct (firstLayer_returns _ _ _ _ Hf) as (j' & l' & Hj & Hn' & Hc').
    simpl in Hj. subst j'.
    exact (above_unique _ _ _ _ _ _ _ _ Hp Hn' Hc' Hn Hc).
Qed.

Lemma layerNumberBelow_iff (m : VelocityModel Q) (maxDepth depth : Q) (i : nat) :
  coversDepths m maxDepth = true ->
  (layerNumberBelow m depth = Returns i <->
   exists l, nth_error (layers m) i = Some l /\
             topDepth l <= depth < botDepth l).
Proof.
  intro Hp. unfold layerNumberBelow. split.
  - intro H. apply firstLayer_returns in H.
    destruct H as (i' & l & -> & Hn & Hc). exists l.
    split; [assumption|]. now apply containsBelow_iff.
  - intros (l & Hn & Hc). apply containsBelow_iff in Hc.
    destruct (firstLayer_found _ _ O _ _ Hn Hc) as (j & _ & Hf).
    rewrite Hf. f_equal.
    destruct (firstLayer_returns _ _ _ _ Hf) as (j' & l' & Hj & Hn' & Hc').
    simpl in Hj. subst j'.
    exact (below_unique _ _ _ _ _ _ _ _ Hp Hn' Hc' Hn Hc).
Qed.

Lemma layerNumberAbove_raises_iff (m : VelocityModel Q) (maxDepth depth : Q) :
  coversDepths m maxDepth = true ->
  (layerNumberAbove m depth = Raises noSuchLayer <->
   ~ (0 < depth <= maxDepth)).
Proof.
  intro Hp. unfold layerNumberAbove. split.
  - intros H Hin. apply firstLayer_raises in H. destruct H as [_ Hall].
    destruct (partitions_has_above _ _ _ _ Hp Hin) as (i & l & Hn & Hc).
    apply nth_error_In in Hn. rewrite (Hall _ Hn) in Hc. discriminate.
  - intro Hout.
    destruct (firstLayer_total (containsAbove depth) (layers m) O)
      as [[j Hj]|Hr]; [|assumption].
    exfalso. apply Hout.
    destruct (firstLayer_returns _ _ _ _ Hj) as (i & l & _ & Hn & Hc).
    apply containsAbove_iff in Hc.
    destruct (partitions_nth _ _ _ _ _ Hp Hn) as (? & ? & ?). lra.
Qed.

Lemma layerNumberBelow_raises_iff (m : VelocityModel Q) (maxDepth depth : Q) :
  coversDepths m maxDepth = true ->
  (layerNumberBelow m depth = Raises noSuchLayer <->
   ~ (0 <= depth < maxDepth)).
Proof.
  intro Hp. unfold layerNumberBelow. split.
  - intros H Hin. apply firstLayer_raises in H. destruct H as [_ Hall].
    destruct (partitions_has_below _ _ _ _ Hp Hin) as (i & l & Hn & Hc).
    apply nth_error_In in Hn. rewrite (Hall _ Hn) in Hc. discriminate.
  - intro Hout.
    destruct (firstLayer_total (containsBelow depth) (layers m) O)
      as [[j Hj]|Hr]; [|assumption].
    exfalso. apply Hout.
    destruct (firstLayer_returns _ _ _ _ Hj) as (i & l & _ & Hn & Hc).
    apply containsBelow_iff in Hc.
    destruct (partitions_nth _ _ _ _ _ Hp Hn) as (? & ? & ?). lra.
Qed.

(** C2, as stated, fails at the surface: depth 0 lies in the range
    [[0, 10]] of the one-layer model, [layerNumberBelow] finds layer 0
    there, but [layerNumberAbove] raises "No such layer." *)
Lemma layerNumberAbove_surface_raises :
  coversDepths slabModel 10 = true /\
  0 <= 0 <= 10 /\
  layerNumberBelow slabModel 0 = Returns O /\
  layerNumberAbove slabModel 0 = Raises noSuchLayer.
Proof.
  repeat split; try reflexivity; discriminate.
Qed.

(** C2 (amended).  In a model whose layers cover [[0, maxDepth]],
    [layerNumberAbove depth] returns [i] exactly when
    [layers[i].topDepth < depth <= layers[i].botDepth] and
    [layerNumberBelow depth] returns [i] exactly when
    [layers[i].topDepth <= depth < layers[i].botDepth]; the first raises
    "No such layer." exactly when [depth] is outside [(0, maxDepth]], the
    second exactly when [depth] is outside [[0, maxDepth)]; neither does
    anything else. *)
Theorem layerNumber_lookup (m : VelocityModel Q) (maxDepth depth : Q) :
  coversDepths m maxDepth = true ->
  (forall i, layerNumberAbove m depth = Returns i <->
     exists l, nth_error (layers m) i = Some l /\
               topDepth l < depth <= botDepth l) /\
  (forall i, layerNumberBelow m depth = Returns i <->
     exists l, nth_error (layers m) i = Some l /\
               topDepth l <= depth < botDepth l) /\
  (layerNumberAbove m depth = Raises noSuchLayer <->
     ~ (0 < depth <= maxDepth)) /\
  (layerNumberBelow m depth = Raises noSuchLayer <->
     ~ (0 <= depth < maxDepth)) /\
  ((exists i, layerNumberAbove m depth = Returns i) \/
   layerNumberAbove m depth = Raises noSuchLayer) /\
  ((exists i, layerNumberBelow m depth = Returns i) \/
   layerNumberBelow m depth = Raises noSuchLayer).
Proof.
  intro Hp. repeat split.
  - apply (layerNumberAbove_iff m maxDepth depth i Hp).
  - apply (layerNumberAbove_iff m maxDepth depth i Hp).
  - apply (layerNumberBelow_iff m maxDepth depth i Hp).
  - apply (layerNumberBelow_iff m maxDepth depth i Hp).
  - apply (layerNumberAbove_raises_iff m maxDepth depth Hp).
  - apply (layerNumberAbove_raises_iff m maxDepth depth Hp).
  - apply (layerNumberBelow_raises_iff m maxDepth depth Hp).
  - apply (layerNumberBelow_raises_iff m maxDepth depth Hp).
  - apply firstLayer_total.
  - apply firstLayer_total.
Qed.

Lemma layerNumber_lookup_witness :
  coversDepths twoLayerModel 50 = true /\
  layerNumberAbove twoLayerModel 20 = Returns O /\
  layerNumberBelow twoLayerModel 20 = Returns 1%nat /\
  layerNumberAbove twoLayerModel 0 = Raises noSuchLayer /\
  layerNumberBelow twoLayerModel 50 = Raises noSuchLayer.
Proof.
  assert (Hp : coversDepths twoLayerModel 50 = true) by reflexivity.
  split; [exact Hp|].
  pose proof (layerNumber_lookup twoLayerModel 50 20 Hp) as (Ha & Hb & _).
  pose proof (layerNumber_lookup twoLayerModel 50 0 Hp) as (_ & _ & Ha0 & _).
  pose proof (layerNumber_lookup twoLayerModel 50 50 Hp) as (_ & _ & _ & Hb50 & _).
  split; [apply Ha; exists upper; split; [reflexivity | split; reflexivity || discriminate]|].
  split; [apply Hb; exists lower20; split; [reflexivity | split; reflexivity || discriminate]|].
  split; [apply Ha0; intros [H _]; discriminate H|].
  apply Hb50; intros [_ H]; discriminate H.
Defined.

(** C3, as stated, fails at the surface of a valid model: depth 0 is in
    the range of the one-layer model and is not an internal boundary, yet
    the two lookups do not return equal indices there
    ([layerNumberAbove] raises). *)
Lemma layerNumbers_unequal_at_surface :
  coversDepths slabModel 10 = true /\
  0 <= 0 <= 10 /\
  ~ internalBoundary slabModel 0 /\
  ~ (exists i, layerNumberAbove slabModel 0 = Returns i /\
               layerNumberBelow slabModel 0 = Returns i).
Proof.
  split; [reflexivity|]. split; [split; discriminate|]. split.
  - intros (i & l & _ & Hlen & _). simpl in Hlen. lia.
  - intros (i & Ha & _). discriminate Ha.
Qed.

(** C3 (amended).  In a valid model, one whose layers partition
    [[0, maxDepth]], at every internal layer boundary
    [layerNumberBelow] returns the index after the one
    [layerNumberAbove] returns, and at every other depth strictly between
    0 and [maxDepth] the two return the same index. *)
Theorem layerNumbers_at_boundary (m : VelocityModel Q) (maxDepth depth : Q) :
  coversDepths m maxDepth = true ->
  0 < depth < maxDepth ->
  (internalBoundary m depth ->
   exists i, layerNumberAbove m depth = Returns i /\
             layerNumberBelow m depth = Returns (S i)) /\
  (~ internalBoundary m depth ->
   exists i, layerNumberAbove m depth = Returns i /\
             layerNumberBelow m depth = Returns i).
Proof.
  intros Hp [Hlo Hhi]. split.
  - intros (i & a & Ha & Hlen & Hd).
    destruct (nth_error (layers m) (S i)) as [b|] eqn:Hb;
      [|apply nth_error_None in Hb; lia].
    pose proof (partitions_contiguous _ _ _ _ _ _ Hp Ha Hb) as Hc.
    destruct (partitions_nth _ _ _ _ _ Hp Ha) as (_ & Hta & _).
    destruct (partitions_nth _ _ _ _ _ Hp Hb) as (_ & Htb & _).
    exists i. split.
    + apply (layerNumberAbove_iff m maxDepth depth i Hp).
      exists a. split; [assumption|]. lra.
    + apply (layerNumberBelow_iff m maxDepth depth (S i) Hp).
      exists b. split; [assumption|]. lra.
  - intro Hnb.
    assert (Hin : 0 < depth <= maxDepth) by lra.
    destruct (partitions_has_above _ _ _ _ Hp Hin) as (i & l & Hn & Hc).
    apply containsAbove_iff in Hc.
    exists i. split.
    + apply (layerNumberAbove_iff m maxDepth depth i Hp). eauto.
    + apply (layerNumberBelow_iff m maxDepth depth i Hp).
      exists l. split; [assumption|]. split; [lra|].
      destruct (Qlt_le_dec depth (botDepth l)) as [H|H]; [assumption|].
      exfalso. assert (Heq : botDepth l == depth) by lra.
      assert (Hi : (i < length (layers m))%nat)
        by (apply nth_error_Some; congruence).
      destruct (Nat.eq_dec (length (layers m)) (S i)) as [Hlast|Hnot].
      * pose proof (partitions_last _ _ _ _ _ Hp Hn Hlast). lra.
      * apply Hnb. exists i, l. repeat split; [assumption|lia|assumption].
Qed.

Lemma layerNumbers_at_boundary_witness :
  coversDepths twoLayerModel 50 = true /\
  0 < 20 < 50 /\
  (internalBoundary twoLayerModel 20 ->
   exists i, layerNumberAbove twoLayerModel 20 = Returns i /\
             layerNumberBelow twoLayerModel 20 = Returns (S i)).
Proof.
  assert (Hp : coversDepths twoLayerModel 50 = true) by reflexivity.
  assert (Hd : 0 < 20 < 50) by (split; reflexivity).
  split; [exact Hp|]. split; [exact Hd|].
  exact (proj1 (layerNumbers_at_boundary twoLayerModel 50 20 Hp Hd)).
Defined.

(** ** [getDisconDepths] *)

Lemma adjacentLayers_cons (a b : VelocityLayer Q) (rest : list (VelocityLayer Q)) :
  adjacentLayers (a :: b :: rest) = (a, b) :: adjacentLayers (b :: rest).
Proof. reflexivity. Qed.

Lemma adjacentLayers_nth (ls : list (VelocityLayer Q)) :
  forall i a b,
  nth_error (adjacentLayers ls) i = Some (a, b) <->
  nth_error ls i = Some a /\ nth_error ls (S i) = Some b.
Proof.
  induction ls as [|x rest IH]; intros i a b.
  - destruct i; simpl; split; try discriminate; intros [H _]; discriminate.
  - destruct rest as [|y rest'].
    + destruct i as [|i]; simpl; split; try discriminate.
      * intros [_ H]. discriminate.
      * intros [_ H]. destruct i; discriminate.
    + rewrite adjacentLayers_cons. destruct i as [|i].
      * simpl. split.
        -- intro H. injection H as <- <-. auto.
        -- intros [H1 H2]. congruence.
      * change (nth_error ((x, y) :: adjacentLayers (y :: rest')) (S i))
          with (nth_error (adjacentLayers (y :: rest')) i).
        rewrite IH. reflexivity.
Qed.

Lemma adjacentLayers_In (ls : list (VelocityLayer Q)) (a b : VelocityLayer Q) :
  In (a, b) (adjacentLayers ls) <->
  exists i, nth_error ls i = Some a /\ nth_error ls (S i) = Some b.
Proof.
  split.
  - intro H. apply In_nth_error in H. destruct H as [i Hi].
    exists i. now apply adjacentLayers_nth.
  - intros [i Hi]. apply adjacentLayers_nth in Hi.
    eapply nth_error_In; eauto.
Qed.

Lemma getDisconDepths_loop (pairs : list (VelocityLayer Q * VelocityLayer Q)) :
  forall acc,
  fold_left
    (fun acc (pair : VelocityLayer Q * VelocityLayer Q) =>
       let (above_layer, below_layer) := pair in
       if isDiscontinuity above_layer below_layer
       then acc ++ [botDepth above_layer]
       else acc)
    pairs acc
  = acc ++ flat_map appended pairs.
Proof.
  induction pairs as [|[a b] rest IH]; intro acc; simpl.
  - now rewrite app_nil_r.
  - rewrite IH. unfold appended at 2. simpl.
    destruct (isDiscontinuity a b); simpl.
    + now rewrite <- app_assoc.
    + reflexivity.
Qed.

Lemma disconBelow_shift (a : VelocityLayer Q) (ls : list (VelocityLayer Q))
  (idx : list nat) :
  flat_map (disconBelow (a :: ls)) (map S idx) = flat_map (disconBelow ls) idx.
Proof.
  induction idx as [|i idx IH]; simpl; [reflexivity|].
  now rewrite IH.
Qed.

Lemma internalDisconDepths_adjacent (ls : list (VelocityLayer Q)) :
  internalDisconDepths ls = flat_map appended (adjacentLayers ls).
Proof.
  unfold internalDisconDepths.
  induction ls as [|a rest IH]; [reflexivity|].
  destruct rest as [|b rest']; [reflexivity|].
  rewrite adjacentLayers_cons.
  replace (length (a :: b :: rest') - 1)%nat
    with (S (length (b :: rest') - 1)) by (simpl; lia).
  rewrite <- cons_seq, <- seq_shift.
  cbn [flat_map]. rewrite disconBelow_shift, IH.
  reflexivity.
Qed.

Lemma internalDisconDepths_In (ls : list (VelocityLayer Q)) (d : Q) :
  In d (internalDisconDepths ls) <->
  exists i above below,
    nth_error ls i = Some above /\ nth_error ls (S i) = Some below /\
    (~ botPVelocity above == topPVelocity below \/
     ~ botSVelocity above == topSVelocity below) /\
    botDepth above = d.
Proof.
  rewrite internalDisconDepths_adjacent, in_flat_map. split.
  - intros ([a b] & Hin & Hd). apply adjacentLayers_In in Hin.
    destruct Hin as (i & Ha & Hb). unfold appended in Hd. simpl in Hd.
    destruct (isDiscontinuity a b) eqn:E; [|contradiction].
    destruct Hd as [<-|[]]. exists i, a, b. repeat split; try assumption.
    unfold isDiscontinuity in E. apply orb_true_iff in E.
    destruct E as [E|E]; apply Qneq_bool_iff in E; auto.
  - intros (i & a & b & Ha & Hb & Hdisc & <-). exists (a, b). split.
    + apply adjacentLayers_In. eauto.
    + unfold appended. simpl.
      replace (isDiscontinuity a b) with true; [now left|].
      symmetry. unfold isDiscontinuity. apply orb_true_iff.
      destruct Hdisc as [H|H]; [left|right]; now apply Qneq_bool_iff.
Qed.

Lemma internalDisconDepths_cons (a b : VelocityLayer Q)
  (rest : list (VelocityLayer Q)) :
  internalDisconDepths (a :: b :: rest)
  = appended (a, b) ++ internalDisconDepths (b :: rest).
Proof.
  now rewrite !internalDisconDepths_adjacent, adjacentLayers_cons.
Qed.

Lemma partitions_last_bot (ls : list (VelocityLayer Q)) :
  forall from to d0,
  partitions from ls to = true -> botDepth (last ls d0) == to.
Proof.
  induction ls as [|a rest IH]; intros from to d0 Hp; [discriminate|].
  apply partitions_cons in Hp. destruct Hp as (_ & _ & Hrest).
  destruct Hrest as [[-> Hb]|[Hne Hp]]; [assumption|].
  destruct rest as [|b rest']; [congruence|].
  change (last (a :: b :: rest') d0) with (last (b :: rest') d0).
  eapply IH; eauto.
Qed.

(** Below a partition's top, the reported depths increase strictly. *)
Lemma discon_depths_sorted (ls : list (VelocityLayer Q)) :
  forall from to d0,
  partitions from ls to = true ->
  StronglySorted Qlt (internalDisconDepths ls ++ [botDepth (last ls d0)]) /\
  Forall (fun d => from < d) (internalDisconDepths ls ++ [botDepth (last ls d0)]).
Proof.
  induction ls as [|a rest IH]; intros from to d0 Hp; [discriminate|].
  apply partitions_cons in Hp. destruct Hp as (Ht & Hlt & Hrest).
  destruct rest as [|b rest'].
  - simpl. split.
    + constructor; constructor.
    + constructor; [lra|constructor].
  - destruct Hrest as [[H _]|[_ Hp]]; [discriminate|].
    destruct (IH _ _ d0 Hp) as [Hs Hf].
    rewrite internalDisconDepths_cons.
    change (last (a :: b :: rest') d0) with (last (b :: rest') d0).
    unfold appended. simpl fst. simpl snd.
    destruct (isDiscontinuity a b); simpl.
    + split.
      * constructor; assumption.
      * constructor; [lra|].
        eapply Forall_impl; [|exact Hf]. simpl. intros d Hd. lra.
    + split; [assumption|].
      eapply Forall_impl; [|exact Hf]. simpl. intros d Hd. lra.
Qed.

(** C4, as stated, fails: the result starts at the top depth of the first
    layer, which need not be 0, and follows the stored order of the layers.
    The [.tvel] reader returns [deepModel] for a file whose first row is at
    5 km; the model has one layer and [getDisconDepths] gives [[5; 10]],
    without depth 0.  For three layers stored deepest first the result is
    [[30; 40; 20; 5]]: not ordered, and neither starting at 0 nor ending at
    the deepest bottom, 40. *)
Lemma getDisconDepths_starts_below_surface :
  readTVelFile_0 (TK_EOL :: TK_EOL :: flat_map rowTokens deepRows) "deep"
  = Returns deepModel /\
  layers deepModel <> [] /\
  getDisconDepths deepModel = Returns [5; 10] /\
  ~ (exists d rest,
       getDisconDepths deepModel = Returns (d :: rest) /\ d == 0) /\
  layers shuffledModel <> [] /\
  getDisconDepths shuffledModel = Returns [30; 40; 20; 5] /\
  ~ StronglySorted Qle [30; 40; 20; 5].
Proof.
  split; [vm_compute; reflexivity|]. split; [discriminate|].
  split; [reflexivity|]. split.
  - intros (d & rest & Hg & Hd).
    assert (E : d = 5) by (vm_compute in Hg; congruence).
    subst d. discriminate Hd.
  - split; [discriminate|]. split; [reflexivity|].
    intro Hs. apply StronglySorted_inv in Hs. destruct Hs as [Hs _].
    apply StronglySorted_inv in Hs. destruct Hs as [_ Hf].
    apply Forall_inv in Hf. apply Hf. reflexivity.
Qed.

(** C4 (amended).  For a model with at least one layer [getDisconDepths]
    returns the top depth of the first layer, then the bottom depth of
    every layer but the last whose bottom P or S velocity differs from the
    top P or S velocity of the layer below, in layer order, then the bottom
    depth of the last layer; the two ends are there whatever the velocities
    are.  When the layers cover [[0, maxDepth]] (the first starts at 0,
    each has positive thickness and starts where the one before ends, the
    last ends at [maxDepth]) the first depth is 0, the last is [maxDepth]
    and the sequence increases strictly. *)
Theorem getDisconDepths_spec (m : VelocityModel Q) :
  layers m <> [] ->
  exists first rest,
    layers m = first :: rest /\
    getDisconDepths m =
      Returns (topDepth first :: internalDisconDepths (layers m)
                 ++ [botDepth (last (layers m) first)]) /\
    (forall d, In d (internalDisconDepths (layers m)) <->
       exists i above below,
         nth_error (layers m) i = Some above /\
         nth_error (layers m) (S i) = Some below /\
         (~ botPVelocity above == topPVelocity below \/
          ~ botSVelocity above == topSVelocity below) /\
         botDepth above = d) /\
    (forall maxDepth, coversDepths m maxDepth = true ->
       topDepth first == 0 /\
       botDepth (last (layers m) first) == maxDepth /\
       StronglySorted Qlt
         (topDepth first :: internalDisconDepths (layers m)
            ++ [botDepth (last (layers m) first)])).
Proof.
  intro Hne. destruct (layers m) as [|first rest] eqn:El; [congruence|].
  exists first, rest. split; [reflexivity|]. split; [|split].
  - unfold getDisconDepths. rewrite El.
    rewrite getDisconDepths_loop, internalDisconDepths_adjacent.
    reflexivity.
  - intro d. apply internalDisconDepths_In.
  - intros maxDepth Hp. unfold coversDepths in Hp. rewrite El in Hp.
    destruct (discon_depths_sorted _ _ _ first Hp) as [Hs Hf].
    pose proof (partitions_last_bot _ _ _ first Hp) as Hl.
    pose proof (partitions_cons _ _ _ _ Hp) as (Ht & _).
    split; [assumption|]. split; [assumption|].
    constructor; [assumption|].
    eapply Forall_impl; [|exact Hf]. simpl. intros d Hd. lra.
Qed.

Lemma getDisconDepths_spec_witness :
  layers twoLayerModel <> [] /\
  coversDepths twoLayerModel 50 = true /\
  getDisconDepths twoLayerModel = Returns [0; 20; 50] /\
  StronglySorted Qlt [0; 20; 50].
Proof.
  assert (Hne : layers twoLayerModel <> []) by discriminate.
  split; [exact Hne|]. split; [reflexivity|].
  destruct (getDisconDepths_spec twoLayerModel Hne)
    as (first & rest & Hl & Hg & _ & Hc).
  injection Hl as <- <-. split; [exact Hg|].
  exact (proj2 (proj2 (Hc 50 eq_refl))).
Defined.

(** ** [fixDisconDepths] *)

(** An invariant of the scan: it holds of the initial locals and every
    pass of the loop body at adjacent layers keeps it. *)
Lemma scan_invariant (m : VelocityModel Q) (P : disconScan -> Prop) :
  P (scanInit m) ->
  (forall st i above below,
     nth_error (layers m) i = Some above ->
     nth_error (layers m) (S i) = Some below ->
     P st -> P (scanStep m st (above, below))) ->
  P (scanDiscontinuities m).
Proof.
  intros Hinit Hstep. unfold scanDiscontinuities.
  assert (Hin : forall a b, In (a, b) (adjacentLayers (layers m)) ->
                exists i, nth_error (layers m) i = Some a /\
                          nth_error (layers m) (S i) = Some b)
    by (intros a b; apply adjacentLayers_In).
  revert Hin. generalize (adjacentLayers (layers m)) as pairs.
  generalize (scanInit m) as st0, Hinit.
  intros st0 H0 pairs. revert st0 H0.
  induction pairs as [|[a b] pairs IH]; intros st0 H0 Hin; simpl.
  - assumption.
  - apply IH.
    + destruct (Hin a b (or_introl eq_refl)) as (i & Ha & Hb).
      eapply Hstep; eauto.
    + intros a' b' H. apply Hin. now right.
Qed.

Lemma tempIocbDepth_step (m : VelocityModel Q) (st : disconScan)
  (above below : VelocityLayer Q) :
  tempIocbDepth (scanStep m st (above, below)) = tempIocbDepth st \/
  (isDiscontinuity above below = true /\
   liquidToSolid above below = true /\
   tempIocbDepth (scanStep m st (above, below)) = botDepth above).
Proof.
  unfold scanStep. destruct (isDiscontinuity above below); [|now left].
  unfold nearerIocb.
  destruct (liquidToSolid above below) eqn:El; simpl.
  - destruct (Qlt_bool _ _); simpl; [now right|].
    left. unfold nearerCmb, nearerMoho.
    repeat (destruct (Qlt_bool _ _); simpl); reflexivity.
  - left. unfold nearerCmb, nearerMoho.
    repeat (destruct (Qlt_bool _ _); simpl); reflexivity.
Qed.

Lemma liquidToSolid_iff (above below : VelocityLayer Q) :
  liquidToSolid above below = true <->
  botSVelocity above == 0 /\ 0 < topSVelocity below.
Proof.
  unfold liquidToSolid.
  now rewrite andb_true_iff, Qeq_bool_iff, Qlt_bool_iff.
Qed.

(** The iocb candidate the scan ends with is the radius it started from
    or the depth of a liquid-over-solid boundary. *)
Lemma tempIocbDepth_origin (m : VelocityModel Q) :
  tempIocbDepth (scanDiscontinuities m) = radiusOfEarth m \/
  exists i above below,
    disconAt m i above below /\
    botSVelocity above == 0 /\ 0 < topSVelocity below /\
    tempIocbDepth (scanDiscontinuities m) = botDepth above.
Proof.
  apply (scan_invariant m
    (fun st => tempIocbDepth st = radiusOfEarth m \/
       exists i above below,
         disconAt m i above below /\
         botSVelocity above == 0 /\ 0 < topSVelocity below /\
         tempIocbDepth st = botDepth above)).
  - now left.
  - intros st i a b Ha Hb IH.
    destruct (tempIocbDepth_step m st a b) as [->|(Hd & Hl & ->)];
      [assumption|].
    right. apply liquidToSolid_iff in Hl. destruct Hl.
    exists i, a, b. repeat split; assumption.
Qed.

(** C6.  The iocb depth [fixDisconDepths] stores is the radius of the
    earth or the depth of an internal discontinuity with zero S velocity
    above and positive S velocity below; when no internal boundary has
    that signature it is the radius of the earth; and when the cmb and
    iocb candidates of the scan coincide it is the radius of the earth. *)
Theorem fixDisconDepths_iocb (m : VelocityModel Q) :
  (iocbDepth (snd (fixDisconDepths m)) = radiusOfEarth m \/
   exists i above below,
     disconAt m i above below /\
     botSVelocity above == 0 /\ 0 < topSVelocity below /\
     iocbDepth (snd (fixDisconDepths m)) = botDepth above) /\
  ((forall i above below,
      nth_error (layers m) i = Some above ->
      nth_error (layers m) (S i) = Some below ->
      ~ (botSVelocity above == 0 /\ 0 < topSVelocity below)) ->
   iocbDepth (snd (fixDisconDepths m)) = radiusOfEarth m) /\
  (tempCmbDepth (scanDiscontinuities m) == tempIocbDepth (scanDiscontinuities m) ->
   iocbDepth (snd (fixDisconDepths m)) = radiusOfEarth m).
Proof.
  unfold fixDisconDepths. simpl. repeat split.
  - destruct (Qneq_bool _ _); [|now left].
    apply tempIocbDepth_origin.
  - intro Hnone.
    destruct (Qneq_bool _ _); [|reflexivity].
    destruct (tempIocbDepth_origin m)
      as [H|(i & a & b & (Ha & Hb & _) & Hz & Hpos & _)]; [assumption|].
    exfalso. exact (Hnone i a b Ha Hb (conj Hz Hpos)).
  - intro Heq. apply Qneq_bool_false in Heq. now rewrite Heq.
Qed.

Lemma fixDisconDepths_iocb_witness :
  tempCmbDepth (scanDiscontinuities liquidOverSolid)
    == tempIocbDepth (scanDiscontinuities liquidOverSolid) /\
  iocbDepth (snd (fixDisconDepths liquidOverSolid)) = 300.
Proof.
  assert (H : tempCmbDepth (scanDiscontinuities liquidOverSolid)
              == tempIocbDepth (scanDiscontinuities liquidOverSolid))
    by reflexivity.
  split; [exact H|].
  exact (proj2 (proj2 (fixDisconDepths_iocb liquidOverSolid)) H).
Defined.

(** C5 fails on the code.  The three stored depths of
    [liquidOverSolid] are the same after the call as before, yet
    [fixDisconDepths] returns [True]; and with the stored iocb at 150 km
    the call moves it to 300 km and returns [False].  The flag is computed
    against the iocb candidate, before the candidate is replaced by the
    radius of the earth for coinciding with the cmb candidate. *)
Theorem fixDisconDepths_changeMade_wrong :
  (fst (fixDisconDepths liquidOverSolid) = true /\
   mohoDepth (snd (fixDisconDepths liquidOverSolid)) == mohoDepth liquidOverSolid /\
   cmbDepth (snd (fixDisconDepths liquidOverSolid)) == cmbDepth liquidOverSolid /\
   iocbDepth (snd (fixDisconDepths liquidOverSolid)) == iocbDepth liquidOverSolid) /\
  (fst (fixDisconDepths liquidOverSolid150) = false /\
   iocbDepth liquidOverSolid150 == 150 /\
   iocbDepth (snd (fixDisconDepths liquidOverSolid150)) == 300).
Proof.
  repeat split.
Qed.

Lemma mohoMin_untouched (m : VelocityModel Q) :
  (forall i above below, disconAt m i above below ->
     ~ Qabs (mohoDepth m - botDepth above) < 65) ->
  tempMohoDepth (scanDiscontinuities m) = 0 /\
  mohoMin (scanDiscontinuities m) = 65.
Proof.
  intro Hfar.
  apply (scan_invariant m
           (fun st => tempMohoDepth st = 0 /\ mohoMin st = 65)).
  - split; reflexivity.
  - intros st i a b Ha Hb [Ht Hm]. unfold scanStep.
    destruct (isDiscontinuity a b) eqn:Ed; [|now split].
    assert (Hn : nearerMoho m a st = st).
    { unfold nearerMoho. rewrite Hm.
      destruct (Qlt_bool _ _) eqn:E; [|reflexivity].
      apply Qlt_bool_iff in E. exfalso.
      apply (Hfar i a b); [now repeat split | exact E]. }
    rewrite Hn. unfold nearerIocb, nearerCmb.
    repeat (match goal with |- context [if ?c then _ else _] => destruct c end;
            simpl); now split.
Qed.

Lemma cmbMin_untouched (m : VelocityModel Q) :
  (forall i above below, disconAt m i above below ->
     ~ Qabs (cmbDepth m - botDepth above) < radiusOfEarth m) ->
  tempCmbDepth (scanDiscontinuities m) = radiusOfEarth m /\
  cmbMin (scanDiscontinuities m) = radiusOfEarth m.
Proof.
  intro Hfar.
  apply (scan_invariant m
           (fun st => tempCmbDepth st = radiusOfEarth m /\
                      cmbMin st = radiusOfEarth m)).
  - split; reflexivity.
  - intros st i a b Ha Hb [Ht Hm]. unfold scanStep.
    destruct (isDiscontinuity a b) eqn:Ed; [|now split].
    assert (Hn : nearerCmb m a (nearerMoho m a st) = nearerMoho m a st).
    { unfold nearerCmb.
      replace (cmbMin (nearerMoho m a st)) with (radiusOfEarth m)
        by (unfold nearerMoho; destruct (Qlt_bool _ _); simpl; congruence).
      destruct (Qlt_bool _ _) eqn:E; [|reflexivity].
      apply Qlt_bool_iff in E. exfalso.
      apply (Hfar i a b); [now repeat split | exact E]. }
    rewrite Hn. unfold nearerIocb, nearerMoho.
    repeat (match goal with |- context [if ?c then _ else _] => destruct c end;
            simpl); now split.
Qed.

Lemma iocbMin_untouched (m : VelocityModel Q) :
  (forall i above below, disconAt m i above below ->
     ~ (botSVelocity above == 0 /\ 0 < topSVelocity below /\
        Qabs (iocbDepth m - botDepth above) < radiusOfEarth m - 100)) ->
  tempIocbDepth (scanDiscontinuities m) = radiusOfEarth m /\
  iocbMin (scanDiscontinuities m) = radiusOfEarth m - 100.
Proof.
  intro Hfar.
  apply (scan_invariant m
           (fun st => tempIocbDepth st = radiusOfEarth m /\
                      iocbMin st = radiusOfEarth m - 100)).
  - split; reflexivity.
  - intros st i a b Ha Hb [Ht Hm]. unfold scanStep.
    destruct (isDiscontinuity a b) eqn:Ed; [|now split].
    set (st' := nearerCmb m a (nearerMoho m a st)).
    assert (Ht' : tempIocbDepth st' = radiusOfEarth m)
      by (unfold st', nearerCmb, nearerMoho;
          repeat (destruct (Qlt_bool _ _); simpl); congruence).
    assert (Hm' : iocbMin st' = radiusOfEarth m - 100)
      by (unfold st', nearerCmb, nearerMoho;
          repeat (destruct (Qlt_bool _ _); simpl); congruence).
    assert (Hn : nearerIocb m a b st' = st').
    { unfold nearerIocb. rewrite Hm'.
      destruct (liquidToSolid a b && Qlt_bool _ _) eqn:E; [|reflexivity].
      apply andb_true_iff in E. destruct E as [El E].
      apply liquidToSolid_iff in El. destruct El as [Hz Hpos].
      apply Qlt_bool_iff in E. exfalso.
      apply (Hfar i a b); [now repeat split | auto]. }
    rewrite Hn. now split.
Qed.

(** C10.  If no internal velocity discontinuity lies within 65 km of the
    stored [mohoDepth], [fixDisconDepths] sets [mohoDepth] to 0; if none
    lies within [radiusOfEarth] of the stored [cmbDepth], so that none is
    a cmb candidate, it sets [cmbDepth] to [radiusOfEarth]; and if none is
    an iocb candidate (liquid over solid and within [radiusOfEarth - 100]
    of the stored [iocbDepth]) it sets [iocbDepth] to [radiusOfEarth].
    The stored depth is overwritten by the fallback in each case. *)
Theorem fixDisconDepths_fallbacks (m : VelocityModel Q) :
  ((forall i above below, disconAt m i above below ->
      ~ Qabs (mohoDepth m - botDepth above) < 65) ->
   mohoDepth (snd (fixDisconDepths m)) = 0) /\
  ((forall i above below, disconAt m i above below ->
      ~ Qabs (cmbDepth m - botDepth above) < radiusOfEarth m) ->
   cmbDepth (snd (fixDisconDepths m)) = radiusOfEarth m) /\
  ((forall i above below, disconAt m i above below ->
      ~ (botSVelocity above == 0 /\ 0 < topSVelocity below /\
         Qabs (iocbDepth m - botDepth above) < radiusOfEarth m - 100)) ->
   iocbDepth (snd (fixDisconDepths m)) = radiusOfEarth m).
Proof.
  unfold fixDisconDepths. simpl. repeat split.
  - intro H. apply (mohoMin_untouched m H).
  - intro H. apply (cmbMin_untouched m H).
  - intro H. destruct (iocbMin_untouched m H) as [-> _].
    destruct (Qneq_bool _ _); reflexivity.
Qed.

(** The only internal boundary of the sample model is the one between its
    two layers. *)
Lemma liquidOverSolidDefaults_discon (i : nat) (above below : VelocityLayer Q) :
  disconAt liquidOverSolidDefaults i above below -> above = liquid.
Proof.
  intros (Ha & Hb & _).
  destruct i as [|[|i]]; simpl in Ha, Hb; try discriminate.
  now injection Ha.
Qed.

Lemma fixDisconDepths_fallbacks_witness :
  (forall i above below, disconAt liquidOverSolidDefaults i above below ->
     ~ Qabs (mohoDepth liquidOverSolidDefaults - botDepth above) < 65) /\
  mohoDepth liquidOverSolidDefaults = 35 /\
  mohoDepth (snd (fixDisconDepths liquidOverSolidDefaults)) = 0 /\
  cmbDepth (snd (fixDisconDepths liquidOverSolidDefaults)) = 300 /\
  iocbDepth (snd (fixDisconDepths liquidOverSolidDefaults)) = 300.
Proof.
  assert (Hmoho : forall i above below,
            disconAt liquidOverSolidDefaults i above below ->
            ~ Qabs (mohoDepth liquidOverSolidDefaults - botDepth above) < 65).
  { intros i a b Hd H.
    rewrite (liquidOverSolidDefaults_discon i a b Hd) in H.
    vm_compute in H. discriminate H. }
  assert (Hcmb : forall i above below,
            disconAt liquidOverSolidDefaults i above below ->
            ~ Qabs (cmbDepth liquidOverSolidDefaults - botDepth above)
              < radiusOfEarth liquidOverSolidDefaults).
  { intros i a b Hd H.
    rewrite (liquidOverSolidDefaults_discon i a b Hd) in H.
    vm_compute in H. discriminate H. }
  assert (Hiocb : forall i above below,
            disconAt liquidOverSolidDefaults i above below ->
            ~ (botSVelocity above == 0 /\ 0 < topSVelocity below /\
               Qabs (iocbDepth liquidOverSolidDefaults - botDepth above)
               < radiusOfEarth liquidOverSolidDefaults - 100)).
  { intros i a b Hd (_ & _ & H).
    rewrite (liquidOverSolidDefaults_discon i a b Hd) in H.
    vm_compute in H. discriminate H. }
  destruct (fixDisconDepths_fallbacks liquidOverSolidDefaults)
    as (Fm & Fc & Fi).
  split; [exact Hmoho|]. split; [reflexivity|].
  split; [exact (Fm Hmoho)|]. split; [exact (Fc Hcmb) | exact (Fi Hiocb)].
Defined.

(** ** [validate] *)

Lemma validateLayers_true (ls : list (VelocityLayer Q)) :
  forall prev,
  validateLayers prev ls = true <->
  joined (botDepth prev) ls = true /\
  forallb (fun l => negb (velocityRejected l)) ls = true.
Proof.
  induction ls as [|l rest IH]; intro prev; simpl.
  - tauto.
  - unfold velocityRejected, Qneq_bool.
    destruct (Qeq_bool (botDepth prev) (topDepth l)); simpl;
      [|split; [discriminate | intros [H _]; discriminate H]].
    destruct (Qeq_bool (botDepth l) (topDepth l)); simpl;
      [split; [discriminate | intros [H _]; discriminate H]|].
    destruct (nonPositiveP l); simpl;
      [split; [discriminate | intros [_ H]; discriminate H]|].
    destruct (negativeS l); simpl;
      [split; [discriminate | intros [_ H]; discriminate H]|].
    destruct (goesToZeroP l); simpl;
      [split; [discriminate | intros [_ H]; discriminate H]|].
    destruct (goesToZeroS l); simpl;
      [split; [discriminate | intros [_ H]; discriminate H]|].
    apply IH.
Qed.

Lemma validate_nonempty (m : VelocityModel Q) (first : VelocityLayer Q)
  (rest : list (VelocityLayer Q)) :
  layers m = first :: rest ->
  validate m =
    Returns (metadataAccepted m
             && validateLayers
                  (VelocityLayer9 0 (topDepth first) (topDepth first)
                     (topPVelocity first) (topPVelocity first)
                     (topSVelocity first) (topSVelocity first)
                     (topDensity first) (topDensity first))
                  (layers m)).
Proof.
  intro El. unfold validate, metadataAccepted, getVelocityLayer.
  rewrite El. simpl nth_error. cbv iota.
  repeat match goal with
  | |- context [if ?c then Returns false else _] => destruct c; simpl; [reflexivity|]
  end.
  reflexivity.
Qed.

Lemma rampsToZero_rejected (l : VelocityLayer Q) :
  rampsToZero l -> velocityRejected l = true.
Proof.
  unfold rampsToZero, velocityRejected. intro H.
  destruct (nonPositiveP l) eqn:EP; [reflexivity|].
  destruct (negativeS l) eqn:ES; [reflexivity|].
  simpl. unfold nonPositiveP in EP. apply orb_false_iff in EP.
  destruct EP as [EP1 EP2]. qprops.
  destruct H as [[H1 H2]|[[H1 H2]|[[H1 H2]|[H1 H2]]]]; try lra.
  - apply orb_true_iff. right. unfold goesToZeroS. apply orb_true_iff. right.
    apply andb_true_iff. split; [now apply Qeq_bool_iff | now apply Qneq_bool_iff].
  - apply orb_true_iff. right. unfold goesToZeroS. apply orb_true_iff. left.
    apply andb_true_iff. split; [now apply Qneq_bool_iff | now apply Qeq_bool_iff].
Qed.

Lemma nonPositiveP_rejected (l : VelocityLayer Q) :
  topPVelocity l <= 0 \/ botPVelocity l <= 0 -> velocityRejected l = true.
Proof.
  intro H. unfold velocityRejected.
  replace (nonPositiveP l) with true; [reflexivity|].
  symmetry. unfold nonPositiveP. apply orb_true_iff.
  destruct H as [H|H]; [left|right]; now apply Qle_bool_iff.
Qed.

Lemma liquid_not_rejected (l : VelocityLayer Q) :
  0 < topPVelocity l -> 0 < botPVelocity l ->
  topSVelocity l == 0 -> botSVelocity l == 0 ->
  velocityRejected l = false.
Proof.
  intros Htp Hbp Hts Hbs.
  unfold velocityRejected, nonPositiveP, negativeS, goesToZeroP, goesToZeroS.
  assert (E1 : Qle_bool (topPVelocity l) 0 = false) by (apply Qle_bool_false; lra).
  assert (E2 : Qle_bool (botPVelocity l) 0 = false) by (apply Qle_bool_false; lra).
  assert (E3 : Qlt_bool (topSVelocity l) 0 = false) by (apply Qlt_bool_false; lra).
  assert (E4 : Qlt_bool (botSVelocity l) 0 = false) by (apply Qlt_bool_false; lra).
  assert (E5 : Qeq_bool (topPVelocity l) 0 = false).
  { destruct (Qeq_bool (topPVelocity l) 0) eqn:E; [|reflexivity]. qprops. lra. }
  assert (E6 : Qeq_bool (botPVelocity l) 0 = false).
  { destruct (Qeq_bool (botPVelocity l) 0) eqn:E; [|reflexivity]. qprops. lra. }
  assert (E7 : Qeq_bool (topSVelocity l) 0 = true) by now apply Qeq_bool_iff.
  assert (E8 : Qeq_bool (botSVelocity l) 0 = true) by now apply Qeq_bool_iff.
  unfold Qneq_bool. rewrite E1, E2, E3, E4, E5, E6, E7, E8. reflexivity.
Qed.

(** C9, as stated, fails: the layer [still] has non-negative velocities
    that are zero at both ends, its model has sound metadata, no gap and
    no zero-thickness layer, and yet the P-velocity test of [validate]
    rejects it. *)
Lemma validate_rejects_zero_P_layer :
  (0 <= topPVelocity still /\ 0 <= botPVelocity still /\
   0 <= topSVelocity still /\ 0 <= botSVelocity still) /\
  (topPVelocity still == 0 /\ botPVelocity still == 0 /\
   topSVelocity still == 0 /\ botSVelocity still == 0) /\
  metadataAccepted stillModel = true /\
  joined 0 (layers stillModel) = true /\
  nonPositiveP still = true /\
  velocityRejected still = true /\
  validate stillModel = Returns false.
Proof.
  repeat split; discriminate.
Qed.

(** [validate] on the model [VelocityModel()] without layers: the sound
    default metadata passes, and the lookup of layer 0 raises. *)
Lemma validate_empty_raises :
  validate emptyModel = Raises (TauPException "No such layer.").
Proof. reflexivity. Qed.

(** C9 (amended).  For every model with at least one layer [validate]
    returns a boolean and does not raise; it returns [False] for every
    model that has a layer whose P or S velocity is zero at one end and
    nonzero at the other; a layer whose P velocity is positive at both
    ends and whose S velocity is zero at both ends passes the velocity
    tests, while a layer whose P velocity is zero or negative at an end
    makes [validate] return [False]; and [validate] returns [True] exactly
    when the metadata passes,
    the layers follow one another without gap or zero thickness, and every
    layer passes the velocity tests. *)
Theorem validate_soft_fail (m : VelocityModel Q) :
  layers m <> [] ->
  (exists b, validate m = Returns b) /\
  (forall l, In l (layers m) -> rampsToZero l -> validate m = Returns false) /\
  (forall l, In l (layers m) ->
             topPVelocity l <= 0 \/ botPVelocity l <= 0 ->
             validate m = Returns false) /\
  (forall l, 0 < topPVelocity l -> 0 < botPVelocity l ->
             topSVelocity l == 0 -> botSVelocity l == 0 ->
             velocityRejected l = false) /\
  (validate m = Returns true <->
   metadataAccepted m = true /\
   (exists first rest, layers m = first :: rest /\
                       joined (topDepth first) (layers m) = true) /\
   forallb (fun l => negb (velocityRejected l)) (layers m) = true).
Proof.
  intro Hne. destruct (layers m) as [|first rest] eqn:El; [congruence|].
  pose proof (validate_nonempty m first rest El) as Hv.
  rewrite El in Hv.
  set (prev := VelocityLayer9 0 (topDepth first) (topDepth first)
                 (topPVelocity first) (topPVelocity first)
                 (topSVelocity first) (topSVelocity first)
                 (topDensity first) (topDensity first)) in Hv.
  assert (Htrue : validate m = Returns true <->
            metadataAccepted m = true /\
            (exists first0 rest0, first :: rest = first0 :: rest0 /\
                  joined (topDepth first0) (first :: rest) = true) /\
            forallb (fun l => negb (velocityRejected l)) (first :: rest) = true).
  { rewrite Hv. split.
    - intro H.
      assert (H' : metadataAccepted m && validateLayers prev (first :: rest) = true)
        by congruence.
      apply andb_true_iff in H'.
      destruct H' as [Hm Hl]. apply validateLayers_true in Hl.
      destruct Hl as [Hj Hf]. split; [assumption|]. split; [|assumption].
      exists first, rest. split; [reflexivity|exact Hj].
    - intros (Hm & (f0 & r0 & Heq & Hj) & Hf). injection Heq as <- <-.
      f_equal. apply andb_true_iff. split; [assumption|].
      apply validateLayers_true. split; assumption. }
  assert (Hrej : forall l, In l (first :: rest) -> velocityRejected l = true ->
                 validate m = Returns false).
  { intros l Hin Hr. rewrite Hv. f_equal.
    apply andb_false_iff. right.
    destruct (validateLayers prev (first :: rest)) eqn:E; [|reflexivity].
    apply validateLayers_true in E. destruct E as [_ Hf].
    rewrite forallb_forall in Hf. specialize (Hf l Hin).
    rewrite Hr in Hf. discriminate Hf. }
  split; [|split; [|split; [|split]]].
  - rewrite Hv. eauto.
  - intros l Hin Hramp. apply (Hrej l Hin).
    apply (rampsToZero_rejected l Hramp).
  - intros l Hin HP. apply (Hrej l Hin).
    apply (nonPositiveP_rejected l HP).
  - apply liquid_not_rejected.
  - exact Htrue.
Qed.

Lemma validate_soft_fail_witness :
  layers meltingModel <> [] /\
  rampsToZero melting /\
  validate meltingModel = Returns false.
Proof.
  assert (Hne : layers meltingModel <> []) by discriminate.
  assert (Hr : rampsToZero melting).
  { right. right. right. split; [discriminate | reflexivity]. }
  split; [exact Hne|]. split; [exact Hr|].
  exact (proj1 (proj2 (validate_soft_fail meltingModel Hne))
           melting (or_introl eq_refl) Hr).
Defined.

(** ** The token stream *)

Lemma nextToken_length (tk : StreamTokenizer) :
  (length (input (nextToken tk)) <= length (input tk))%nat.
Proof.
  unfold nextToken. destruct (input tk) as [|[n|s|] rest]; simpl; lia.
Qed.

Lemma nextToken_consumes (tk : StreamTokenizer) :
  isEOF (ttype (nextToken tk)) = false ->
  (length (input (nextToken tk)) < length (input tk))%nat.
Proof.
  unfold nextToken. destruct (input tk) as [|[n|s|] rest]; simpl;
    intros; try discriminate; lia.
Qed.

Lemma nextToken_at_end (tk : StreamTokenizer) :
  input tk = [] ->
  nextToken tk = {| ttype := TT_EOF; nval := nval tk; sval := None; input := [] |}.
Proof. unfold nextToken. now intros ->. Qed.

Lemma whileNotEOL_consumes (fuel : nat) :
  forall tk tk',
  whileNotEOL fuel tk = Returns tk' ->
  isEOL (ttype tk') = true /\
  (tk' = tk \/ (length (input tk') < length (input tk))%nat).
Proof.
  induction fuel as [|fuel IH]; intros tk tk' H; simpl in H.
  - destruct (isEOL (ttype tk)) eqn:E; [|discriminate].
    injection H as <-. auto.
  - destruct (isEOL (ttype tk)) eqn:E.
    + injection H as <-. auto.
    + destruct (IH _ _ H) as [Heol [->|Hlt]].
      * split; [assumption|]. right. apply nextToken_consumes.
        destruct (ttype (nextToken tk)); simpl in *; congruence.
      * split; [assumption|]. right.
        pose proof (nextToken_length tk). lia.
Qed.

Lemma whileNotEOL_at_end (fuel : nat) :
  forall tk,
  input tk = [] -> isEOL (ttype tk) = false ->
  whileNotEOL fuel tk = Diverges.
Proof.
  induction fuel as [|fuel IH]; intros tk Hin Hty; simpl; rewrite Hty.
  - reflexivity.
  - apply IH; rewrite (nextToken_at_end tk Hin); reflexivity.
Qed.

(** With as much fuel as there are tokens left, more fuel changes
    nothing: the loop has returned, or it is at the end of the input and
    goes on for ever. *)
Lemma whileNotEOL_more_fuel (fuel : nat) :
  forall tk k,
  (length (input tk) <= fuel)%nat ->
  whileNotEOL (fuel + k) tk = whileNotEOL fuel tk.
Proof.
  induction fuel as [|fuel IH]; intros tk k Hlen.
  - destruct (isEOL (ttype tk)) eqn:E.
    + destruct k; simpl; rewrite E; reflexivity.
    + assert (Hin : input tk = []) by (destruct (input tk); [reflexivity | simpl in Hlen; lia]).
      now rewrite !whileNotEOL_at_end.
  - simpl. destruct (isEOL (ttype tk)); [reflexivity|].
    apply IH. unfold nextToken.
    destruct (input tk) as [|[n|s|] rest]; simpl in *; lia.
Qed.

(** Skipping what is left of a line stops behind its end of line. *)
Lemma whileNotEOL_line (h : list token) :
  forall tk more fuel,
  noEOL h = true ->
  input tk = h ++ TK_EOL :: more ->
  isEOL (ttype tk) = false ->
  (length h < fuel)%nat ->
  exists nv,
    whileNotEOL fuel tk =
    Returns {| ttype := TT_EOL; nval := nv; sval := None; input := more |}.
Proof.
  induction h as [|t h IH]; intros tk more fuel Hh Hin Hty Hfuel.
  - destruct fuel as [|fuel]; [lia|]. simpl. rewrite Hty.
    unfold nextToken. rewrite Hin. simpl.
    destruct fuel; simpl; eauto.
  - destruct fuel as [|fuel]; [simpl in Hfuel; lia|].
    simpl. rewrite Hty. simpl in Hh. apply andb_true_iff in Hh.
    destruct Hh as [Ht Hh].
    apply IH; try assumption.
    + unfold nextToken. rewrite Hin. destruct t; simpl; congruence.
    + unfold nextToken. rewrite Hin. destruct t; simpl; congruence.
    + simpl in Hfuel. lia.
Qed.

Lemma skipLine_line (h : list token) (tk : StreamTokenizer) (more : list token) :
  noEOL h = true ->
  input tk = h ++ TK_EOL :: more ->
  exists nv,
    skipLine tk =
    Returns {| ttype := TT_EOL; nval := nv; sval := None; input := more |}.
Proof.
  intros Hh Hin. unfold skipLine.
  destruct h as [|t h].
  - unfold nextToken. rewrite Hin. simpl. eauto.
  - simpl in Hh. apply andb_true_iff in Hh. destruct Hh as [Ht Hh].
    apply (whileNotEOL_line h).
    + assumption.
    + unfold nextToken. rewrite Hin. destruct t; simpl; congruence.
    + unfold nextToken. rewrite Hin. destruct t; simpl; congruence.
    + rewrite Hin. simpl. rewrite length_app. simpl. lia.
Qed.

(** ** The [.tvel] reader on the sample of the specification *)

(** C7.  Reading a [.tvel] input of two header lines followed by the rows
    (0, 5.8, 3.36), (20, 6.5, 3.75), (20, 6.5, 3.75), (35, 6.5, 3.75),
    (210, 8.1, 4.5) returns a model with exactly three layers, 0 to 20,
    20 to 35 and 35 to 210 km (the row that repeats depth 20 adds no
    layer), and with [radiusOfEarth = maxRadius = 210]. *)
Theorem readTVelFile_0_sample (header1 header2 : list token) (modelName : string) :
  noEOL header1 = true ->
  noEOL header2 = true ->
  exists m,
    readTVelFile_0 (header1 ++ TK_EOL :: header2 ++ TK_EOL :: tvelSample)
      modelName = Returns m /\
    length (layers m) = 3%nat /\
    map (fun l => (topDepth l, botDepth l)) (layers m)
      = [(0, 20); (20, 35); (35, 210)] /\
    radiusOfEarth m = 210 /\
    maxRadius m = 210.
Proof.
  intros H1 H2. unfold readTVelFile_0.
  destruct (skipLine_line header1
              (newStreamTokenizer
                 (header1 ++ TK_EOL :: header2 ++ TK_EOL :: tvelSample))
              (header2 ++ TK_EOL :: tvelSample) H1 eq_refl) as [nv1 ->].
  destruct (skipLine_line header2
              {| ttype := TT_EOL; nval := nv1; sval := None;
                 input := header2 ++ TK_EOL :: tvelSample |}
              tvelSample H2 eq_refl) as [nv2 ->].
  eexists. split; [vm_compute; reflexivity|].
  repeat split.
Qed.

Lemma readTVelFile_0_sample_witness :
  noEOL [TK_WORD "depth"; TK_WORD "model"] = true /\
  noEOL [] = true /\
  exists m,
    readTVelFile_0
      ([TK_WORD "depth"; TK_WORD "model"] ++ TK_EOL :: [] ++ TK_EOL :: tvelSample)
      "sample" = Returns m /\
    length (layers m) = 3%nat /\
    map (fun l => (topDepth l, botDepth l)) (layers m)
      = [(0, 20); (20, 35); (35, 210)] /\
    radiusOfEarth m = 210 /\
    maxRadius m = 210.
Proof.
  split; [reflexivity|]. split; [reflexivity|].
  exact (readTVelFile_0_sample [TK_WORD "depth"; TK_WORD "model"] [] "sample"
           eq_refl eq_refl).
Defined.

(** ** Rows whose S velocity exceeds the P velocity *)

Lemma nextToken_length_ge (tk : StreamTokenizer) :
  (length (input tk) <= S (length (input (nextToken tk))))%nat.
Proof.
  unfold nextToken. destruct (input tk) as [|[n|s|] rest]; simpl; lia.
Qed.

Lemma rowTokens_length (rows : list dataRow) :
  (length rows <= length (flat_map rowTokens rows))%nat.
Proof.
  induction rows as [|r rows IH]; simpl; [lia|].
  rewrite !length_app. simpl. lia.
Qed.







Lemma ndLineTokens_length (lines : list ndLineOf) :
  (length lines <= length (flat_map ndLineTokens lines))%nat.
Proof.
  induction lines as [|l lines IH]; simpl; [lia|].
  rewrite length_app. destruct l; simpl; lia.
Qed.






(** ** The fuel of the reader loops is enough *)

Lemma isEOL_not_EOF (t : tokenType) : isEOL t = true -> isEOF t = false.
Proof. destruct t; simpl; congruence. Qed.

(** A pass of the [.tvel] loop that returns has read at least one token. *)
Lemma tvelRow_consumes (st st' : tvelVars) :
  tvelRow st = Returns st' ->
  (length (input (tv_tokenIn st')) < length (input (tv_tokenIn st)))%nat.
Proof.
  unfold tvelRow. set (tk := tv_tokenIn st).
  destruct (Qlt_bool _ _); [discriminate|].
  set (t2 := nextToken (nextToken tk)).
  pose proof (nextToken_length tk) as L1.
  pose proof (nextToken_length (nextToken tk)) as L2. fold t2 in L2.
  pose proof (nextToken_length t2) as L3.
  pose proof (nextToken_length (nextToken t2)) as L4.
  pose proof (nextToken_length (nextToken (nextToken t2))) as L5.
  destruct (isEOL (ttype (nextToken t2))) eqn:E3.
  - rewrite E3. intro H. injection H as <-. simpl.
    pose proof (nextToken_consumes t2 (isEOL_not_EOF _ E3)). lia.
  - destruct (isEOL (ttype (nextToken (nextToken t2)))) eqn:E4; [|discriminate].
    intro H. injection H as <-. simpl.
    pose proof (nextToken_consumes (nextToken t2) (isEOL_not_EOF _ E4)). lia.
Qed.

Lemma tvelLoop_fuel (fuel : nat) :
  forall st,
  (length (input (tv_tokenIn st)) < fuel)%nat -> tvelLoop fuel st <> None.
Proof.
  induction fuel as [|fuel IH]; intros st Hlen; [lia|].
  simpl. destruct (isEOF (ttype (tv_tokenIn st))); [discriminate|].
  destruct (tvelRow st) as [st'|e|] eqn:E; try discriminate.
  apply IH. pose proof (tvelRow_consumes st st' E). lia.
Qed.

Lemma readOptional3_consumes (tk : StreamTokenizer) (density qp qs : Q) :
  isEOL (ttype (fst (readOptional3 tk density qp qs))) = true ->
  fst (readOptional3 tk density qp qs) = tk \/
  (length (input (fst (readOptional3 tk density qp qs))) < length (input tk))%nat.
Proof.
  unfold readOptional3.
  pose proof (nextToken_length tk) as L1.
  pose proof (nextToken_length (nextToken tk)) as L2.
  destruct (isEOL (ttype tk)) eqn:E0; [now left|].
  destruct (isEOL (ttype (nextToken tk))) eqn:E1; simpl.
  - intros _. right. apply nextToken_consumes, isEOL_not_EOF, E1.
  - destruct (isEOL (ttype (nextToken (nextToken tk)))) eqn:E2; simpl.
    + intros _. right.
      pose proof (nextToken_consumes (nextToken tk) (isEOL_not_EOF _ E2)). lia.
    + intro E3. right.
      pose proof (nextToken_consumes (nextToken (nextToken tk))
                    (isEOL_not_EOF _ E3)). lia.
Qed.

(** A pass of the [.nd] loop that returns has read at least one token. *)
Lemma ndLine_consumes (st st' : ndVars) :
  ndLine st = Returns st' ->
  (length (input (nd_tokenIn st')) < length (input (nd_tokenIn st)))%nat.
Proof.
  unfold ndLine. destruct (isWORD (ttype (nd_tokenIn st))) eqn:Ew.
  - unfold ndMarker.
    destruct (whileNotEOL _ (nd_tokenIn st)) as [tk'|e|] eqn:E; try discriminate.
    intro H. injection H as <-. simpl.
    destruct (whileNotEOL_consumes _ _ _ E) as [Heol [->|Hlt]].
    + destruct (ttype (nd_tokenIn st)); discriminate.
    + pose proof (nextToken_length tk'). lia.
  - unfold ndRow. set (tk := nd_tokenIn st).
    destruct (Qlt_bool _ _); [discriminate|].
    set (t2 := nextToken (nextToken tk)).
    pose proof (nextToken_length tk) as L1.
    pose proof (nextToken_length (nextToken tk)) as L2. fold t2 in L2.
    pose proof (nextToken_length t2) as L3.
    pose proof (readOptional3_consumes (nextToken t2)
                  (nd_botDensity st) (nd_botQp st) (nd_botQs st)) as Hopt.
    destruct (readOptional3 (nextToken t2) (nd_botDensity st) (nd_botQp st)
                (nd_botQs st)) as [t4 [[rho qp] qs]].
    simpl in Hopt.
    destruct (isEOL (ttype t4)) eqn:E4; [|discriminate].
    intro H. injection H as <-. simpl.
    pose proof (nextToken_length t4) as L4.
    destruct (Hopt eq_refl) as [->|Hlt].
    + pose proof (nextToken_consumes t2 (isEOL_not_EOF _ E4)). lia.
    + lia.
Qed.

Lemma ndLoop_fuel (fuel : nat) :
  forall st,
  (length (input (nd_tokenIn st)) < fuel)%nat -> ndLoop fuel st <> None.
Proof.
  induction fuel as [|fuel IH]; intros st Hlen; [lia|].
  simpl. destruct (isEOF (ttype (nd_tokenIn st))); [discriminate|].
  destruct (ndLine st) as [st'|e|] eqn:E; try discriminate.
  apply IH. pose proof (ndLine_consumes st st' E). lia.
Qed.




(** ** The earth-flattening transform *)

Section EarthFlattenFacts.

Local Open Scope R_scope.

Variable defaultDensity : R.

Lemma div_nonzero (x y : R) : y <> 0 -> div x y = Returns (x / y).
Proof.
  intro H. unfold div. destruct (Req_dec_T y 0); [contradiction|reflexivity].
Qed.

Lemma log_positive (x : R) : 0 < x -> log x = Returns (ln x).
Proof.
  intro H. unfold log. destruct (Rle_dec x 0); [lra|reflexivity].
Qed.

Lemma log_nonpositive (x : R) : x <= 0 -> log x = Raises ValueError.
Proof.
  intro H. unfold log. destruct (Rle_dec x 0); [reflexivity|lra].
Qed.

Lemma ln_quarter_negative : ln (1 / 4) < 0.
Proof.
  rewrite <- ln_1. apply ln_increasing; lra.
Qed.

Lemma ln_four_thirds_positive : 0 < ln (4 / (4 - 1)).
Proof.
  rewrite <- ln_1. apply ln_increasing; lra.
Qed.

(** C1 fails on the code.  On the model [smallEarth] (radius 4, layers
    0 to 1, 1 to 2 and 2 to 4 km) [earthFlattenTransform] raises at the
    first layer, whose top depth is 0; and the layer from 1 to 2 km is
    mapped by the loop body to top depth [4 * ln (1 / 4)], which is
    negative, and top P velocity 12, where the mapping of the claim
    gives the positive depth [4 * ln (4 / (4 - 1))] and the velocity 4:
    the code puts the depth where the distance from the centre
    belongs. *)
Theorem earthFlattenTransform_uses_depth_for_radius :
  earthFlattenTransform defaultDensity smallEarth = Raises ValueError /\
  exists newLayer,
    flattenLayer defaultDensity 4 1 (shell 1 1 2) = Returns newLayer /\
    topDepth newLayer = 4 * ln (1 / 4) /\
    topDepth newLayer < 0 /\
    0 < specFlatDepth 4 1 /\
    topPVelocity newLayer = 12 /\
    specFlatVelocity 4 1 3 = 4.
Proof.
  split.
  - unfold earthFlattenTransform, smallEarth. simpl.
    unfold flattenLayer. simpl.
    rewrite div_nonzero by lra. simpl.
    rewrite log_nonpositive by lra. reflexivity.
  - unfold flattenLayer, shell. simpl.
    rewrite !div_nonzero by lra. simpl.
    rewrite !log_positive by lra. simpl.
    eexists. split; [reflexivity|]. simpl.
    split; [reflexivity|]. split; [|split; [|split]].
    + pose proof ln_quarter_negative. lra.
    + unfold specFlatDepth. pose proof ln_four_thirds_positive. lra.
    + lra.
    + unfold specFlatVelocity. lra.
Qed.

End EarthFlattenFacts.

(** * Further properties of the code *)

(** ** Lookups on any model *)

Lemma firstLayer_first (cond : VelocityLayer Q -> bool)
  (ls : list (VelocityLayer Q)) :
  forall k j, firstLayer cond ls k = Returns j ->
  exists i l,
    j = (k + i)%nat /\ nth_error ls i = Some l /\ cond l = true /\
    forall i' l', (i' < i)%nat -> nth_error ls i' = Some l' -> cond l' = false.
Proof.
  induction ls as [|a rest IH]; intros k j H; simpl in H.
  - discriminate.
  - destruct (cond a) eqn:Ea.
    + injection H as <-. exists O, a. rewrite Nat.add_0_r.
      repeat split; auto. intros i' l' Hlt. lia.
    + destruct (IH _ _ H) as (i & l & -> & Hn & Hc & Hmin).
      exists (S i), l. split; [lia|]. split; [assumption|].
      split; [assumption|].
      intros [|i'] l' Hlt Hn'; simpl in Hn'.
      * now injection Hn' as <-.
      * apply (Hmin i' l'); [lia|assumption].
Qed.

Lemma firstLayer_first_found (cond : VelocityLayer Q -> bool)
  (ls : list (VelocityLayer Q)) :
  forall k i l,
  nth_error ls i = Some l -> cond l = true ->
  (forall i' l', (i' < i)%nat -> nth_error ls i' = Some l' -> cond l' = false) ->
  firstLayer cond ls k = Returns (k + i)%nat.
Proof.
  induction ls as [|a rest IH]; intros k i l Hn Hc Hmin.
  - destruct i; discriminate.
  - simpl. destruct i as [|i]; simpl in Hn.
    + injection Hn as ->. rewrite Hc. now rewrite Nat.add_0_r.
    + rewrite (Hmin O a (Nat.lt_0_succ i) eq_refl).
      rewrite (IH (S k) i l Hn Hc).
      * f_equal. lia.
      * intros i' l' Hlt Hn'. apply (Hmin (S i') l'); [lia|exact Hn'].
Qed.

Lemma firstLayer_none (cond : VelocityLayer Q -> bool)
  (ls : list (VelocityLayer Q)) :
  forall k, (forall l, In l ls -> cond l = false) ->
  firstLayer cond ls k = Raises noSuchLayer.
Proof.
  induction ls as [|a rest IH]; intros k Hall; simpl; [reflexivity|].
  rewrite (Hall a (or_introl eq_refl)). apply IH.
  intros l Hin. apply Hall. now right.
Qed.

(** X1.  On any model, whatever its layers are, [layerNumberAbove]
    returns the smallest index whose layer has
    [topDepth < depth <= botDepth], and raises "No such layer." exactly
    when no layer has; [layerNumberBelow] does the same for
    [topDepth <= depth < botDepth]. *)
Theorem layerNumber_first_match (m : VelocityModel Q) (depth : Q) :
  (forall i, layerNumberAbove m depth = Returns i <->
     (exists l, nth_error (layers m) i = Some l /\
                topDepth l < depth <= botDepth l) /\
     (forall j l', (j < i)%nat -> nth_error (layers m) j = Some l' ->
                   ~ topDepth l' < depth <= botDepth l')) /\
  (layerNumberAbove m depth = Raises noSuchLayer <->
     forall l, In l (layers m) -> ~ topDepth l < depth <= botDepth l) /\
  (forall i, layerNumberBelow m depth = Returns i <->
     (exists l, nth_error (layers m) i = Some l /\
                topDepth l <= depth < botDepth l) /\
     (forall j l', (j < i)%nat -> nth_error (layers m) j = Some l' ->
                   ~ topDepth l' <= depth < botDepth l')) /\
  (layerNumberBelow m depth = Raises noSuchLayer <->
     forall l, In l (layers m) -> ~ topDepth l <= depth < botDepth l).
Proof.
  unfold layerNumberAbove, layerNumberBelow. repeat split.
  - apply firstLayer_first in H. destruct H as (i' & l & -> & Hn & Hc & _).
    exists l. split; [assumption|]. now apply containsAbove_iff.
  - apply firstLayer_first in H. destruct H as (i' & l & -> & _ & _ & Hmin).
    intros j l' Hlt Hn Hc. apply containsAbove_iff in Hc.
    rewrite (Hmin j l' Hlt Hn) in Hc. discriminate.
  - intros [(l & Hn & Hc) Hmin].
    apply (firstLayer_first_found _ _ O i l Hn).
    + now apply containsAbove_iff.
    + intros j l' Hlt Hn'.
      destruct (containsAbove depth l') eqn:E; [|reflexivity].
      apply containsAbove_iff in E. exfalso. exact (Hmin j l' Hlt Hn' E).
  - intros H l Hin Hc. apply firstLayer_raises in H. destruct H as [_ Hall].
    apply containsAbove_iff in Hc. rewrite (Hall l Hin) in Hc. discriminate.
  - intro Hall. apply firstLayer_none. intros l Hin.
    destruct (containsAbove depth l) eqn:E; [|reflexivity].
    apply containsAbove_iff in E. exfalso. exact (Hall l Hin E).
  - apply firstLayer_first in H. destruct H as (i' & l & -> & Hn & Hc & _).
    exists l. split; [assumption|]. now apply containsBelow_iff.
  - apply firstLayer_first in H. destruct H as (i' & l & -> & _ & _ & Hmin).
    intros j l' Hlt Hn Hc. apply containsBelow_iff in Hc.
    rewrite (Hmin j l' Hlt Hn) in Hc. discriminate.
  - intros [(l & Hn & Hc) Hmin].
    apply (firstLayer_first_found _ _ O i l Hn).
    + now apply containsBelow_iff.
    + intros j l' Hlt Hn'.
      destruct (containsBelow depth l') eqn:E; [|reflexivity].
      apply containsBelow_iff in E. exfalso. exact (Hmin j l' Hlt Hn' E).
  - intros H l Hin Hc. apply firstLayer_raises in H. destruct H as [_ Hall].
    apply containsBelow_iff in Hc. rewrite (Hall l Hin) in Hc. discriminate.
  - intro Hall. apply firstLayer_none. intros l Hin.
    destruct (containsBelow depth l) eqn:E; [|reflexivity].
    apply containsBelow_iff in E. exfalso. exact (Hall l Hin E).
Qed.

(** ** Depths of a layer and the lookups *)

(** X2.  In a model whose layers cover [[0, maxDepth]] the lookups undo
    [depthAtBottom] and [depthAtTop]: for every layer index [i],
    [layerNumberAbove] of the bottom depth of layer [i] and
    [layerNumberBelow] of its top depth both return [i]; and the bottom
    depth of a layer is the top depth of the next. *)
Theorem depthAt_lookup_roundtrip (m : VelocityModel Q) (maxDepth : Q) (i : nat) :
  coversDepths m maxDepth = true ->
  (i < getNumLayers m)%nat ->
  exists top bot,
    depthAtTop m i = Returns top /\
    depthAtBottom m i = Returns bot /\
    layerNumberBelow m top = Returns i /\
    layerNumberAbove m bot = Returns i /\
    ((S i < getNumLayers m)%nat ->
     exists top', depthAtTop m (S i) = Returns top' /\ bot == top').
Proof.
  intros Hp Hi. unfold getNumLayers in *.
  destruct (nth_error (layers m) i) as [l|] eqn:Hn;
    [|apply nth_error_None in Hn; lia].
  destruct (partitions_nth _ _ _ _ _ Hp Hn) as (_ & Hlt & _).
  exists (topDepth l), (botDepth l).
  unfold depthAtTop, depthAtBottom, getVelocityLayer. rewrite Hn.
  cbn [bind getTopDepth getBotDepth].
  split; [reflexivity|]. split; [reflexivity|]. split; [|split].
  - apply (layerNumberBelow_iff m maxDepth _ i Hp).
    exists l. split; [assumption|]. lra.
  - apply (layerNumberAbove_iff m maxDepth _ i Hp).
    exists l. split; [assumption|]. lra.
  - intro Hs.
    destruct (nth_error (layers m) (S i)) as [l'|] eqn:Hn';
      [|apply nth_error_None in Hn'; lia].
    exists (topDepth l'). split; [reflexivity|].
    exact (partitions_contiguous _ _ _ _ _ _ Hp Hn Hn').
Qed.

Lemma depthAt_lookup_roundtrip_witness :
  coversDepths twoLayerModel 50 = true /\
  (0 < getNumLayers twoLayerModel)%nat /\
  exists top bot,
    depthAtTop twoLayerModel 0 = Returns top /\
    depthAtBottom twoLayerModel 0 = Returns bot /\
    layerNumberBelow twoLayerModel top = Returns O /\
    layerNumberAbove twoLayerModel bot = Returns O /\
    ((1 < getNumLayers twoLayerModel)%nat ->
     exists top', depthAtTop twoLayerModel 1 = Returns top' /\ bot == top').
Proof.
  assert (Hp : coversDepths twoLayerModel 50 = true) by reflexivity.
  assert (Hi : (0 < getNumLayers twoLayerModel)%nat)
    by (unfold getNumLayers; simpl; lia).
  split; [exact Hp|]. split; [exact Hi|].
  exact (depthAt_lookup_roundtrip twoLayerModel 50 0 Hp Hi).
Defined.

(** ** [evaluateAbove] and [evaluateBelow] *)

Section EvaluateFacts.

Variable selector : Type.
Variable layerEvaluateAt : VelocityLayer Q -> Q -> selector -> outcome Q Q.

Lemma evaluate_boundary_layers (m : VelocityModel Q) (maxDepth depth : Q)
  (prop : selector) (i : nat) (above below : VelocityLayer Q) :
  coversDepths m maxDepth = true ->
  nth_error (layers m) i = Some above ->
  nth_error (layers m) (S i) = Some below ->
  botDepth above == depth ->
  evaluateAbove layerEvaluateAt m depth prop
    = layerEvaluateAt above depth prop /\
  evaluateBelow layerEvaluateAt m depth prop
    = layerEvaluateAt below depth prop.
Proof.
  intros Hp Ha Hb Hd.
  pose proof (partitions_contiguous _ _ _ _ _ _ Hp Ha Hb) as Hc.
  destruct (partitions_nth _ _ _ _ _ Hp Ha) as (_ & Hta & _).
  destruct (partitions_nth _ _ _ _ _ Hp Hb) as (_ & Htb & _).
  assert (HA : layerNumberAbove m depth = Returns i).
  { apply (layerNumberAbove_iff m maxDepth depth i Hp).
    exists above. split; [assumption|]. lra. }
  assert (HB : layerNumberBelow m depth = Returns (S i)).
  { apply (layerNumberBelow_iff m maxDepth depth (S i) Hp).
    exists below. split; [assumption|]. lra. }
  unfold evaluateAbove, evaluateBelow, getVelocityLayer.
  rewrite HA, HB. cbn [bind]. rewrite Ha, Hb. split; reflexivity.
Qed.

(** X3.  In a model whose layers cover [[0, maxDepth]], whatever the
    layers' [evaluateAt] computes: at an internal boundary
    [evaluateAbove] evaluates the layer that ends there and
    [evaluateBelow] the layer that starts there, and at every other depth
    strictly between 0 and [maxDepth] the two evaluate the same layer and
    so agree. *)
Theorem evaluate_above_below (m : VelocityModel Q) (maxDepth depth : Q)
  (prop : selector) :
  coversDepths m maxDepth = true ->
  0 < depth < maxDepth ->
  (forall i above below,
     nth_error (layers m) i = Some above ->
     nth_error (layers m) (S i) = Some below ->
     botDepth above == depth ->
     evaluateAbove layerEvaluateAt m depth prop
       = layerEvaluateAt above depth prop /\
     evaluateBelow layerEvaluateAt m depth prop
       = layerEvaluateAt below depth prop) /\
  (~ internalBoundary m depth ->
   evaluateAbove layerEvaluateAt m depth prop
   = evaluateBelow layerEvaluateAt m depth prop).
Proof.
  intros Hp [Hlo Hhi]. split.
  - intros i a b Ha Hb Hd.
    exact (evaluate_boundary_layers m maxDepth depth prop i a b Hp Ha Hb Hd).
  - intro Hnb.
    assert (Hin : 0 < depth <= maxDepth) by lra.
    destruct (partitions_has_above _ _ _ _ Hp Hin) as (i & l & Hn & Hc).
    apply containsAbove_iff in Hc.
    assert (HA : layerNumberAbove m depth = Returns i).
    { apply (layerNumberAbove_iff m maxDepth depth i Hp). eauto. }
    assert (HB : layerNumberBelow m depth = Returns i).
    { apply (layerNumberBelow_iff m maxDepth depth i Hp).
      exists l. split; [assumption|]. split; [lra|].
      destruct (Qlt_le_dec depth (botDepth l)) as [H|H]; [assumption|].
      exfalso. assert (Heq : botDepth l == depth) by lra.
      assert (Hi : (i < length (layers m))%nat)
        by (apply nth_error_Some; congruence).
      destruct (Nat.eq_dec (length (layers m)) (S i)) as [Hlast|Hnot].
      - pose proof (partitions_last _ _ _ _ _ Hp Hn Hlast). lra.
      - apply Hnb. exists i, l. repeat split; [assumption|lia|assumption]. }
    unfold evaluateAbove, evaluateBelow, getVelocityLayer.
    rewrite HA, HB. cbn [bind]. rewrite Hn. reflexivity.
Qed.

(** X4.  Outside the depths a lookup serves, the evaluation raises the
    lookup's "No such layer." and the layers' [evaluateAt] is not called:
    [evaluateAbove] for depths outside [(0, maxDepth]], [evaluateBelow]
    for depths outside [[0, maxDepth)]. *)
Theorem evaluate_outside_raises (m : VelocityModel Q) (maxDepth depth : Q)
  (prop : selector) :
  coversDepths m maxDepth = true ->
  (~ 0 < depth <= maxDepth ->
   evaluateAbove layerEvaluateAt m depth prop = Raises noSuchLayer) /\
  (~ 0 <= depth < maxDepth ->
   evaluateBelow layerEvaluateAt m depth prop = Raises noSuchLayer).
Proof.
  intro Hp. split; intro Hout.
  - unfold evaluateAbove.
    now rewrite (proj2 (layerNumberAbove_raises_iff m maxDepth depth Hp) Hout).
  - unfold evaluateBelow.
    now rewrite (proj2 (layerNumberBelow_raises_iff m maxDepth depth Hp) Hout).
Qed.

End EvaluateFacts.

Lemma evaluate_above_below_witness :
  coversDepths twoLayerModel 50 = true /\
  0 < 20 < 50 /\
  evaluateAbove evaluateAt twoLayerModel 20 PVelocity
    = evaluateAt upper 20 PVelocity /\
  evaluateBelow evaluateAt twoLayerModel 20 PVelocity
    = evaluateAt lower20 20 PVelocity.
Proof.
  assert (Hp : coversDepths twoLayerModel 50 = true) by reflexivity.
  assert (Hd : 0 < 20 < 50) by (split; reflexivity).
  split; [exact Hp|]. split; [exact Hd|].
  exact (proj1 (evaluate_above_below materialProperty evaluateAt
                  twoLayerModel 50 20 PVelocity Hp Hd)
           O upper lower20 eq_refl eq_refl (Qeq_refl 20)).
Defined.

Lemma evaluate_outside_raises_witness :
  coversDepths twoLayerModel 50 = true /\
  ~ 0 < 0 <= 50 /\
  evaluateAbove evaluateAt twoLayerModel 0 SVelocity = Raises noSuchLayer.
Proof.
  assert (Hp : coversDepths twoLayerModel 50 = true) by reflexivity.
  assert (Hout : ~ 0 < 0 <= 50) by (intros [H _]; discriminate H).
  split; [exact Hp|]. split; [exact Hout|].
  exact (proj1 (evaluate_outside_raises materialProperty evaluateAt
                  twoLayerModel 50 0 SVelocity Hp) Hout).
Defined.

Lemma evaluateAt_ends (l : VelocityLayer Q) (prop : materialProperty) :
  topDepth l < botDepth l ->
  forall d,
  (d == topDepth l ->
   exists v, evaluateAt l d prop = Returns v /\ v == topValue l prop) /\
  (d == botDepth l ->
   exists v, evaluateAt l d prop = Returns v /\ v == botValue l prop).
Proof.
  intros Hlt d. unfold evaluateAt.
  destruct (Qeq_bool (botDepth l - topDepth l) 0) eqn:E.
  - apply Qeq_bool_iff in E. lra.
  - apply Qeq_bool_neq in E. split; intro Hd; eexists; (split; [reflexivity|]).
    + rewrite Hd. field. exact E.
    + rewrite Hd. field. exact E.
Qed.

(** X5.  With the linear interpolation of the specification as the
    layers' [evaluateAt]: at an internal boundary of a model whose layers
    cover [[0, maxDepth]], [evaluateAbove] returns the value stored for
    the bottom of the upper layer and [evaluateBelow] the value stored
    for the top of the lower layer, so the two differ exactly by the jump
    of the property at the boundary. *)
Theorem evaluate_at_boundary (m : VelocityModel Q) (maxDepth depth : Q)
  (prop : materialProperty) (i : nat) (above below : VelocityLayer Q) :
  coversDepths m maxDepth = true ->
  nth_error (layers m) i = Some above ->
  nth_error (layers m) (S i) = Some below ->
  botDepth above == depth ->
  exists va vb,
    evaluateAbove evaluateAt m depth prop = Returns va /\
    evaluateBelow evaluateAt m depth prop = Returns vb /\
    va == botValue above prop /\
    vb == topValue below prop.
Proof.
  intros Hp Ha Hb Hd.
  pose proof (partitions_contiguous _ _ _ _ _ _ Hp Ha Hb) as Hc.
  destruct (partitions_nth _ _ _ _ _ Hp Ha) as (Hfa & Hta & _).
  destruct (partitions_nth _ _ _ _ _ Hp Hb) as (_ & Htb & Hbb).
  destruct (evaluate_boundary_layers materialProperty evaluateAt m maxDepth
              depth prop i above below Hp Ha Hb Hd) as [-> ->].
  destruct (proj2 (evaluateAt_ends above prop Hta depth)) as (va & Hva & Ea);
    [lra|].
  destruct (proj1 (evaluateAt_ends below prop Htb depth)) as (vb & Hvb & Eb);
    [lra|].
  exists va, vb. auto.
Qed.

Lemma evaluate_at_boundary_witness :
  coversDepths twoLayerModel 50 = true /\
  exists va vb,
    evaluateAbove evaluateAt twoLayerModel 20 PVelocity = Returns va /\
    evaluateBelow evaluateAt twoLayerModel 20 PVelocity = Returns vb /\
    va == 6 /\ vb == 8.
Proof.
  assert (Hp : coversDepths twoLayerModel 50 = true) by reflexivity.
  split; [exact Hp|].
  exact (evaluate_at_boundary twoLayerModel 50 20 PVelocity O upper lower20
           Hp eq_refl eq_refl (Qeq_refl 20)).
Defined.

(** ** [fixDisconDepths] picks the nearest discontinuity *)

Lemma nearest_spec (stored : Q) (ds : list Q) :
  forall best,
  fst (nearest stored ds best) <= fst best /\
  (forall d, In d ds -> fst (nearest stored ds best) <= Qabs (stored - d)) /\
  (nearest stored ds best = best \/
   (In (snd (nearest stored ds best)) ds /\
    fst (nearest stored ds best) = Qabs (stored - snd (nearest stored ds best)) /\
    fst (nearest stored ds best) < fst best)).
Proof.
  unfold nearest. induction ds as [|d ds IH]; intro best; cbn [fold_left].
  - split; [apply Qle_refl|]. split; [intros d []|now left].
  - destruct (IH (nearer stored best d)) as (Hle & Hmin & Hor).
    assert (Hstep : fst (nearer stored best d) <= fst best /\
                    fst (nearer stored best d) <= Qabs (stored - d) /\
                    (nearer stored best d = best \/
                     (nearer stored best d = (Qabs (stored - d), d) /\
                      Qabs (stored - d) < fst best))).
    { unfold nearer. destruct (Qlt_bool _ _) eqn:E; cbn [fst snd].
      - apply Qlt_bool_iff in E. split; [apply Qlt_le_weak, E|].
        split; [apply Qle_refl|].
        right. split; [reflexivity|exact E].
      - apply Qlt_bool_false in E. split; [apply Qle_refl|].
        split; [exact E|]. now left. }
    destruct Hstep as (Hs1 & Hs2 & Hs3).
    split; [lra|]. split.
    + intros d' [<-|Hin]; [lra|]. now apply Hmin.
    + destruct Hor as [Heq|(Hin & Hfst & Hlt)].
      * rewrite Heq. destruct Hs3 as [Hb|[Hb Hlt]].
        -- now left.
        -- right. rewrite Hb. simpl. repeat split; auto.
      * right. split; [now right|]. split; [assumption|]. lra.
Qed.

Ltac split_ifs :=
  repeat match goal with
         | |- context [if ?c then _ else _] => destruct c
         end.

Lemma nearerMoho_keeps (m : VelocityModel Q) (a : VelocityLayer Q)
  (st : disconScan) :
  cmbMin (nearerMoho m a st) = cmbMin st /\
  tempCmbDepth (nearerMoho m a st) = tempCmbDepth st /\
  iocbMin (nearerMoho m a st) = iocbMin st /\
  tempIocbDepth (nearerMoho m a st) = tempIocbDepth st.
Proof. unfold nearerMoho. split_ifs; repeat split. Qed.

Lemma nearerCmb_keeps (m : VelocityModel Q) (a : VelocityLayer Q)
  (st : disconScan) :
  mohoMin (nearerCmb m a st) = mohoMin st /\
  tempMohoDepth (nearerCmb m a st) = tempMohoDepth st /\
  iocbMin (nearerCmb m a st) = iocbMin st /\
  tempIocbDepth (nearerCmb m a st) = tempIocbDepth st.
Proof. unfold nearerCmb. split_ifs; repeat split. Qed.

Lemma nearerIocb_keeps (m : VelocityModel Q) (a b : VelocityLayer Q)
  (st : disconScan) :
  mohoMin (nearerIocb m a b st) = mohoMin st /\
  tempMohoDepth (nearerIocb m a b st) = tempMohoDepth st /\
  cmbMin (nearerIocb m a b st) = cmbMin st /\
  tempCmbDepth (nearerIocb m a b st) = tempCmbDepth st.
Proof. unfold nearerIocb. split_ifs; repeat split. Qed.

Lemma scanStep_moho (m : VelocityModel Q) (st : disconScan)
  (pair : VelocityLayer Q * VelocityLayer Q) :
  (mohoMin (scanStep m st pair), tempMohoDepth (scanStep m st pair))
  = nearest (mohoDepth m) (appended pair) (mohoMin st, tempMohoDepth st).
Proof.
  destruct pair as [a b]. unfold scanStep, appended, nearest. cbn [fst snd].
  destruct (isDiscontinuity a b); cbn [fold_left]; [|reflexivity].
  destruct (nearerIocb_keeps m a b (nearerCmb m a (nearerMoho m a st)))
    as (-> & -> & _).
  destruct (nearerCmb_keeps m a (nearerMoho m a st)) as (-> & -> & _).
  unfold nearer, nearerMoho. cbn [fst snd]. split_ifs; reflexivity.
Qed.

Lemma scanStep_cmb (m : VelocityModel Q) (st : disconScan)
  (pair : VelocityLayer Q * VelocityLayer Q) :
  (cmbMin (scanStep m st pair), tempCmbDepth (scanStep m st pair))
  = nearest (cmbDepth m) (appended pair) (cmbMin st, tempCmbDepth st).
Proof.
  destruct pair as [a b]. unfold scanStep, appended, nearest. cbn [fst snd].
  destruct (isDiscontinuity a b); cbn [fold_left]; [|reflexivity].
  destruct (nearerIocb_keeps m a b (nearerCmb m a (nearerMoho m a st)))
    as (_ & _ & -> & ->).
  unfold nearer, nearerCmb. cbn [fst snd].
  destruct (nearerMoho_keeps m a st) as (Hc1 & Hc2 & _).
  rewrite Hc1.
  destruct (Qlt_bool (Qabs (cmbDepth m - botDepth a)) (cmbMin st));
    cbn [cmbMin tempCmbDepth]; [reflexivity|].
  now rewrite Hc1, Hc2.
Qed.

Lemma scanStep_iocb (m : VelocityModel Q) (st : disconScan)
  (pair : VelocityLayer Q * VelocityLayer Q) :
  (iocbMin (scanStep m st pair), tempIocbDepth (scanStep m st pair))
  = nearest (iocbDepth m) (liquidSolidBelow pair) (iocbMin st, tempIocbDepth st).
Proof.
  destruct pair as [a b]. unfold scanStep, liquidSolidBelow, nearest.
  cbn [fst snd].
  destruct (isDiscontinuity a b); cbn [andb fold_left]; [|reflexivity].
  unfold nearer, nearerIocb. cbn [fst snd].
  destruct (nearerCmb_keeps m a (nearerMoho m a st)) as (_ & _ & Hi1 & Hi2).
  destruct (nearerMoho_keeps m a st) as (_ & _ & Hi3 & Hi4).
  rewrite Hi1, Hi3.
  destruct (liquidToSolid a b); cbn [andb fold_left fst snd].
  - destruct (Qlt_bool (Qabs (iocbDepth m - botDepth a)) (iocbMin st));
      cbn [iocbMin tempIocbDepth]; [reflexivity|].
    now rewrite Hi1, Hi2, Hi3, Hi4.
  - now rewrite Hi1, Hi2, Hi3, Hi4.
Qed.

Lemma nearest_app (stored : Q) (ds ds' : list Q) (best : Q * Q) :
  nearest stored (ds ++ ds') best = nearest stored ds' (nearest stored ds best).
Proof. unfold nearest. apply fold_left_app. Qed.

(** The three searches of the scan, each as a nearest-depth search. *)
Lemma scan_fold_nearest (m : VelocityModel Q)
  (pairs : list (VelocityLayer Q * VelocityLayer Q)) :
  forall st,
  (mohoMin (fold_left (scanStep m) pairs st),
   tempMohoDepth (fold_left (scanStep m) pairs st))
  = nearest (mohoDepth m) (flat_map appended pairs)
      (mohoMin st, tempMohoDepth st) /\
  (cmbMin (fold_left (scanStep m) pairs st),
   tempCmbDepth (fold_left (scanStep m) pairs st))
  = nearest (cmbDepth m) (flat_map appended pairs)
      (cmbMin st, tempCmbDepth st) /\
  (iocbMin (fold_left (scanStep m) pairs st),
   tempIocbDepth (fold_left (scanStep m) pairs st))
  = nearest (iocbDepth m) (flat_map liquidSolidBelow pairs)
      (iocbMin st, tempIocbDepth st).
Proof.
  induction pairs as [|pair pairs IH]; intro st; simpl.
  - repeat split.
  - destruct (IH (scanStep m st pair)) as (Hm & Hc & Hi).
    rewrite Hm, Hc, Hi, !nearest_app.
    rewrite scanStep_moho, scanStep_cmb, scanStep_iocb.
    repeat split.
Qed.

Lemma scan_nearest (m : VelocityModel Q) :
  (mohoMin (scanDiscontinuities m), tempMohoDepth (scanDiscontinuities m))
  = nearest (mohoDepth m) (internalDisconDepths (layers m)) (65, 0) /\
  (cmbMin (scanDiscontinuities m), tempCmbDepth (scanDiscontinuities m))
  = nearest (cmbDepth m) (internalDisconDepths (layers m))
      (radiusOfEarth m, radiusOfEarth m) /\
  (iocbMin (scanDiscontinuities m), tempIocbDepth (scanDiscontinuities m))
  = nearest (iocbDepth m) (liquidSolidDepths (layers m))
      (radiusOfEarth m - 100, radiusOfEarth m).
Proof.
  unfold scanDiscontinuities. rewrite internalDisconDepths_adjacent.
  apply (scan_fold_nearest m (adjacentLayers (layers m)) (scanInit m)).
Qed.

(** One nearest-depth search, read as a statement about its result. *)
Lemma nearest_result (stored window fallback : Q) (ds : list Q) :
  (snd (nearest stored ds (window, fallback)) = fallback /\
   forall d, In d ds -> window <= Qabs (stored - d)) \/
  (In (snd (nearest stored ds (window, fallback))) ds /\
   Qabs (stored - snd (nearest stored ds (window, fallback))) < window /\
   forall d, In d ds ->
     Qabs (stored - snd (nearest stored ds (window, fallback)))
     <= Qabs (stored - d)).
Proof.
  destruct (nearest_spec stored ds (window, fallback)) as (Hle & Hmin & Hor).
  simpl in Hle, Hor.
  destruct Hor as [Heq|(Hin & Hfst & Hlt)].
  - left. rewrite Heq in *. simpl in *. split; [reflexivity|assumption].
  - right. simpl in Hlt. rewrite Hfst in Hlt, Hmin.
    split; [assumption|]. split; assumption.
Qed.



Lemma liquidSolidDepths_internal (ls : list (VelocityLayer Q)) (d : Q) :
  In d (liquidSolidDepths ls) -> In d (internalDisconDepths ls).
Proof.
  rewrite internalDisconDepths_adjacent. unfold liquidSolidDepths.
  rewrite !in_flat_map. intros (pair & Hin & Hd). exists pair.
  split; [assumption|]. unfold liquidSolidBelow in Hd. unfold appended.
  destruct (isDiscontinuity (fst pair) (snd pair)); simpl in Hd; [|contradiction].
  destruct (liquidToSolid (fst pair) (snd pair)); [assumption|contradiction].
Qed.




Lemma getDisconDepths_returns (m : VelocityModel Q) (ds : list Q) :
  getDisconDepths m = Returns ds ->
  exists first rest,
    layers m = first :: rest /\
    ds = topDepth first :: internalDisconDepths (layers m)
           ++ [botDepth (last (layers m) first)].
Proof.
  unfold getDisconDepths. destruct (layers m) as [|first rest] eqn:El.
  - discriminate.
  - rewrite getDisconDepths_loop, internalDisconDepths_adjacent.
    intro H. injection H as <-. exists first, rest. split; reflexivity.
Qed.

(** X9.  Every depth [fixDisconDepths] stores is a fallback or a depth
    [getDisconDepths] reports: the moho depth is 0 or in the list, the cmb
    and iocb depths are [radiusOfEarth] or in the list. *)
Theorem fixDisconDepths_within_getDisconDepths (m : VelocityModel Q)
  (ds : list Q) :
  getDisconDepths m = Returns ds ->
  (mohoDepth (snd (fixDisconDepths m)) = 0 \/
   In (mohoDepth (snd (fixDisconDepths m))) ds) /\
  (cmbDepth (snd (fixDisconDepths m)) = radiusOfEarth m \/
   In (cmbDepth (snd (fixDisconDepths m))) ds) /\
  (iocbDepth (snd (fixDisconDepths m)) = radiusOfEarth m \/
   In (iocbDepth (snd (fixDisconDepths m))) ds).
Proof.
  intro Hg. destruct (getDisconDepths_returns m ds Hg) as (first & rest & El & ->).
  assert (Hsub : forall d, In d (internalDisconDepths (layers m)) ->
            In d (topDepth first :: internalDisconDepths (layers m)
                    ++ [botDepth (last (layers m) first)])).
  { intros d Hd. right. apply in_or_app. now left. }
  destruct (scan_nearest m) as (Hm & Hc & Hi).
  assert (Em : mohoDepth (snd (fixDisconDepths m))
               = snd (nearest (mohoDepth m) (internalDisconDepths (layers m))
                        (65, 0))) by (rewrite <- Hm; reflexivity).
  assert (Ec : cmbDepth (snd (fixDisconDepths m))
               = snd (nearest (cmbDepth m) (internalDisconDepths (layers m))
                        (radiusOfEarth m, radiusOfEarth m)))
    by (rewrite <- Hc; reflexivity).
  assert (Ei : tempIocbDepth (scanDiscontinuities m)
               = snd (nearest (iocbDepth m) (liquidSolidDepths (layers m))
                        (radiusOfEarth m - 100, radiusOfEarth m)))
    by (rewrite <- Hi; reflexivity).
  split; [|split].
  - rewrite Em.
    destruct (nearest_result (mohoDepth m) 65 0 (internalDisconDepths (layers m)))
      as [[H _]|(Hin & _)]; [now left | right; now apply Hsub].
  - rewrite Ec.
    destruct (nearest_result (cmbDepth m) (radiusOfEarth m) (radiusOfEarth m)
                (internalDisconDepths (layers m)))
      as [[H _]|(Hin & _)]; [now left | right; now apply Hsub].
  - unfold fixDisconDepths. cbn [snd iocbDepth].
    destruct (Qneq_bool _ _); [|now left]. rewrite Ei.
    destruct (nearest_result (iocbDepth m) (radiusOfEarth m - 100)
                (radiusOfEarth m) (liquidSolidDepths (layers m)))
      as [[H _]|(Hin & _)]; [now left|].
    right. apply Hsub. now apply liquidSolidDepths_internal.
Qed.

Lemma fixDisconDepths_within_getDisconDepths_witness :
  getDisconDepths twoLayerModel = Returns [0; 20; 50] /\
  (mohoDepth (snd (fixDisconDepths twoLayerModel)) = 0 \/
   In (mohoDepth (snd (fixDisconDepths twoLayerModel))) [0; 20; 50]).
Proof.
  assert (Hg : getDisconDepths twoLayerModel = Returns [0; 20; 50])
    by reflexivity.
  split; [exact Hg|].
  exact (proj1 (fixDisconDepths_within_getDisconDepths twoLayerModel
                  [0; 20; 50] Hg)).
Defined.

(** X10.  When [fixDisconDepths] returns [False] the moho and cmb depths
    are numerically what they were, and so is the iocb depth provided the
    cmb and iocb depths stored before the call differed. *)
Theorem fixDisconDepths_false_unchanged (m : VelocityModel Q) :
  fst (fixDisconDepths m) = false ->
  mohoDepth (snd (fixDisconDepths m)) == mohoDepth m /\
  cmbDepth (snd (fixDisconDepths m)) == cmbDepth m /\
  (~ cmbDepth m == iocbDepth m ->
   iocbDepth (snd (fixDisconDepths m)) == iocbDepth m).
Proof.
  unfold fixDisconDepths. cbn [fst snd mohoDepth cmbDepth iocbDepth].
  intro H. apply orb_false_iff in H. destruct H as [H Hi].
  apply orb_false_iff in H. destruct H as [Hm Hc].
  apply Qneq_bool_false in Hm, Hc, Hi.
  split; [now symmetry|]. split; [now symmetry|].
  intro Hne.
  destruct (Qneq_bool _ _) eqn:En; [now symmetry|].
  apply Qneq_bool_false in En. exfalso. apply Hne.
  rewrite Hc, Hi. exact En.
Qed.

Lemma fixDisconDepths_false_unchanged_witness :
  fst (fixDisconDepths coreModel) = false /\
  ~ cmbDepth coreModel == iocbDepth coreModel /\
  mohoDepth (snd (fixDisconDepths coreModel)) == mohoDepth coreModel /\
  cmbDepth (snd (fixDisconDepths coreModel)) == cmbDepth coreModel /\
  iocbDepth (snd (fixDisconDepths coreModel)) == iocbDepth coreModel.
Proof.
  assert (H : fst (fixDisconDepths coreModel) = false) by reflexivity.
  assert (Hne : ~ cmbDepth coreModel == iocbDepth coreModel)
    by (intro E; discriminate E).
  destruct (fixDisconDepths_false_unchanged coreModel H) as (Hm & Hc & Hi).
  split; [exact H|]. split; [exact Hne|].
  split; [exact Hm|]. split; [exact Hc|exact (Hi Hne)].
Defined.

(** ** Invariants of the readers *)

Lemma endDepth_app (d : Q) (ls : list (VelocityLayer Q)) (l : VelocityLayer Q) :
  endDepth d (ls ++ [l]) = botDepth l.
Proof. unfold endDepth. now rewrite fold_left_app. Qed.

Lemma joined_app (ls : list (VelocityLayer Q)) :
  forall d l,
  joined d ls = true ->
  endDepth d ls == topDepth l ->
  ~ botDepth l == topDepth l ->
  joined d (ls ++ [l]) = true.
Proof.
  induction ls as [|a ls IH]; intros d l Hj He Hne; simpl in *.
  - unfold endDepth in He. simpl in He.
    rewrite !andb_true_iff. repeat split.
    + now apply Qeq_bool_iff.
    + now apply Qneq_bool_iff.
  - rewrite !andb_true_iff in Hj. destruct Hj as [[H1 H2] H3].
    rewrite !andb_true_iff. repeat split; try assumption.
    apply IH; assumption.
Qed.

Lemma joined_from_first (d : Q) (first : VelocityLayer Q)
  (rest : list (VelocityLayer Q)) :
  joined d (first :: rest) = true ->
  joined (topDepth first) (first :: rest) = true.
Proof.
  simpl. rewrite !andb_true_iff. intros [[_ H2] H3].
  repeat split; try assumption. apply Qeq_bool_iff. reflexivity.
Qed.

Lemma endDepth_last (ls : list (VelocityLayer Q)) :
  forall d first,
  ls <> [] -> endDepth d ls = botDepth (last ls first).
Proof.
  induction ls as [|a ls IH]; intros d first Hne; [congruence|].
  destruct ls as [|b ls]; [reflexivity|].
  change (endDepth d (a :: b :: ls)) with (endDepth (botDepth a) (b :: ls)).
  change (last (a :: b :: ls) first) with (last (b :: ls) first).
  apply IH. discriminate.
Qed.

(** Reading one more row keeps the invariant: [l] is the layer built from
    the kept values and the row, added when its two depths differ. *)
Lemma rowsInvariant_row (d0 topD topP topS : Q) (number : nat)
  (ls : list (VelocityLayer Q)) (l : VelocityLayer Q) :
  rowsInvariant d0 topD topP topS number ls ->
  layerNumber l = number ->
  topDepth l = topD ->
  topPVelocity l = topP ->
  topSVelocity l = topS ->
  botSVelocity l <= botPVelocity l ->
  rowsInvariant d0 (botDepth l) (botPVelocity l) (botSVelocity l)
    (if Qneq_bool (getTopDepth l) (getBotDepth l) then S number else number)
    (if Qneq_bool (getTopDepth l) (getBotDepth l) then ls ++ [l] else ls).
Proof.
  intros (Hsp & Hall & Hj & He & Hnum & Hn) Hln Htd Htp Hts Hbot.
  unfold getTopDepth, getBotDepth.
  destruct (Qneq_bool (topDepth l) (botDepth l)) eqn:E.
  - apply Qneq_bool_iff in E. unfold rowsInvariant.
    split; [assumption|]. split; [|split; [|split; [|split]]].
    + apply Forall_app. split; [assumption|].
      constructor; [|constructor]. unfold sWithinP. subst. auto.
    + apply joined_app; [assumption| |].
      * now rewrite Htd.
      * intro H. apply E. now symmetry.
    + rewrite endDepth_app. reflexivity.
    + rewrite map_app, length_app, Hnum. simpl.
      rewrite Nat.add_1_r, seq_S. simpl. congruence.
    + rewrite length_app. simpl. lia.
  - apply Qneq_bool_false in E. unfold rowsInvariant.
    split; [assumption|]. split; [assumption|]. split; [assumption|].
    split; [|split; assumption].
    rewrite He, <- Htd. exact E.
Qed.

Lemma tvelRow_invariant (d0 : Q) (st st' : tvelVars) :
  tvelRow st = Returns st' -> tvelInvariant d0 st -> tvelInvariant d0 st'.
Proof.
  unfold tvelRow. set (tk := tv_tokenIn st).
  destruct (Qlt_bool (nval (nextToken tk)) (nval (nextToken (nextToken tk))))
    eqn:Esp; [discriminate|].
  apply Qlt_bool_false in Esp.
  set (t3 := nextToken (nextToken (nextToken tk))).
  intros H Hinv.
  destruct (isEOL (ttype t3)) eqn:E3.
  - rewrite E3 in H. injection H as <-. unfold tvelInvariant. simpl.
    match goal with
    | |- context [VelocityLayer9 ?n ?t ?b ?tp ?bp ?ts ?bs ?tr ?br] =>
        apply (rowsInvariant_row d0 _ _ _ _ _
                 (VelocityLayer9 n t b tp bp ts bs tr br) Hinv);
          try reflexivity; exact Esp
    end.
  - destruct (isEOL (ttype (nextToken t3))) eqn:E4; [|discriminate].
    injection H as <-. unfold tvelInvariant. simpl.
    match goal with
    | |- context [VelocityLayer9 ?n ?t ?b ?tp ?bp ?ts ?bs ?tr ?br] =>
        apply (rowsInvariant_row d0 _ _ _ _ _
                 (VelocityLayer9 n t b tp bp ts bs tr br) Hinv);
          try reflexivity; exact Esp
    end.
Qed.

Lemma tvelLoop_invariant (d0 : Q) (fuel : nat) :
  forall st st',
  tvelLoop fuel st = Some (Returns st') ->
  tvelInvariant d0 st -> tvelInvariant d0 st'.
Proof.
  induction fuel as [|fuel IH]; intros st st' H Hinv; simpl in H.
  - destruct (isEOF (ttype (tv_tokenIn st))); [|discriminate].
    now injection H as <-.
  - destruct (isEOF (ttype (tv_tokenIn st))); [now injection H as <-|].
    destruct (tvelRow st) as [st1|e|] eqn:E; try discriminate.
    apply (IH st1 st' H). exact (tvelRow_invariant d0 st st1 E Hinv).
Qed.

Lemma rowsInvariant_model (d0 topD topP topS : Q) (number : nat)
  (ls : list (VelocityLayer Q)) (name : string) (moho cmb iocb : Q) :
  rowsInvariant d0 topD topP topS number ls ->
  readerModel (mkVelocityModel name topD moho cmb iocb 0 topD true ls).
Proof.
  intros (Hsp & Hall & Hj & He & Hnum & Hn). unfold readerModel. simpl.
  split; [assumption|]. split; [assumption|].
  split; [|repeat split].
  intros first rest El. subst ls. split.
  - exact (joined_from_first d0 first rest Hj).
  - rewrite <- (endDepth_last (first :: rest) d0 first) by discriminate.
    exact He.
Qed.

Lemma readTVelRows_model (tokenIn : StreamTokenizer) (modelName : string)
  (m : VelocityModel Q) :
  readTVelRows tokenIn modelName = Returns m -> readerModel m.
Proof.
  unfold readTVelRows. set (tk := nextToken tokenIn).
  destruct (Qlt_bool (nval (nextToken tk)) (nval (nextToken (nextToken tk))))
    eqn:Esp; [discriminate|].
  apply Qlt_bool_false in Esp.
  set (t3 := nextToken (nextToken (nextToken tk))).
  assert (Hloop : forall fuel st0 st',
            tvelLoop fuel st0 = Some (Returns st') ->
            tv_topDepth st0 = nval tk ->
            tv_topPVel st0 = nval (nextToken tk) ->
            tv_topSVel st0 = nval (nextToken (nextToken tk)) ->
            tv_myLayerNumber st0 = O ->
            tv_layers st0 = [] ->
            readerModel
              (mkVelocityModel modelName (tv_topDepth st') DEFAULT_MOHO
                 DEFAULT_CMB DEFAULT_IOCB 0 (tv_topDepth st') true
                 (tv_layers st'))).
  { intros fuel st0 st' Hl H1 H2 H3 H4 H5.
    assert (Hinv : tvelInvariant (nval tk) st0).
    { unfold tvelInvariant, rowsInvariant. rewrite H1, H2, H3, H4, H5.
      split; [exact Esp|]. split; [constructor|]. split; [reflexivity|].
      split; [apply Qeq_refl|]. split; reflexivity. }
    pose proof (tvelLoop_invariant (nval tk) fuel st0 st' Hl Hinv) as Hinv'.
    exact (rowsInvariant_model _ _ _ _ _ _ modelName _ _ _ Hinv'). }
  destruct (isEOL (ttype t3)) eqn:E3.
  - rewrite E3.
    match goal with
    | |- context [tvelLoop ?f ?st0] =>
        destruct (tvelLoop f st0) as [[st'|e|]|] eqn:El; try discriminate
    end.
    intro H. injection H as <-.
    exact (Hloop _ _ _ El eq_refl eq_refl eq_refl eq_refl eq_refl).
  - destruct (isEOL (ttype (nextToken t3))) eqn:E4; [|discriminate].
    match goal with
    | |- context [tvelLoop ?f ?st0] =>
        destruct (tvelLoop f st0) as [[st'|e|]|] eqn:El; try discriminate
    end.
    intro H. injection H as <-.
    exact (Hloop _ _ _ El eq_refl eq_refl eq_refl eq_refl eq_refl).
Qed.

Lemma readTVelFile_0_model_aux (in_ : list token) (modelName : string)
  (m : VelocityModel Q) :
  readTVelFile_0 in_ modelName = Returns m -> readerModel m.
Proof.
  unfold readTVelFile_0.
  destruct (skipLine (newStreamTokenizer in_)) as [tk1|e|]; try discriminate.
  destruct (skipLine tk1) as [tk2|e|]; try discriminate.
  apply readTVelRows_model.
Qed.

(** X11.  Whatever the tokens of the input are, a model that the [.tvel]
    reader returns has no S velocity above the P velocity at either end
    of any layer; its layers are numbered from 0 in order; consecutive
    layers share their boundary depth and none has zero thickness; and
    [radiusOfEarth] is [maxRadius] and the bottom depth of the last
    layer. *)
Theorem readTVelFile_0_model (in_ : list token) (modelName : string)
  (m : VelocityModel Q) :
  readTVelFile_0 in_ modelName = Returns m -> readerModel m.
Proof.
  unfold readTVelFile_0.
  destruct (skipLine (newStreamTokenizer in_)) as [tk1|e|]; try discriminate.
  destruct (skipLine tk1) as [tk2|e|]; try discriminate.
  apply readTVelRows_model.
Qed.

Lemma readTVelFile_0_model_witness :
  exists m,
    readTVelFile_0 tvelInput "sample" = Returns m /\ readerModel m.
Proof.
  destruct (readTVelFile_0 tvelInput "sample") as [m|e|] eqn:E.
  - exists m. split; [reflexivity|].
    exact (readTVelFile_0_model tvelInput "sample" m E).
  - exfalso. vm_compute in E. discriminate E.
  - exfalso. vm_compute in E. discriminate E.
Defined.

Lemma ndMarker_keeps (st st' : ndVars) :
  ndMarker st = Returns st' ->
  nd_topDepth st' = nd_topDepth st /\
  nd_topPVel st' = nd_topPVel st /\
  nd_topSVel st' = nd_topSVel st /\
  nd_myLayerNumber st' = nd_myLayerNumber st /\
  nd_layers st' = nd_layers st.
Proof.
  unfold ndMarker.
  destruct (whileNotEOL _ (nd_tokenIn st)) as [tk'|e|]; try discriminate.
  intro H. injection H as <-. repeat split.
Qed.

Lemma ndLine_invariant (d0 : Q) (st st' : ndVars) :
  ndLine st = Returns st' -> ndInvariant d0 st -> ndInvariant d0 st'.
Proof.
  unfold ndLine. destruct (isWORD (ttype (nd_tokenIn st))).
  - intros H Hinv. destruct (ndMarker_keeps st st' H) as (H1 & H2 & H3 & H4 & H5).
    unfold ndInvariant. now rewrite H1, H2, H3, H4, H5.
  - unfold ndRow. set (tk := nd_tokenIn st).
    destruct (Qlt_bool (nval (nextToken tk)) (nval (nextToken (nextToken tk))))
      eqn:Esp; [discriminate|].
    apply Qlt_bool_false in Esp.
    destruct (readOptional3 (nextToken (nextToken (nextToken tk)))
                (nd_botDensity st) (nd_botQp st) (nd_botQs st))
      as [t4 [[rho qp] qs]].
    destruct (isEOL (ttype t4)); [|discriminate].
    intros H Hinv. injection H as <-. unfold ndInvariant. simpl.
    match goal with
    | |- context [VelocityLayer13 ?n ?t ?b ?tp ?bp ?ts ?bs ?tr ?br ?a1 ?a2 ?a3 ?a4] =>
        apply (rowsInvariant_row d0 _ _ _ _ _
                 (VelocityLayer13 n t b tp bp ts bs tr br a1 a2 a3 a4) Hinv);
          try reflexivity; exact Esp
    end.
Qed.

Lemma ndLoop_invariant (d0 : Q) (fuel : nat) :
  forall st st',
  ndLoop fuel st = Some (Returns st') ->
  ndInvariant d0 st -> ndInvariant d0 st'.
Proof.
  induction fuel as [|fuel IH]; intros st st' H Hinv; simpl in H.
  - destruct (isEOF (ttype (nd_tokenIn st))); [|discriminate].
    now injection H as <-.
  - destruct (isEOF (ttype (nd_tokenIn st))); [now injection H as <-|].
    destruct (ndLine st) as [st1|e|] eqn:E; try discriminate.
    apply (IH st1 st' H). exact (ndLine_invariant d0 st st1 E Hinv).
Qed.

Lemma readNDFile_0_model_aux (in_ : list token) (modelName : string)
  (m : VelocityModel Q) :
  readNDFile_0 in_ modelName = Returns m -> readerModel m.
Proof.
  unfold readNDFile_0. set (tk := nextToken (newStreamTokenizer in_)).
  destruct (Qlt_bool (nval (nextToken tk)) (nval (nextToken (nextToken tk))))
    eqn:Esp; [discriminate|].
  apply Qlt_bool_false in Esp.
  destruct (readOptional3 (nextToken (nextToken (nextToken tk)))
              (26 # 10) 1000 2000) as [t4 [[rho qp] qs]].
  destruct (isEOL (ttype t4)); [|discriminate].
  match goal with
  | |- context [ndLoop ?f ?st0] =>
      destruct (ndLoop f st0) as [[st'|e|]|] eqn:El; try discriminate;
      assert (Hinv : ndInvariant (nval tk) st0)
  end.
  { unfold ndInvariant, rowsInvariant. cbn [nd_topDepth nd_topPVel nd_topSVel
      nd_myLayerNumber nd_layers].
    split; [exact Esp|]. split; [constructor|]. split; [reflexivity|].
    split; [apply Qeq_refl|]. split; reflexivity. }
  intro H. injection H as <-.
  pose proof (ndLoop_invariant (nval tk) _ _ st' El Hinv) as Hinv'.
  exact (rowsInvariant_model _ _ _ _ _ _ modelName _ _ _ Hinv').
Qed.

(** X12.  Whatever the tokens of the input are, a model that the [.nd]
    reader returns has no S velocity above the P velocity at either end
    of any layer; its layers are numbered from 0 in order; consecutive
    layers share their boundary depth and none has zero thickness; and
    [radiusOfEarth] is [maxRadius] and the bottom depth of the last
    layer. *)
Theorem readNDFile_0_model (in_ : list token) (modelName : string)
  (m : VelocityModel Q) :
  readNDFile_0 in_ modelName = Returns m -> readerModel m.
Proof.
  intro H. exact (readNDFile_0_model_aux in_ modelName m H).
Qed.

Lemma readNDFile_0_model_witness :
  exists m,
    readNDFile_0 ndInput "sample" = Returns m /\ readerModel m.
Proof.
  destruct (readNDFile_0 ndInput "sample") as [m|e|] eqn:E.
  - exists m. split; [reflexivity|].
    exact (readNDFile_0_model ndInput "sample" m E).
  - exfalso. vm_compute in E. discriminate E.
  - exfalso. vm_compute in E. discriminate E.
Defined.

(** ** The [.tvel] reader on well-formed input *)

Lemma tvelRow_step (st : tvelVars) (tk0 : StreamTokenizer) (r : dataRow)
  (more : list token) :
  tv_tokenIn st = nextToken tk0 ->
  input tk0 = rowTokens r ++ more ->
  tvelShaped r = true ->
  ~ sExceedsP r ->
  exists st' tk0',
    tvelRow st = Returns st' /\
    tv_tokenIn st' = nextToken tk0' /\
    input tk0' = more /\
    tvelTopOf st' = tvelAddRow (tvelTopOf st) r.
Proof.
  intros Htk Hin Hshape Hgood. unfold tvelRow. rewrite Htk.
  destruct tk0 as [ty nv sv inp]. destruct r as [d p s opt].
  unfold tvelShaped in Hshape. simpl in Hshape.
  unfold sExceedsP in Hgood. simpl in Hgood.
  assert (E : Qlt_bool p s = false) by (apply Qlt_bool_false; lra).
  destruct opt as [|x [|y opt]]; simpl in Hshape; try discriminate;
    simpl in Hin; subst inp; simpl; rewrite E; simpl.
  - eexists. exists (mkStreamTokenizer TT_EOL s None more).
    split; [reflexivity|]. repeat split.
  - eexists. exists (mkStreamTokenizer TT_EOL x None more).
    split; [reflexivity|]. repeat split.
Qed.

Lemma tvelLoop_rows (rows : list dataRow) :
  forall (st : tvelVars) (tk0 : StreamTokenizer) (more : list token) (fuel : nat),
  forallb tvelShaped rows = true ->
  Forall (fun r => ~ sExceedsP r) rows ->
  tv_tokenIn st = nextToken tk0 ->
  input tk0 = flat_map rowTokens rows ++ more ->
  exists st' tk0',
    tvelLoop (length rows + fuel) st = tvelLoop fuel st' /\
    tv_tokenIn st' = nextToken tk0' /\
    input tk0' = more /\
    tvelTopOf st' = fold_left tvelAddRow rows (tvelTopOf st).
Proof.
  induction rows as [|r rows IH]; intros st tk0 more fuel Hsh Hgood Htk Hin.
  - exists st, tk0. repeat split; assumption.
  - simpl in Hsh. apply andb_true_iff in Hsh. destruct Hsh as [Hr Hsh].
    inversion Hgood as [|r' rows' Hgr Hgrest]; subst.
    simpl in Hin. rewrite <- app_assoc in Hin.
    assert (Hty : isEOF (ttype (tv_tokenIn st)) = false).
    { rewrite Htk. unfold nextToken. rewrite Hin. destruct r. reflexivity. }
    destruct (tvelRow_step st tk0 r _ Htk Hin Hr Hgr)
      as (st1 & tk1 & Hrow & Htk1 & Hin1 & Htop1).
    destruct (IH st1 tk1 more fuel Hsh Hgrest Htk1 Hin1)
      as (st' & tk0' & Hloop & Htk' & Hin' & Htop').
    exists st', tk0'. split; [|repeat split; try assumption].
    + cbn [length Nat.add tvelLoop]. rewrite Hty, Hrow. exact Hloop.
    + rewrite Htop'. simpl. now rewrite Htop1.
Qed.

Lemma tvelLoop_at_end (fuel : nat) (st : tvelVars) (tk0 : StreamTokenizer) :
  tv_tokenIn st = nextToken tk0 -> input tk0 = [] ->
  tvelLoop fuel st = Some (Returns st).
Proof.
  intros Htk Hin.
  assert (E : isEOF (ttype (tv_tokenIn st)) = true)
    by (rewrite Htk, (nextToken_at_end tk0 Hin); reflexivity).
  destruct fuel; simpl; now rewrite E.
Qed.

Lemma flat_map_rowTokens_length (rows : list dataRow) (more : list token) :
  (length rows <= length (flat_map rowTokens rows ++ more))%nat.
Proof.
  rewrite length_app. pose proof (rowTokens_length rows). lia.
Qed.

Lemma readTVelRows_rows (tk0 : StreamTokenizer) (modelName : string)
  (first : dataRow) (others : list dataRow) :
  forallb tvelShaped (first :: others) = true ->
  Forall (fun r => ~ sExceedsP r) (first :: others) ->
  input tk0 = flat_map rowTokens (first :: others) ->
  readTVelRows tk0 modelName = Returns (tvelModelOf modelName first others).
Proof.
  intros Hsh Hgood Hin.
  simpl in Hsh. apply andb_true_iff in Hsh. destruct Hsh as [Hr Hsh].
  inversion Hgood as [|r' rows' Hgr Hgrest]; subst.
  destruct tk0 as [ty nv sv inp]. destruct first as [d p s opt].
  unfold tvelShaped in Hr. simpl in Hr.
  unfold sExceedsP in Hgr. simpl in Hgr.
  assert (E : Qlt_bool p s = false) by (apply Qlt_bool_false; lra).
  assert (Hfuel : forall t : StreamTokenizer,
            input t = flat_map rowTokens others ->
            (length others <= S (length (input (nextToken t))))%nat).
  { intros t Ht. pose proof (rowTokens_length others).
    pose proof (nextToken_length_ge t). rewrite Ht in *. lia. }
  assert (Hend : forall (t : StreamTokenizer) (st0 : tvelVars) (f : nat),
            input t = flat_map rowTokens others ++ [] ->
            tv_tokenIn st0 = nextToken t ->
            (length others <= f)%nat ->
            exists st',
              tvelLoop f st0 = Some (Returns st') /\
              tvelTopOf st' = fold_left tvelAddRow others (tvelTopOf st0)).
  { intros t st0 f Ht Htk Hlen.
    destruct (tvelLoop_rows others st0 t [] (f - length others)
                Hsh Hgrest Htk Ht)
      as (st' & tk' & Hloop & Htk' & Hin' & Htop).
    exists st'. split; [|exact Htop].
    replace f with (length others + (f - length others))%nat by lia.
    rewrite Hloop. exact (tvelLoop_at_end _ st' tk' Htk' Hin'). }
  unfold readTVelRows, tvelModelOf.
  destruct opt as [|x [|y opt]]; simpl in Hr; try discriminate;
    simpl in Hin; subst inp; cbn -[tvelLoop flat_map];
    rewrite E; cbn -[tvelLoop flat_map].
  - set (t := {| ttype := TT_EOL; nval := s; sval := None;
                 input := flat_map rowTokens others |}).
    match goal with
    | |- context [tvelLoop ?f ?st0] =>
        destruct (Hend t st0 f (eq_sym (app_nil_r _)) eq_refl (Hfuel t eq_refl))
          as (st' & -> & Htop)
    end.
    unfold tvelTopOf in Htop. cbn [tv_myLayerNumber tv_topDepth tv_topPVel
      tv_topSVel tv_topDensity tv_layers] in Htop.
    unfold tvelFirstRow, rowDensity. cbn [rowDepth rowPVel rowSVel rowOptional].
    rewrite <- Htop. reflexivity.
  - set (t := {| ttype := TT_EOL; nval := x; sval := None;
                 input := flat_map rowTokens others |}).
    match goal with
    | |- context [tvelLoop ?f ?st0] =>
        destruct (Hend t st0 f (eq_sym (app_nil_r _)) eq_refl (Hfuel t eq_refl))
          as (st' & -> & Htop)
    end.
    unfold tvelTopOf in Htop. cbn [tv_myLayerNumber tv_topDepth tv_topPVel
      tv_topSVel tv_topDensity tv_layers] in Htop.
    unfold tvelFirstRow, rowDensity. cbn [rowDepth rowPVel rowSVel rowOptional].
    rewrite <- Htop. reflexivity.
Qed.

Lemma readTVelFile_0_rows_aux (header1 header2 : list token) (modelName : string)
  (first : dataRow) (others : list dataRow) :
  noEOL header1 = true ->
  noEOL header2 = true ->
  forallb tvelShaped (first :: others) = true ->
  Forall (fun r => ~ sExceedsP r) (first :: others) ->
  readTVelFile_0
    (header1 ++ TK_EOL :: header2 ++ TK_EOL
       :: flat_map rowTokens (first :: others)) modelName
  = Returns (tvelModelOf modelName first others).
Proof.
  intros H1 H2 Hsh Hgood. unfold readTVelFile_0.
  destruct (skipLine_line header1
              (newStreamTokenizer
                 (header1 ++ TK_EOL :: header2 ++ TK_EOL
                    :: flat_map rowTokens (first :: others)))
              (header2 ++ TK_EOL :: flat_map rowTokens (first :: others))
              H1 eq_refl) as [nv1 ->].
  destruct (skipLine_line header2
              {| ttype := TT_EOL; nval := nv1; sval := None;
                 input := header2 ++ TK_EOL
                            :: flat_map rowTokens (first :: others) |}
              (flat_map rowTokens (first :: others)) H2 eq_refl) as [nv2 ->].
  apply (readTVelRows_rows
           {| ttype := TT_EOL; nval := nv2; sval := None;
              input := flat_map rowTokens (first :: others) |}
           modelName first others Hsh Hgood eq_refl).
Qed.

(** X13.  On a well-formed [.tvel] input (two header lines, then rows of
    three or four numbers, each ended by an end of line and none with the
    S velocity above the P velocity) the reader returns the model that
    the rows stand for: each row after the first closes a layer from the
    depth and velocities of the row before it to its own, unless the two
    depths are equal; a missing density is that of the row before (5571
    on the first row); and the last depth is the radius of the earth. *)
Theorem readTVelFile_0_rows (header1 header2 : list token) (modelName : string)
  (first : dataRow) (others : list dataRow) :
  noEOL header1 = true ->
  noEOL header2 = true ->
  forallb tvelShaped (first :: others) = true ->
  Forall (fun r => ~ sExceedsP r) (first :: others) ->
  readTVelFile_0
    (header1 ++ TK_EOL :: header2 ++ TK_EOL
       :: flat_map rowTokens (first :: others)) modelName
  = Returns (tvelModelOf modelName first others).
Proof.
  intros H1 H2 Hsh Hgood. unfold readTVelFile_0.
  destruct (skipLine_line header1
              (newStreamTokenizer
                 (header1 ++ TK_EOL :: header2 ++ TK_EOL
                    :: flat_map rowTokens (first :: others)))
              (header2 ++ TK_EOL :: flat_map rowTokens (first :: others))
              H1 eq_refl) as [nv1 ->].
  destruct (skipLine_line header2
              {| ttype := TT_EOL; nval := nv1; sval := None;
                 input := header2 ++ TK_EOL
                            :: flat_map rowTokens (first :: others) |}
              (flat_map rowTokens (first :: others)) H2 eq_refl) as [nv2 ->].
  apply (readTVelRows_rows
           {| ttype := TT_EOL; nval := nv2; sval := None;
              input := flat_map rowTokens (first :: others) |}
           modelName first others Hsh Hgood eq_refl).
Qed.

Lemma readTVelFile_0_rows_witness :
  noEOL [TK_WORD "model"] = true /\
  forallb tvelShaped (surfaceRow :: deeperRows) = true /\
  Forall (fun r => ~ sExceedsP r) (surfaceRow :: deeperRows) /\
  readTVelFile_0
    ([TK_WORD "model"] ++ TK_EOL :: [] ++ TK_EOL
       :: flat_map rowTokens (surfaceRow :: deeperRows)) "sample"
  = Returns (tvelModelOf "sample" surfaceRow deeperRows).
Proof.
  assert (Hgood : Forall (fun r => ~ sExceedsP r) (surfaceRow :: deeperRows))
    by (repeat constructor; intro H; discriminate H).
  split; [reflexivity|]. split; [reflexivity|]. split; [exact Hgood|].
  exact (readTVelFile_0_rows [TK_WORD "model"] [] "sample" surfaceRow deeperRows
           eq_refl eq_refl eq_refl Hgood).
Defined.

Lemma partitions_app (ls : list (VelocityLayer Q)) :
  forall from mid l,
  partitions from ls mid = true ->
  topDepth l == mid -> topDepth l < botDepth l ->
  partitions from (ls ++ [l]) (botDepth l) = true.
Proof.
  induction ls as [|a ls IH]; intros from mid l Hp Ht Hlt; [discriminate|].
  apply partitions_cons in Hp. destruct Hp as (Hta & Hlta & Hrest).
  destruct Hrest as [[-> Hb]|[Hne Hp]].
  - simpl. rewrite !andb_true_iff. repeat split.
    + now apply Qeq_bool_iff.
    + now apply Qlt_bool_iff.
    + apply Qeq_bool_iff. lra.
    + now apply Qlt_bool_iff.
    + apply Qeq_bool_iff. reflexivity.
  - destruct ls as [|b ls]; [congruence|].
    change ((a :: b :: ls) ++ [l]) with (a :: ((b :: ls) ++ [l])).
    cbn [partitions]. change ((b :: ls) ++ [l]) with (b :: (ls ++ [l])).
    cbv iota. change (b :: (ls ++ [l])) with ((b :: ls) ++ [l]).
    rewrite !andb_true_iff. repeat split.
    + now apply Qeq_bool_iff.
    + now apply Qlt_bool_iff.
    + exact (IH _ _ _ Hp Ht Hlt).
Qed.

(** Rows of strictly increasing depth add one layer each, and the layers
    partition the depths from the first row to the last. *)
Lemma tvelAddRow_deeper (rows : list dataRow) :
  forall (t : tvelTop) (d0 : Q),
  (tt_layers t = [] /\ tt_depth t == d0) \/
  partitions d0 (tt_layers t) (tt_depth t) = true ->
  deeper (tt_depth t) rows = true ->
  rows <> [] ->
  partitions d0 (tt_layers (fold_left tvelAddRow rows t))
    (tt_depth (fold_left tvelAddRow rows t)) = true /\
  length (tt_layers (fold_left tvelAddRow rows t))
    = (length (tt_layers t) + length rows)%nat /\
  tt_depth (fold_left tvelAddRow rows t)
    = rowDepth (last rows (mkDataRow 0 0 0 [])).
Proof.
  induction rows as [|r rows IH]; intros t d0 Hcov Hdeep Hne; [congruence|].
  simpl in Hdeep. apply andb_true_iff in Hdeep. destruct Hdeep as [Hlt Hdeep].
  apply Qlt_bool_iff in Hlt.
  assert (Hadd : Qneq_bool (tt_depth t) (rowDepth r) = true)
    by (apply Qneq_bool_iff; lra).
  assert (Hp1 : partitions d0 (tt_layers (tvelAddRow t r))
                  (tt_depth (tvelAddRow t r)) = true).
  { unfold tvelAddRow. rewrite Hadd. cbn [tt_layers tt_depth].
    destruct Hcov as [[-> Hd]|Hp].
    - simpl. rewrite !andb_true_iff. repeat split.
      + now apply Qeq_bool_iff.
      + now apply Qlt_bool_iff.
      + apply Qeq_bool_iff. reflexivity.
    - apply (partitions_app _ _ (tt_depth t)); simpl; try assumption.
      reflexivity. }
  assert (Hl1 : length (tt_layers (tvelAddRow t r)) = S (length (tt_layers t))).
  { unfold tvelAddRow. rewrite Hadd. cbn [tt_layers].
    rewrite length_app. simpl. lia. }
  destruct rows as [|r2 rows].
  - simpl fold_left. split; [exact Hp1|].
    split; [rewrite Hl1; cbn [length]; lia|reflexivity].
  - assert (Hne' : r2 :: rows <> []) by discriminate.
    destruct (IH (tvelAddRow t r) d0 (or_intror Hp1) Hdeep Hne')
      as (Hp & Hlen & Hd).
    cbn [fold_left]. cbn [fold_left] in Hp, Hlen, Hd.
    split; [exact Hp|]. split.
    + rewrite Hlen, Hl1. cbn [length]. lia.
    + rewrite Hd. reflexivity.
Qed.

(** X14.  A well-formed [.tvel] input whose first row is at depth 0 and
    whose rows have strictly increasing depths gives a model whose layers
    cover the depths from 0 to [radiusOfEarth] without gap or overlap,
    one layer per row after the first, with [radiusOfEarth] the depth of
    the last row. *)
Theorem readTVelFile_0_covers (header1 header2 : list token)
  (modelName : string) (first : dataRow) (others : list dataRow) :
  noEOL header1 = true ->
  noEOL header2 = true ->
  forallb tvelShaped (first :: others) = true ->
  Forall (fun r => ~ sExceedsP r) (first :: others) ->
  rowDepth first == 0 ->
  deeper (rowDepth first) others = true ->
  others <> [] ->
  exists m,
    readTVelFile_0
      (header1 ++ TK_EOL :: header2 ++ TK_EOL
         :: flat_map rowTokens (first :: others)) modelName = Returns m /\
    coversDepths m (radiusOfEarth m) = true /\
    length (layers m) = length others /\
    radiusOfEarth m = rowDepth (last others (mkDataRow 0 0 0 [])).
Proof.
  intros H1 H2 Hsh Hgood H0 Hdeep Hne.
  exists (tvelModelOf modelName first others).
  split; [now apply readTVelFile_0_rows_aux|].
  destruct (tvelAddRow_deeper others (tvelFirstRow first) 0
              (or_introl (conj eq_refl H0)) Hdeep Hne) as (Hp & Hlen & Hd).
  unfold tvelModelOf, coversDepths. cbn [layers radiusOfEarth].
  split; [exact Hp|]. split; [exact Hlen|exact Hd].
Qed.

Lemma readTVelFile_0_covers_witness :
  Forall (fun r => ~ sExceedsP r) (surfaceRow :: deeperRows) /\
  rowDepth surfaceRow == 0 /\
  deeper (rowDepth surfaceRow) deeperRows = true /\
  exists m,
    readTVelFile_0
      ([] ++ TK_EOL :: [] ++ TK_EOL
         :: flat_map rowTokens (surfaceRow :: deeperRows)) "sample" = Returns m /\
    coversDepths m (radiusOfEarth m) = true /\
    length (layers m) = length deeperRows /\
    radiusOfEarth m = rowDepth (last deeperRows (mkDataRow 0 0 0 [])).
Proof.
  assert (Hgood : Forall (fun r => ~ sExceedsP r) (surfaceRow :: deeperRows))
    by (repeat constructor; intro H; discriminate H).
  assert (Hne : deeperRows <> []) by discriminate.
  split; [exact Hgood|]. split; [reflexivity|]. split; [reflexivity|].
  exact (readTVelFile_0_covers [] [] "sample" surfaceRow deeperRows
           eq_refl eq_refl eq_refl Hgood (Qeq_refl 0) eq_refl Hne).
Defined.

(** ** Inputs the readers do not accept *)

Lemma tvelRow_open (st : tvelVars) (tk0 : StreamTokenizer) (r : dataRow) :
  tv_tokenIn st = nextToken tk0 ->
  input tk0 = openRowTokens r ->
  ~ sExceedsP r ->
  tvelRow st = Raises (VelocityModelException (ExpectedEOL (tv_myLayerNumber st))).
Proof.
  intros Htk Hin Hgood. unfold tvelRow. rewrite Htk.
  destruct tk0 as [ty nv sv inp]. destruct r as [d p s opt].
  unfold sExceedsP in Hgood. simpl in Hgood.
  assert (E : Qlt_bool p s = false) by (apply Qlt_bool_false; lra).
  unfold openRowTokens in Hin. simpl in Hin. subst inp.
  destruct opt as [|x [|y opt]]; simpl; rewrite E; reflexivity.
Qed.

Lemma readTVelRows_open (tk0 : StreamTokenizer) (modelName : string)
  (first : dataRow) (others : list dataRow) (r : dataRow) :
  forallb tvelShaped (first :: others) = true ->
  Forall (fun r => ~ sExceedsP r) (first :: others) ->
  ~ sExceedsP r ->
  input tk0 = flat_map rowTokens (first :: others) ++ openRowTokens r ->
  exists n,
    readTVelRows tk0 modelName
    = Raises (VelocityModelException (ExpectedEOL n)).
Proof.
  intros Hsh Hgood Hr Hin.
  simpl in Hsh. apply andb_true_iff in Hsh. destruct Hsh as [Hf Hsh].
  inversion Hgood as [|r' rows' Hgf Hgrest]; subst.
  destruct tk0 as [ty nv sv inp]. destruct first as [d p s opt].
  unfold tvelShaped in Hf. simpl in Hf.
  unfold sExceedsP in Hgf. simpl in Hgf.
  assert (E : Qlt_bool p s = false) by (apply Qlt_bool_false; lra).
  assert (Hfuel : forall t : StreamTokenizer,
            input t = flat_map rowTokens others ++ openRowTokens r ->
            (length others < S (length (input (nextToken t))))%nat).
  { intros t Ht. pose proof (rowTokens_length others).
    pose proof (nextToken_length_ge t) as Hge.
    rewrite Ht, length_app in Hge. unfold openRowTokens in Hge.
    simpl in Hge. lia. }
  assert (Hend : forall (t : StreamTokenizer) (st0 : tvelVars) (f : nat),
            input t = flat_map rowTokens others ++ openRowTokens r ->
            tv_tokenIn st0 = nextToken t ->
            (length others < f)%nat ->
            exists n,
              tvelLoop f st0
              = Some (Raises (VelocityModelException (ExpectedEOL n)))).
  { intros t st0 f Ht Htk Hlen.
    destruct (tvelLoop_rows others st0 t (openRowTokens r)
                (f - length others) Hsh Hgrest Htk Ht)
      as (st' & tk' & Hloop & Htk' & Hin' & _).
    exists (tv_myLayerNumber st').
    replace f with (length others + (f - length others))%nat by lia.
    rewrite Hloop.
    destruct (f - length others)%nat as [|k] eqn:Ek; [lia|].
    cbn [tvelLoop].
    assert (Hty : isEOF (ttype (tv_tokenIn st')) = false).
    { rewrite Htk'. unfold nextToken. rewrite Hin'. reflexivity. }
    rewrite Hty, (tvelRow_open st' tk' r Htk' Hin' Hr). reflexivity. }
  unfold readTVelRows.
  destruct opt as [|x [|y opt]]; simpl in Hf; try discriminate;
    simpl in Hin; subst inp; cbn -[tvelLoop flat_map openRowTokens];
    rewrite E; cbn -[tvelLoop flat_map openRowTokens].
  - set (t := {| ttype := TT_EOL; nval := s; sval := None;
                 input := flat_map rowTokens others ++ openRowTokens r |}).
    match goal with
    | |- context [tvelLoop ?f ?st0] =>
        destruct (Hend t st0 f eq_refl eq_refl (Hfuel t eq_refl)) as (n & ->)
    end.
    exists n. reflexivity.
  - set (t := {| ttype := TT_EOL; nval := x; sval := None;
                 input := flat_map rowTokens others ++ openRowTokens r |}).
    match goal with
    | |- context [tvelLoop ?f ?st0] =>
        destruct (Hend t st0 f eq_refl eq_refl (Hfuel t eq_refl)) as (n & ->)
    end.
    exists n. reflexivity.
Qed.

(** X15.  A [.tvel] input whose last row is not ended by an end of line
    is not accepted: after two header lines and at least one complete row,
    all with S not above P, a last row that the input ends in makes the
    reader raise the exception for a missing end of line. *)
Theorem readTVelFile_0_open_last_row (header1 header2 : list token)
  (modelName : string) (first : dataRow) (others : list dataRow)
  (lastRow : dataRow) :
  noEOL header1 = true ->
  noEOL header2 = true ->
  forallb tvelShaped (first :: others) = true ->
  Forall (fun r => ~ sExceedsP r) (first :: others) ->
  ~ sExceedsP lastRow ->
  exists n,
    readTVelFile_0
      (header1 ++ TK_EOL :: header2 ++ TK_EOL
         :: flat_map rowTokens (first :: others) ++ openRowTokens lastRow)
      modelName
    = Raises (VelocityModelException (ExpectedEOL n)).
Proof.
  intros H1 H2 Hsh Hgood Hr. unfold readTVelFile_0.
  destruct (skipLine_line header1
              (newStreamTokenizer
                 (header1 ++ TK_EOL :: header2 ++ TK_EOL
                    :: flat_map rowTokens (first :: others)
                         ++ openRowTokens lastRow))
              (header2 ++ TK_EOL :: flat_map rowTokens (first :: others)
                                      ++ openRowTokens lastRow)
              H1 eq_refl) as [nv1 ->].
  destruct (skipLine_line header2
              {| ttype := TT_EOL; nval := nv1; sval := None;
                 input := header2 ++ TK_EOL
                            :: flat_map rowTokens (first :: others)
                                 ++ openRowTokens lastRow |}
              (flat_map rowTokens (first :: others) ++ openRowTokens lastRow)
              H2 eq_refl) as [nv2 ->].
  apply (readTVelRows_open
           {| ttype := TT_EOL; nval := nv2; sval := None;
              input := flat_map rowTokens (first :: others)
                         ++ openRowTokens lastRow |}
           modelName first others lastRow Hsh Hgood Hr eq_refl).
Qed.

Lemma readTVelFile_0_open_last_row_witness :
  Forall (fun r => ~ sExceedsP r) (surfaceRow :: deeperRows) /\
  ~ sExceedsP (mkDataRow 300 9 5 []) /\
  exists n,
    readTVelFile_0
      ([] ++ TK_EOL :: [] ++ TK_EOL
         :: flat_map rowTokens (surfaceRow :: deeperRows)
              ++ openRowTokens (mkDataRow 300 9 5 [])) "sample"
    = Raises (VelocityModelException (ExpectedEOL n)).
Proof.
  assert (Hgood : Forall (fun r => ~ sExceedsP r) (surfaceRow :: deeperRows))
    by (repeat constructor; intro H; discriminate H).
  assert (Hr : ~ sExceedsP (mkDataRow 300 9 5 []))
    by (intro H; discriminate H).
  split; [exact Hgood|]. split; [exact Hr|].
  exact (readTVelFile_0_open_last_row [] [] "sample" surfaceRow deeperRows
           (mkDataRow 300 9 5 []) eq_refl eq_refl eq_refl Hgood Hr).
Defined.

Lemma whileNotEOL_noEOL (fuel : nat) :
  forall tk,
  noEOL (input tk) = true -> isEOL (ttype tk) = false ->
  whileNotEOL fuel tk = Diverges.
Proof.
  induction fuel as [|fuel IH]; intros tk Hno Hty; simpl; rewrite Hty.
  - reflexivity.
  - apply IH; unfold nextToken; destruct (input tk) as [|[n|s|] rest];
      simpl in *; try reflexivity; try assumption; discriminate.
Qed.

Lemma skipLine_noEOL (tk : StreamTokenizer) :
  noEOL (input tk) = true -> skipLine tk = Diverges.
Proof.
  intro Hno. unfold skipLine. apply whileNotEOL_noEOL;
    unfold nextToken; destruct (input tk) as [|[n|s|] rest];
    simpl in *; try reflexivity; try assumption; discriminate.
Qed.

Lemma countEOL_zero (ts : list token) : countEOL ts = O -> noEOL ts = true.
Proof.
  induction ts as [|[n|s|] ts IH]; simpl; intro H; auto; discriminate.
Qed.

Lemma countEOL_split (ts : list token) :
  (0 < countEOL ts)%nat ->
  exists h rest,
    ts = h ++ TK_EOL :: rest /\ noEOL h = true /\
    countEOL ts = S (countEOL rest).
Proof.
  induction ts as [|t ts IH]; simpl; intro H; [lia|].
  destruct t as [n|s|].
  - destruct (IH H) as (h & rest & -> & Hh & Hc).
    exists (TK_NUMBER n :: h), rest. repeat split; assumption.
  - destruct (IH H) as (h & rest & -> & Hh & Hc).
    exists (TK_WORD s :: h), rest. repeat split; assumption.
  - exists [], ts. repeat split.
Qed.

(** X16.  The [.tvel] reader skips its two header lines by reading tokens
    until an end of line.  On an input with fewer than two ends of line
    (an empty file, a single line) the skipping never sees one and the
    reader does not return. *)
Theorem readTVelFile_0_needs_two_lines (in_ : list token) (modelName : string) :
  (countEOL in_ < 2)%nat ->
  readTVelFile_0 in_ modelName = Diverges.
Proof.
  intro Hc. unfold readTVelFile_0.
  destruct (Nat.eq_dec (countEOL in_) 0) as [H0|H0].
  - rewrite (skipLine_noEOL (newStreamTokenizer in_)); [reflexivity|].
    now apply countEOL_zero.
  - destruct (countEOL_split in_) as (h & rest & -> & Hh & Hcount); [lia|].
    destruct (skipLine_line h (newStreamTokenizer (h ++ TK_EOL :: rest)) rest
                Hh eq_refl) as [nv ->].
    rewrite skipLine_noEOL; [reflexivity|].
    apply countEOL_zero. simpl. lia.
Qed.

Lemma readTVelFile_0_needs_two_lines_witness :
  (countEOL [TK_NUMBER 0; TK_NUMBER 6; TK_NUMBER 3; TK_EOL] < 2)%nat /\
  readTVelFile_0 [TK_NUMBER 0; TK_NUMBER 6; TK_NUMBER 3; TK_EOL] "sample"
  = Diverges.
Proof.
  assert (H : (countEOL [TK_NUMBER 0; TK_NUMBER 6; TK_NUMBER 3; TK_EOL] < 2)%nat)
    by (simpl; lia).
  split; [exact H|].
  exact (readTVelFile_0_needs_two_lines _ "sample" H).
Defined.

Lemma Qlt_bool_irrefl (x : Q) : Qlt_bool x x = false.
Proof. apply Qlt_bool_false. apply Qle_refl. Qed.

(** X17.  A file without data rows is not read as an empty model: a
    [.tvel] input that ends after its two header lines, and an empty
    [.nd] input, make the reader raise the exception for a missing end of
    line at layer 0. *)
Theorem readers_reject_no_rows (modelName : string) :
  (forall header1 header2,
     noEOL header1 = true -> noEOL header2 = true ->
     readTVelFile_0 (header1 ++ TK_EOL :: header2 ++ [TK_EOL]) modelName
     = Raises (VelocityModelException (ExpectedEOL 0))) /\
  readNDFile_0 [] modelName
  = Raises (VelocityModelException (ExpectedEOL 0)).
Proof.
  split; [|reflexivity].
  intros header1 header2 H1 H2. unfold readTVelFile_0.
  destruct (skipLine_line header1
              (newStreamTokenizer (header1 ++ TK_EOL :: header2 ++ [TK_EOL]))
              (header2 ++ [TK_EOL]) H1 eq_refl) as [nv1 ->].
  destruct (skipLine_line header2
              {| ttype := TT_EOL; nval := nv1; sval := None;
                 input := header2 ++ [TK_EOL] |}
              [] H2 eq_refl) as [nv2 ->].
  unfold readTVelRows. simpl. now rewrite Qlt_bool_irrefl.
Qed.

Lemma readers_reject_no_rows_witness :
  noEOL [TK_WORD "model"] = true /\
  readTVelFile_0 ([TK_WORD "model"] ++ TK_EOL :: [] ++ [TK_EOL]) "sample"
  = Raises (VelocityModelException (ExpectedEOL 0)).
Proof.
  split; [reflexivity|].
  exact (proj1 (readers_reject_no_rows "sample") [TK_WORD "model"] []
           eq_refl eq_refl).
Defined.

(** ** [validate] on what the readers return *)

Lemma validateLayers_joined (ls : list (VelocityLayer Q)) (prev : VelocityLayer Q) :
  joined (botDepth prev) ls = true ->
  validateLayers prev ls = forallb (fun l => negb (velocityRejected l)) ls.
Proof.
  intro Hj. pose proof (validateLayers_true ls prev) as Hiff.
  destruct (validateLayers prev ls);
    destruct (forallb (fun l => negb (velocityRejected l)) ls);
    try reflexivity.
  - destruct (proj1 Hiff eq_refl) as [_ H]. discriminate H.
  - apply Hiff. split; [assumption|reflexivity].
Qed.

Lemma validate_readerModel (m : VelocityModel Q) :
  readerModel m -> layers m <> [] ->
  validate m =
  Returns (metadataAccepted m
           && forallb (fun l => negb (velocityRejected l)) (layers m)).
Proof.
  intros (_ & _ & Hj & _) Hne.
  destruct (layers m) as [|first rest] eqn:El; [congruence|].
  destruct (Hj first rest eq_refl) as [Hjoined _].
  rewrite (validate_nonempty m first rest El), El.
  now rewrite validateLayers_joined.
Qed.

(** X18.  [validate] never finds a gap or a layer of zero thickness in a
    model that a reader returned: on such a model with at least one layer
    its verdict is that of the tests on the metadata and on the
    velocities of the layers alone, and this stays so after
    [fixDisconDepths] has reset the three boundary depths. *)
Theorem validate_after_reader (in_ : list token) (modelName : string)
  (m : VelocityModel Q) :
  readTVelFile_0 in_ modelName = Returns m \/
  readNDFile_0 in_ modelName = Returns m ->
  layers m <> [] ->
  validate m =
    Returns (metadataAccepted m
             && forallb (fun l => negb (velocityRejected l)) (layers m)) /\
  validate (snd (fixDisconDepths m)) =
    Returns (metadataAccepted (snd (fixDisconDepths m))
             && forallb (fun l => negb (velocityRejected l)) (layers m)).
Proof.
  intros Hread Hne.
  assert (Hm : readerModel m).
  { destruct Hread as [H|H].
    - exact (readTVelFile_0_model_aux in_ modelName m H).
    - exact (readNDFile_0_model_aux in_ modelName m H). }
  split; [exact (validate_readerModel m Hm Hne)|].
  apply (validate_readerModel (snd (fixDisconDepths m))); [|exact Hne].
  exact Hm.
Qed.

Lemma validate_after_reader_witness :
  exists m,
    readTVelFile_0 tvelInput "sample" = Returns m /\
    layers m <> [] /\
    validate m =
      Returns (metadataAccepted m
               && forallb (fun l => negb (velocityRejected l)) (layers m)).
Proof.
  destruct (readTVelFile_0 tvelInput "sample") as [m|e|] eqn:E.
  - assert (Hne : layers m <> []).
    { vm_compute in E. injection E as <-. discriminate. }
    exists m. split; [reflexivity|]. split; [exact Hne|].
    exact (proj1 (validate_after_reader tvelInput "sample" m (or_introl E) Hne)).
  - exfalso. vm_compute in E. discriminate E.
  - exfalso. vm_compute in E. discriminate E.
Defined.

(** ** What the earth-flattening transform returns *)

Section EarthFlattenMore.

Local Open Scope R_scope.

Variable defaultDensity : R.











(** X21.  On a model of non-zero radius whose first layer starts at depth
    0, as the layers of an earth model do, [earthFlattenTransform] does
    not return: the logarithm of 0 raises.  On a model of radius 0 with a
    layer the first division raises. *)
Theorem earthFlattenTransform_raises_at_surface (m : VelocityModel R)
  (first : VelocityLayer R) (rest : list (VelocityLayer R)) :
  layers m = first :: rest ->
  (radiusOfEarth m <> 0 -> topDepth first = 0 ->
   earthFlattenTransform defaultDensity m = Raises ValueError) /\
  (radiusOfEarth m = 0 ->
   earthFlattenTransform defaultDensity m = Raises ZeroDivisionError).
Proof.
  intro El. unfold earthFlattenTransform. rewrite El. simpl.
  unfold flattenLayer. split.
  - intros Hr H0. rewrite (div_nonzero _ _ Hr). cbn [bind].
    rewrite log_nonpositive; [reflexivity|].
    rewrite H0. unfold Rdiv. rewrite Rmult_0_l. lra.
  - intro Hr. unfold div.
    destruct (Req_dec_T (radiusOfEarth m) 0); [reflexivity|contradiction].
Qed.

End EarthFlattenMore.


Lemma earthFlattenTransform_raises_at_surface_witness :
  layers smallEarth = shell 0 0%R 1%R :: [shell 1 1%R 2%R; shell 2 2%R 4%R] /\
  (radiusOfEarth smallEarth <> 0)%R /\
  earthFlattenTransform 1%R smallEarth = Raises ValueError.
Proof.
  assert (Hr : (radiusOfEarth smallEarth <> 0)%R) by (simpl; lra).
  split; [reflexivity|]. split; [exact Hr|].
  exact (proj1 (earthFlattenTransform_raises_at_surface 1%R smallEarth
                  (shell 0 0%R 1%R) [shell 1 1%R 2%R; shell 2 2%R 4%R] eq_refl)
           Hr eq_refl).
Defined.

(** ** What [validate] accepts *)

Lemma metadataAccepted_iff (m : VelocityModel Q) :
  metadataAccepted m = true <->
  0 < radiusOfEarth m /\ 0 <= mohoDepth m /\ mohoDepth m <= cmbDepth m /\
  0 < cmbDepth m /\ cmbDepth m <= iocbDepth m /\ 0 < iocbDepth m /\
  0 <= minRadius m /\ 0 < maxRadius m /\ minRadius m < maxRadius m.
Proof.
  unfold metadataAccepted.
  rewrite !andb_true_iff, !negb_true_iff.
  rewrite !Qle_bool_false, !Qlt_bool_false. tauto.
Qed.

Lemma joined_iff (ls : list (VelocityLayer Q)) :
  forall d,
  joined d ls = true <->
  match ls with [] => True | first :: _ => d == topDepth first end /\
  (forall i a b, nth_error ls i = Some a -> nth_error ls (S i) = Some b ->
                 botDepth a == topDepth b) /\
  (forall l, In l ls -> ~ botDepth l == topDepth l).
Proof.
  induction ls as [|x ls IH]; intro d.
  - simpl. split; [intros _|reflexivity].
    split; [exact I|]. split.
    + intros i a b H. destruct i; discriminate.
    + intros l [].
  - cbn [joined]. rewrite !andb_true_iff, Qeq_bool_iff, Qneq_bool_iff, IH.
    split.
    + intros [[Hd Hx] (Hfirst & Hc & Ht)]. split; [assumption|]. split.
      * intros [|i] a b Ha Hb; simpl in Ha, Hb.
        -- injection Ha as <-. destruct ls as [|y ls]; [discriminate|].
           simpl in Hb. injection Hb as <-. exact Hfirst.
        -- exact (Hc i a b Ha Hb).
      * intros l [<-|Hin]; [assumption|now apply Ht].
    + intros (Hd & Hc & Ht). split.
      * split; [assumption|]. apply Ht. now left.
      * split; [|split].
        -- destruct ls as [|y ls]; [exact I|].
           exact (Hc O x y eq_refl eq_refl).
        -- intros i a b Ha Hb. exact (Hc (S i) a b Ha Hb).
        -- intros l Hin. apply Ht. now right.
Qed.

Lemma velocityRejected_false_iff (l : VelocityLayer Q) :
  velocityRejected l = false <->
  0 < topPVelocity l /\ 0 < botPVelocity l /\
  0 <= topSVelocity l /\ 0 <= botSVelocity l /\
  (topSVelocity l == 0 <-> botSVelocity l == 0).
Proof.
  unfold velocityRejected, nonPositiveP, negativeS, goesToZeroP, goesToZeroS,
    Qneq_bool.
  destruct (Qle_bool (topPVelocity l) 0) eqn:E1;
  destruct (Qle_bool (botPVelocity l) 0) eqn:E2;
  destruct (Qlt_bool (topSVelocity l) 0) eqn:E3;
  destruct (Qlt_bool (botSVelocity l) 0) eqn:E4;
  destruct (Qeq_bool (topPVelocity l) 0) eqn:E5;
  destruct (Qeq_bool (botPVelocity l) 0) eqn:E6;
  destruct (Qeq_bool (topSVelocity l) 0) eqn:E7;
  destruct (Qeq_bool (botSVelocity l) 0) eqn:E8;
  simpl; qprops;
  (split;
   [ intro H; try discriminate H;
     first [ exfalso; lra
           | repeat split; try lra; intro; first [assumption | exfalso; lra] ]
   | intros (H1 & H2 & H3 & H4 & [H5 H6]); try reflexivity; exfalso;
     first [ lra
           | pose proof (H5 E7); lra
           | pose proof (H6 E8); lra ] ]).
Qed.

(** X22.  What [validate] accepts, in full, for a model with at least one
    layer: it returns [True] exactly when the radius of the earth, the cmb
    and iocb depths and [maxRadius] are positive, the moho depth and
    [minRadius] are not negative, [mohoDepth <= cmbDepth <= iocbDepth],
    [minRadius < maxRadius], every layer starts at the depth the layer
    before it ends at, no layer has equal top and bottom depths, and in
    every layer the P velocities are positive, the S velocities are not
    negative and the S velocity is zero at both ends or at neither.
    Nothing else is tested. *)
Theorem validate_accepts_exactly (m : VelocityModel Q) :
  layers m <> [] ->
  (validate m = Returns true <->
   (0 < radiusOfEarth m /\ 0 <= mohoDepth m /\ mohoDepth m <= cmbDepth m /\
    0 < cmbDepth m /\ cmbDepth m <= iocbDepth m /\ 0 < iocbDepth m /\
    0 <= minRadius m /\ 0 < maxRadius m /\ minRadius m < maxRadius m) /\
   (forall i a b,
      nth_error (layers m) i = Some a -> nth_error (layers m) (S i) = Some b ->
      botDepth a == topDepth b) /\
   (forall l, In l (layers m) ->
      ~ botDepth l == topDepth l /\
      0 < topPVelocity l /\ 0 < botPVelocity l /\
      0 <= topSVelocity l /\ 0 <= botSVelocity l /\
      (topSVelocity l == 0 <-> botSVelocity l == 0))).
Proof.
  intro Hne. destruct (layers m) as [|first rest] eqn:El; [congruence|].
  rewrite (validate_nonempty m first rest El), El.
  set (prev := VelocityLayer9 0 (topDepth first) (topDepth first)
                 (topPVelocity first) (topPVelocity first)
                 (topSVelocity first) (topSVelocity first)
                 (topDensity first) (topDensity first)).
  assert (Hb : forall b : bool, Returns (num:=Q) b = Returns true <-> b = true).
  { intro b. split; intro H; [now injection H | now rewrite H]. }
  rewrite Hb, andb_true_iff, metadataAccepted_iff, validateLayers_true.
  rewrite (joined_iff (first :: rest) (botDepth prev)), forallb_forall.
  split.
  - intros (Hmeta & (_ & Hc & Ht) & Hv). split; [assumption|].
    split; [assumption|]. intros l Hin. split; [now apply Ht|].
    apply velocityRejected_false_iff. apply negb_true_iff. now apply Hv.
  - intros (Hmeta & Hc & Hl). split; [assumption|]. split.
    + split; [reflexivity|]. split; [assumption|].
      intros l Hin. now apply Hl.
    + intros l Hin. apply negb_true_iff. apply velocityRejected_false_iff.
      now apply Hl.
Qed.

Lemma validate_accepts_exactly_witness :
  layers oceanModel <> [] /\ validate oceanModel = Returns true.
Proof.
  assert (Hne : layers oceanModel <> []) by discriminate.
  split; [exact Hne|].
  apply (proj2 (validate_accepts_exactly oceanModel Hne)).
  split; [repeat split; (reflexivity || discriminate)|].
  split.
  - intros [|i] a b Ha Hb; simpl in Hb; [discriminate|destruct i; discriminate].
  - intros l [<-|[]]. split; [intro H; discriminate H|].
    repeat split; try reflexivity; try discriminate.
Defined.

(** ** [TauP_Pierce.depthCorrect] *)

Lemma scanBranchDepths_true (addDepth : Q) (branchDepths : list Q) :
  scanBranchDepths addDepth branchDepths true = true.
Proof.
  induction branchDepths as [|b rest IH]; simpl; [reflexivity|].
  now destruct (Qeq_bool addDepth b).
Qed.

Lemma scanBranchDepths_false (addDepth : Q) (branchDepths : list Q) :
  scanBranchDepths addDepth branchDepths false = false <->
  match branchDepths with
  | [] => True
  | b :: _ => addDepth == b
  end.
Proof.
  destruct branchDepths as [|b rest]; simpl; [tauto|].
  destruct (Qeq_bool addDepth b) eqn:E.
  - apply Qeq_bool_iff in E. tauto.
  - rewrite scanBranchDepths_true. apply Qeq_bool_neq in E.
    split; [discriminate|contradiction].
Qed.

Lemma scanAddDepths_false (addDepths branchDepths : list Q) :
  scanAddDepths addDepths branchDepths false = false <->
  forall a, In a addDepths -> scanBranchDepths a branchDepths false = false.
Proof.
  induction addDepths as [|a rest IH]; simpl.
  - split; [intros _ a []|reflexivity].
  - destruct (scanBranchDepths a branchDepths false) eqn:E.
    + split; [discriminate|]. intro H.
      rewrite (H a (or_introl eq_refl)) in E. discriminate.
    + rewrite IH. split.
      * intros H x [<-|Hin]; [assumption|now apply H].
      * intros H x Hin. apply H. now right.
Qed.

(** X23.  [depthCorrect] keeps the corrected model ([mustRecalc] stays
    [False]) exactly when the source depth is the one asked for and
    either there is no depth to add, or the corrected model has no branch
    depths, or every depth to add equals the first branch depth.  A depth
    to add that is a branch depth but not the first one forces the
    recalculation, and with no branch depths at all nothing does. *)
Theorem depthCorrect_mustRecalc (sourceDepth depth : Q)
  (addDepth branchDepths : list Q) :
  mustRecalc sourceDepth depth addDepth branchDepths = false <->
  sourceDepth == depth /\
  (addDepth = [] \/ branchDepths = [] \/
   exists first rest,
     branchDepths = first :: rest /\ forall a, In a addDepth -> a == first).
Proof.
  unfold mustRecalc. destruct (Qeq_bool sourceDepth depth) eqn:Es.
  - apply Qeq_bool_iff in Es.
    destruct addDepth as [|a0 more].
    + split; [intros _|reflexivity]. split; [assumption|now left].
    + rewrite scanAddDepths_false. split.
      * intro H. split; [assumption|]. right.
        destruct branchDepths as [|b rest]; [now left|]. right.
        exists b, rest. split; [reflexivity|].
        intros a Hin. specialize (H a Hin).
        now apply (scanBranchDepths_false a (b :: rest)) in H.
      * intros [_ [H|[H|(b & rest & -> & H)]]] a Hin.
        -- discriminate.
        -- subst. reflexivity.
        -- apply (scanBranchDepths_false a (b :: rest)). now apply H.
  - apply Qeq_bool_neq in Es. split; [discriminate|]. intros [H _].
    contradiction.
Qed.

(** ** The [.nd] reader on well-formed input *)

Lemma ndLine_step (st : ndVars) (tk0 : StreamTokenizer) (l : ndLineOf)
  (more : list token) :
  nd_tokenIn st = nextToken tk0 ->
  input tk0 = ndLineTokens l ++ more ->
  ndShaped l = true ->
  ~ ndSExceedsP l ->
  exists st' tk0',
    ndLine st = Returns st' /\
    nd_tokenIn st' = nextToken tk0' /\
    input tk0' = more /\
    ndTopOf st' = ndAddLine (ndTopOf st) l.
Proof.
  intros Htk Hin Hshape Hgood.
  destruct tk0 as [ty nv sv inp]. destruct l as [[d p s opt]|word others].
  - unfold ndLine, ndRow. rewrite Htk.
    simpl in Hshape. unfold ndSExceedsP, sExceedsP in Hgood. simpl in Hgood.
    assert (E : Qlt_bool p s = false) by (apply Qlt_bool_false; lra).
    destruct opt as [|x [|y [|z [|w opt]]]]; simpl in Hshape;
      try discriminate; simpl in Hin; subst inp; simpl; rewrite E; simpl.
    + eexists. exists (mkStreamTokenizer TT_EOL s None more).
      split; [reflexivity|]. repeat split.
    + eexists. exists (mkStreamTokenizer TT_EOL x None more).
      split; [reflexivity|]. repeat split.
    + eexists. exists (mkStreamTokenizer TT_EOL y None more).
      split; [reflexivity|]. repeat split.
    + eexists. exists (mkStreamTokenizer TT_EOL z None more).
      split; [reflexivity|]. repeat split.
  - unfold ndLine. rewrite Htk. simpl in Hin. subst inp. simpl in Hshape.
    simpl. unfold ndMarker. rewrite Htk.
    rewrite <- app_assoc. simpl.
    match goal with
    | |- context [whileNotEOL ?f ?t] =>
        destruct (whileNotEOL_line others t more f Hshape eq_refl eq_refl)
          as [nv' ->]
    end.
    + rewrite length_app. simpl. lia.
    + eexists. exists (mkStreamTokenizer TT_EOL nv' None more).
      split; [reflexivity|]. repeat split.
Qed.

Lemma ndLoop_lines (lines : list ndLineOf) :
  forall (st : ndVars) (tk0 : StreamTokenizer) (more : list token) (fuel : nat),
  forallb ndShaped lines = true ->
  Forall (fun l => ~ ndSExceedsP l) lines ->
  nd_tokenIn st = nextToken tk0 ->
  input tk0 = flat_map ndLineTokens lines ++ more ->
  exists st' tk0',
    ndLoop (length lines + fuel) st = ndLoop fuel st' /\
    nd_tokenIn st' = nextToken tk0' /\
    input tk0' = more /\
    ndTopOf st' = fold_left ndAddLine lines (ndTopOf st).
Proof.
  induction lines as [|l lines IH]; intros st tk0 more fuel Hsh Hgood Htk Hin.
  - exists st, tk0. repeat split; assumption.
  - simpl in Hsh. apply andb_true_iff in Hsh. destruct Hsh as [Hl Hsh].
    inversion Hgood as [|l' lines' Hgl Hgrest]; subst.
    simpl in Hin. rewrite <- app_assoc in Hin.
    assert (Hty : isEOF (ttype (nd_tokenIn st)) = false).
    { rewrite Htk. unfold nextToken. rewrite Hin.
      destruct l as [[d p s opt]|word others]; reflexivity. }
    destruct (ndLine_step st tk0 l _ Htk Hin Hl Hgl)
      as (st1 & tk1 & Hrow & Htk1 & Hin1 & Htop1).
    destruct (IH st1 tk1 more fuel Hsh Hgrest Htk1 Hin1)
      as (st' & tk0' & Hloop & Htk' & Hin' & Htop').
    exists st', tk0'. split; [|repeat split; try assumption].
    + cbn [length Nat.add ndLoop]. rewrite Hty, Hrow. exact Hloop.
    + rewrite Htop'. simpl. now rewrite Htop1.
Qed.

Lemma ndLoop_at_end (fuel : nat) (st : ndVars) (tk0 : StreamTokenizer) :
  nd_tokenIn st = nextToken tk0 -> input tk0 = [] ->
  ndLoop fuel st = Some (Returns st).
Proof.
  intros Htk Hin.
  assert (E : isEOF (ttype (nd_tokenIn st)) = true)
    by (rewrite Htk, (nextToken_at_end tk0 Hin); reflexivity).
  destruct fuel; simpl; now rewrite E.
Qed.

Lemma readNDFile_0_lines_aux (modelName : string) (first : dataRow)
  (lines : list ndLineOf) :
  ndShaped (NdRow first) = true ->
  forallb ndShaped lines = true ->
  ~ sExceedsP first ->
  Forall (fun l => ~ ndSExceedsP l) lines ->
  readNDFile_0 (rowTokens first ++ flat_map ndLineTokens lines) modelName
  = Returns (ndModelOf modelName first lines).
Proof.
  intros Hf Hsh Hgf Hgood. destruct first as [d p s opt].
  simpl in Hf. unfold sExceedsP in Hgf. simpl in Hgf.
  assert (E : Qlt_bool p s = false) by (apply Qlt_bool_false; lra).
  assert (Hfuel : forall t : StreamTokenizer,
            input t = flat_map ndLineTokens lines ->
            (length lines <= S (length (input (nextToken t))))%nat).
  { intros t Ht. pose proof (ndLineTokens_length lines).
    pose proof (nextToken_length_ge t). rewrite Ht in *. lia. }
  assert (Hend : forall (t : StreamTokenizer) (st0 : ndVars) (f : nat),
            input t = flat_map ndLineTokens lines ++ [] ->
            nd_tokenIn st0 = nextToken t ->
            (length lines <= f)%nat ->
            exists st',
              ndLoop f st0 = Some (Returns st') /\
              ndTopOf st' = fold_left ndAddLine lines (ndTopOf st0)).
  { intros t st0 f Ht Htk Hlen.
    destruct (ndLoop_lines lines st0 t [] (f - length lines)
                Hsh Hgood Htk Ht)
      as (st' & tk' & Hloop & Htk' & Hin' & Htop).
    exists st'. split; [|exact Htop].
    replace f with (length lines + (f - length lines))%nat by lia.
    rewrite Hloop. exact (ndLoop_at_end _ st' tk' Htk' Hin'). }
  unfold readNDFile_0, ndModelOf.
  destruct opt as [|x [|y [|z [|w opt]]]]; simpl in Hf; try discriminate;
    cbn -[ndLoop flat_map]; rewrite E; cbn -[ndLoop flat_map].
  - set (t := {| ttype := TT_EOL; nval := s; sval := None;
                 input := flat_map ndLineTokens lines |}).
    match goal with
    | |- context [ndLoop ?f ?st0] =>
        destruct (Hend t st0 f (eq_sym (app_nil_r _)) eq_refl (Hfuel t eq_refl))
          as (st' & -> & Htop)
    end.
    unfold ndTopOf in Htop. cbn -[fold_left] in Htop.
    unfold ndFirstRow. cbn [rowDepth rowPVel rowSVel rowOptional nth].
    rewrite <- Htop. reflexivity.
  - set (t := {| ttype := TT_EOL; nval := x; sval := None;
                 input := flat_map ndLineTokens lines |}).
    match goal with
    | |- context [ndLoop ?f ?st0] =>
        destruct (Hend t st0 f (eq_sym (app_nil_r _)) eq_refl (Hfuel t eq_refl))
          as (st' & -> & Htop)
    end.
    unfold ndTopOf in Htop. cbn -[fold_left] in Htop.
    unfold ndFirstRow. cbn [rowDepth rowPVel rowSVel rowOptional nth].
    rewrite <- Htop. reflexivity.
  - set (t := {| ttype := TT_EOL; nval := y; sval := None;
                 input := flat_map ndLineTokens lines |}).
    match goal with
    | |- context [ndLoop ?f ?st0] =>
        destruct (Hend t st0 f (eq_sym (app_nil_r _)) eq_refl (Hfuel t eq_refl))
          as (st' & -> & Htop)
    end.
    unfold ndTopOf in Htop. cbn -[fold_left] in Htop.
    unfold ndFirstRow. cbn [rowDepth rowPVel rowSVel rowOptional nth].
    rewrite <- Htop. reflexivity.
  - set (t := {| ttype := TT_EOL; nval := z; sval := None;
                 input := flat_map ndLineTokens lines |}).
    match goal with
    | |- context [ndLoop ?f ?st0] =>
        destruct (Hend t st0 f (eq_sym (app_nil_r _)) eq_refl (Hfuel t eq_refl))
          as (st' & -> & Htop)
    end.
    unfold ndTopOf in Htop. cbn -[fold_left] in Htop.
    unfold ndFirstRow. cbn [rowDepth rowPVel rowSVel rowOptional nth].
    rewrite <- Htop. reflexivity.
Qed.

(** X24.  On a well-formed [.nd] input (a first data row, then data rows
    of three to six numbers and marker lines, each ended by an end of
    line, no row with the S velocity above the P velocity) the reader
    returns the model that the lines stand for: a data row closes a layer
    from the row before it unless the depths are equal; a marker line
    [mantle] or [moho], [outer-core] or [cmb], [inner-core] or [icocb],
    in any case of letters, sets the moho, cmb or iocb depth to the depth
    of the data row before it; density, Qp and Qs left out of a row are
    those of the bottom of the layer before, which for the second row are
    the defaults 2.6, 1000 and 2000 whatever the first row gave. *)
Theorem readNDFile_0_lines (modelName : string) (first : dataRow)
  (lines : list ndLineOf) :
  ndShaped (NdRow first) = true ->
  forallb ndShaped lines = true ->
  ~ sExceedsP first ->
  Forall (fun l => ~ ndSExceedsP l) lines ->
  readNDFile_0 (rowTokens first ++ flat_map ndLineTokens lines) modelName
  = Returns (ndModelOf modelName first lines).
Proof.
  intros Hf Hsh Hgf Hgood.
  exact (readNDFile_0_lines_aux modelName first lines Hf Hsh Hgf Hgood).
Qed.

Lemma readNDFile_0_lines_witness :
  forallb ndShaped (ndCrust ++ NdMarker "Mantle" [] :: ndBelow) = true /\
  ~ sExceedsP ndFirst /\
  Forall (fun l => ~ ndSExceedsP l) (ndCrust ++ NdMarker "Mantle" [] :: ndBelow) /\
  readNDFile_0
    (rowTokens ndFirst
       ++ flat_map ndLineTokens (ndCrust ++ NdMarker "Mantle" [] :: ndBelow))
    "sample"
  = Returns (ndModelOf "sample" ndFirst
               (ndCrust ++ NdMarker "Mantle" [] :: ndBelow)).
Proof.
  assert (Hf : ~ sExceedsP ndFirst) by (intro H; discriminate H).
  assert (Hgood : Forall (fun l => ~ ndSExceedsP l)
                    (ndCrust ++ NdMarker "Mantle" [] :: ndBelow)).
  { repeat constructor; simpl; try tauto; intro H; discriminate H. }
  split; [reflexivity|]. split; [exact Hf|]. split; [exact Hgood|].
  exact (readNDFile_0_lines "sample" ndFirst
           (ndCrust ++ NdMarker "Mantle" [] :: ndBelow)
           eq_refl eq_refl Hf Hgood).
Defined.

Lemma ndAddLine_boundary (b : boundary) (t : ndTop) (l : ndLineOf) :
  nt_boundary b (ndAddLine t l)
  = if marks b l then nt_depth t else nt_boundary b t.
Proof.
  destruct l as [r|word others]; destruct b; simpl; reflexivity.
Qed.

Lemma ndAddLine_depth (t : ndTop) (l : ndLineOf) :
  nt_depth (ndAddLine t l)
  = match l with NdRow r => rowDepth r | NdMarker _ _ => nt_depth t end.
Proof. destruct l; reflexivity. Qed.

Lemma fold_ndAddLine_depth (lines : list ndLineOf) :
  forall t,
  nt_depth (fold_left ndAddLine lines t)
  = fold_left
      (fun d l => match l with NdRow r => rowDepth r | NdMarker _ _ => d end)
      lines (nt_depth t).
Proof.
  induction lines as [|l lines IH]; intro t; simpl; [reflexivity|].
  now rewrite IH, ndAddLine_depth.
Qed.

Lemma fold_ndAddLine_unmarked (b : boundary) (lines : list ndLineOf) :
  forall t,
  forallb (fun l => negb (marks b l)) lines = true ->
  nt_boundary b (fold_left ndAddLine lines t) = nt_boundary b t.
Proof.
  induction lines as [|l lines IH]; intros t H; simpl; [reflexivity|].
  simpl in H. apply andb_true_iff in H. destruct H as [Hl H].
  rewrite (IH _ H), ndAddLine_boundary.
  apply negb_true_iff in Hl. now rewrite Hl.
Qed.

Lemma ndModelOf_boundary (b : boundary) (modelName : string) (first : dataRow)
  (lines : list ndLineOf) :
  boundaryDepth b (ndModelOf modelName first lines)
  = nt_boundary b (fold_left ndAddLine lines (ndFirstRow first)).
Proof. destruct b; reflexivity. Qed.

(** X25.  In the model read from a well-formed [.nd] input, the moho, cmb
    or iocb depth is its default (35, 2889, 5153.9) when no line is a
    marker for it, and otherwise it is the depth of the last data row
    above the last marker for it. *)
Theorem readNDFile_0_markers (modelName : string) (first : dataRow)
  (lines : list ndLineOf) (b : boundary) :
  ndShaped (NdRow first) = true ->
  forallb ndShaped lines = true ->
  ~ sExceedsP first ->
  Forall (fun l => ~ ndSExceedsP l) lines ->
  exists m,
    readNDFile_0 (rowTokens first ++ flat_map ndLineTokens lines) modelName
      = Returns m /\
    (forallb (fun l => negb (marks b l)) lines = true ->
     boundaryDepth b m = boundaryDefault b) /\
    (forall above marker below,
       lines = above ++ marker :: below ->
       marks b marker = true ->
       forallb (fun l => negb (marks b l)) below = true ->
       boundaryDepth b m = lastRowDepth first above).
Proof.
  intros Hf Hsh Hgf Hgood. exists (ndModelOf modelName first lines).
  split; [now apply readNDFile_0_lines_aux|].
  rewrite ndModelOf_boundary. split.
  - intro Hno. rewrite (fold_ndAddLine_unmarked b lines _ Hno).
    destruct b; reflexivity.
  - intros above marker below -> Hm Hno.
    rewrite fold_left_app. cbn [fold_left].
    rewrite (fold_ndAddLine_unmarked b below _ Hno).
    rewrite ndAddLine_boundary, Hm, fold_ndAddLine_depth. reflexivity.
Qed.

Lemma readNDFile_0_markers_witness :
  ~ sExceedsP ndFirst /\
  Forall (fun l => ~ ndSExceedsP l) (ndCrust ++ NdMarker "Mantle" [] :: ndBelow) /\
  exists m,
    readNDFile_0
      (rowTokens ndFirst
         ++ flat_map ndLineTokens (ndCrust ++ NdMarker "Mantle" [] :: ndBelow))
      "sample" = Returns m /\
    boundaryDepth Moho m = 35 /\
    boundaryDepth Cmb m = boundaryDefault Cmb.
Proof.
  assert (Hf : ~ sExceedsP ndFirst) by (intro H; discriminate H).
  assert (Hgood : Forall (fun l => ~ ndSExceedsP l)
                    (ndCrust ++ NdMarker "Mantle" [] :: ndBelow)).
  { repeat constructor; simpl; try tauto; intro H; discriminate H. }
  split; [exact Hf|]. split; [exact Hgood|].
  destruct (readNDFile_0_markers "sample" ndFirst
              (ndCrust ++ NdMarker "Mantle" [] :: ndBelow) Moho
              eq_refl eq_refl Hf Hgood) as (m & Hm & _ & Hmoho).
  destruct (readNDFile_0_markers "sample" ndFirst
              (ndCrust ++ NdMarker "Mantle" [] :: ndBelow) Cmb
              eq_refl eq_refl Hf Hgood) as (m' & Hm' & Hcmb & _).
  rewrite Hm in Hm'. injection Hm' as <-.
  exists m. split; [exact Hm|]. split.
  - exact (Hmoho ndCrust (NdMarker "Mantle" []) ndBelow eq_refl eq_refl eq_refl).
  - exact (Hcmb eq_refl).
Defined.
